(** * Cart, order and payment settlement of the Commerce-Pro backend

    A shallow embedding of the checkout core: the Cart model
    (models/Cart.ts), the Order model (models/Order.ts), the order
    controller (createOrder, updateOrderStatus, getOrderById), the payment
    controller (createPaymentIntent, confirmPayment, handleWebhook,
    createRefund).

    Conventions of the embedding.
    - A JavaScript [number] that holds money is a rational [Q]; stock counts
      and quantities are integers [Z].  Binary floating-point rounding is not
      part of the model.
    - A MongoDB collection is a finite map from the document id (the
      lower-case hexadecimal string of its ObjectId, as [toString()] gives
      it) to the fields of the document; a loaded document is its id together
      with its fields, and a function that saves one takes the id as [_id].
      A request names a document by this string.
    - A nested path of a schema ([discount], [tax] and [shippingMethod] of
      a cart, [variant] of a line) is an object that always exists: it is a
      record of its optional sub-fields, and a truthiness test on the path
      itself ([if (this.discount)], [!item.variant]) is always true.  A
      sub-document ([discount] of an order) is an [option].
    - Arithmetic on a field that is not set gives [NaN]; a [NaN] assigned to
      a Number path fails its cast, and [save()] then rejects the document
      with a [ValidationError].
    - Of the schema validators, the model has those of the cart schema, those
      of the order schema at [Order.create] and the ones on stock
      ([inventory: min 0]) of the product schema.  A loaded order passes
      validation when it is saved again: the handlers assign it values of
      its enumerations only.  The string setters of the schemas ([trim],
      [lowercase]) are not modelled.
    - The arguments of a method have the types of its signature, and the
      fields of a request body the types the handler uses them at.
    - Every handler is a function of the database: it returns the database it
      leaves behind together with either the error it throws or the response
      it sends.  A write that happened before a throw stays in the database.
    - Values the platform supplies (clock, fresh ObjectId, order number) come
      in a record [Sys]; the payment provider is a record of functions
      [Stripe]. *)

From Stdlib Require Import QArith Qminmax Lqa ZArith String Ascii List.
From Stdlib Require Import DecimalString DecimalN.
From stdpp Require Import gmap strings list fin_maps.

Set Default Proof Using "Type".

(** ** Documents *)

(** The nested path [variant: { id, attributes }] of a cart or order line;
    a line without variant has no [id] and no attributes. *)
Module VariantRef.
Record t := mk { id : option string; attributes : list (string * string) }.
End VariantRef.

Definition noVariant : VariantRef.t := VariantRef.mk None [].

(** [ICartItem] (interfaces/Cart.ts), with the sub-document [_id]. *)
Module CartItem.
Record t := mk {
  _id : string;
  product : string;
  name : string;
  price : Q;
  quantity : Z;
  variant : VariantRef.t;
  image : option string;
  sku : option string;
  subtotal : Q;
  maxQuantity : option Z
}.
End CartItem.

Inductive DiscountType := percentage | fixed.

(** The nested paths [discount: { code, type, value, description }],
    [tax: { rate, amount }] and [shippingMethod: { id, name, price }] of the
    cart schema; none of their sub-fields is required. *)
Module CartDiscount.
Record t := mk {
  code : option string;
  type : option DiscountType;
  value : option Q;
  description : option string
}.
End CartDiscount.

Module CartTax.
Record t := mk { rate : option Q; amount : option Q }.
End CartTax.

Module CartShipping.
Record t := mk { id : option string; name : option string; price : option Q }.
End CartShipping.

(** [DiscountSchema] and [TaxSchema] of the order model: sub-documents, with
    their required fields. *)
Module Discount.
Record t := mk {
  code : string;
  type : DiscountType;
  value : Q;
  description : option string
}.
End Discount.

Module Tax.
Record t := mk { name : string; rate : Q; amount : Q }.
End Tax.

(** [ICart]. *)
Module Cart.
Record t := mk {
  customer : option string;
  sessionId : option string;
  items : list CartItem.t;
  subtotal : Q;
  discountCode : option string;
  discount : CartDiscount.t;
  tax : CartTax.t;
  shippingMethod : CartShipping.t;
  total : Q;
  currency : string;
  notes : option string
}.
End Cart.

(** [ProductVariantSchema] and [ProductSchema] (models/Product.ts): the fields
    the cart and the checkout read or write. *)
Module ProductVariant.
Record t := mk {
  _id : string;
  sku : string;
  price : Q;
  inventory : Z;
  attributes : list (string * string)
}.
End ProductVariant.

Module Product.
Record t := mk {
  name : string;
  price : Q;
  sku : option string;
  inventory : Z;
  isActive : bool;
  images : list string;
  variants : list ProductVariant.t;
  hasVariants : bool
}.
End Product.

(** [IAddress]. *)
Module Address.
Record t := mk {
  fullName : string;
  addressLine1 : string;
  addressLine2 : option string;
  city : string;
  state : string;
  postalCode : string;
  country : string;
  phone : option string
}.
End Address.

(** [IOrderItem]. *)
Module OrderItem.
Record t := mk {
  product : string;
  name : string;
  price : Q;
  quantity : Z;
  variant : VariantRef.t;
  image : option string;
  sku : option string;
  subtotal : Q
}.
End OrderItem.

(** [IShippingMethod] of an order; it is also the [shippingMethod] object of
    the checkout request. *)
Module ShippingMethod.
Record t := mk {
  name : string;
  carrier : string;
  price : Q;
  estimatedDelivery : option (Z * Z)
}.
End ShippingMethod.

Inductive PaymentStatus :=
| PayPending | PayProcessing | PayCompleted | PayRefunded | PayFailed.

(** [IPayment]. *)
Module Payment.
Record t := mk {
  method : string;
  status : PaymentStatus;
  transactionId : option string;
  amount : Q;
  currency : string;
  paidAt : option Z
}.
End Payment.

Inductive OrderStatus :=
| pending | processing | shipped | delivered | cancelled | refunded.

(** [IOrderStatusHistory]. *)
Module StatusEntry.
Record t := mk { status : OrderStatus; timestamp : Z; note : option string }.
End StatusEntry.

(** [IOrder]. *)
Module Order.
Record t := mk {
  orderNumber : string;
  customer : string;
  email : string;
  items : list OrderItem.t;
  billingAddress : Address.t;
  shippingAddress : Address.t;
  shippingMethod : ShippingMethod.t;
  payment : Payment.t;
  subtotal : Q;
  shippingCost : Q;
  discount : option Discount.t;
  tax : list Tax.t;
  total : Q;
  currency : string;
  status : OrderStatus;
  statusHistory : list StatusEntry.t;
  notes : option string
}.
End Order.

(** An element of the [tax] array of the object given to [Order.create],
    before it is validated against [TaxSchema]. *)
Module TaxInput.
Record t := mk { name : option string; rate : option Q; amount : option Q }.
End TaxInput.

(** The object given to [Order.create]: the fields [createOrder] sets.  The
    discount is an object with the fields of the cart's discount, when one
    is given. *)
Module OrderInput.
Record t := mk {
  orderNumber : string;
  customer : string;
  email : string;
  items : list OrderItem.t;
  billingAddress : Address.t;
  shippingAddress : Address.t;
  payment : Payment.t;
  shippingMethod : ShippingMethod.t;
  subtotal : Q;
  shippingCost : Q;
  tax : list TaxInput.t;
  discount : option CartDiscount.t;
  total : Q;
  currency : string;
  notes : option string
}.
End OrderInput.

#[global] Instance PaymentStatus_eq_dec : EqDecision PaymentStatus.
Proof. solve_decision. Defined.

#[global] Instance OrderStatus_eq_dec : EqDecision OrderStatus.
Proof. solve_decision. Defined.

(** ** The database, errors and the handler monad *)

Record Db := mkDb {
  products : gmap string Product.t;
  carts : gmap string Cart.t;
  orders : gmap string Order.t
}.

(** The message of a thrown error, one constructor per message template of
    the source. *)
Inductive Msg :=
| InvalidCartId                         (* 'Invalid cart ID' *)
| NoCartFound (cartId : string)         (* `No cart found with id: ${cartId}` *)
| AuthenticationRequired                (* 'Authentication required' *)
| CartNotOwned                          (* 'Cart does not belong to this user' *)
| EmptyCart                             (* 'Cannot create order with empty cart' *)
| ProductNotFoundId (productId : string) (* `Product not found: ${item.product}` *)
| ProductNoLongerAvailable (name : string)
                      (* `Product is no longer available: ${product.name}` *)
| VariantNotFoundFor (name : string)
                      (* `Variant not found for product: ${product.name}` *)
| NotEnoughInventoryFor (name : string) (available : Z)
      (* `Not enough inventory for ${product.name}. Available: ${inventory}` *)
| InvalidOrderId                        (* 'Invalid order ID' *)
| InvalidStatus                         (* `Invalid status. Must be one of: ...` *)
| NoOrderFound (orderId : string)       (* `No order found with id: ${id}` *)
| OrderNotFound (orderId : string)      (* `Order not found with id: ${orderId}` *)
| PaymentIntentIdRequired               (* 'Payment intent ID is required' *)
| OrderIdRequired                       (* 'Order ID is required' *)
| PaymentNotSuccessful                  (* `Payment not successful. Status: ${...}` *)
| NotAuthorizedOrder                    (* 'Not authorized to access this order' *)
| FailedToConfirmPayment                (* 'Failed to confirm payment' *)
| MissingStripeSignature                (* 'Missing Stripe signature' *)
| NoPaymentTransaction                  (* 'Order has no payment transaction' *)
| AlreadyRefunded                       (* 'Order is already refunded' *)
| FailedToCreateRefund                  (* 'Failed to create refund' *)
| ProductNotFound                       (* 'Product not found' *)
| ProductNotAvailable                   (* 'Product is not available' *)
| VariantNotFound                       (* 'Variant not found' *)
| NotEnoughInventory                    (* 'Not enough inventory' *)
| ItemNotFoundInCart                    (* 'Item not found in cart' *)
| InvalidDiscountCode                   (* 'Invalid discount code' *)
| InvalidShippingMethod                 (* 'Invalid shipping method' *)
| InventoryCannotBeNegative             (* 'Inventory cannot be negative' *)
| CustomerOrSessionRequired
                      (* 'Either customer or sessionId must be provided' *)
| CartValidationFailed                  (* 'Cart validation failed: ...' *)
| OrderValidationFailed.                (* 'Order validation failed: ...' *)

(** The class of a thrown error: the two [CustomAPIError] subclasses the
    controllers use, a plain [Error] (the cart methods), the errors Mongoose
    raises itself, and the error of a failed provider call. *)
Inductive Error :=
| BadRequestError (m : Msg)
| NotFoundError (m : Msg)
| PlainError (m : Msg)
| CastError (value : string)
| ValidationError (m : Msg)
| DuplicateKeyError
| DocumentNotFoundError
| StripeError.

Definition Result (A : Type) : Type := (Error + A)%type.

Definition M (A : Type) : Type := Db -> Result A * Db.

Definition ret {A} (a : A) : M A := fun db => (inr a, db).

Definition throw {A} (e : Error) : M A := fun db => (inl e, db).

Definition bind {A B} (m : M A) (k : A -> M B) : M B :=
  fun db =>
    match m db with
    | (inl e, db') => (inl e, db')
    | (inr a, db') => k a db'
    end.

Notation "'let*' x ':=' m 'in' k" := (bind m (fun x => k))
  (at level 10, x pattern, m at level 100, k at level 200).

Notation "m ';;' k" := (bind m (fun _ => k))
  (at level 100, k at level 200, right associativity).

(** [for (const x of xs) { await body(x) }]. *)
Fixpoint forEach {A} (body : A -> M unit) (xs : list A) : M unit :=
  match xs with
  | [] => ret tt
  | x :: rest => body x ;; forEach body rest
  end.

(** The values the platform supplies to a request. *)
Record Sys := mkSys {
  now : Z;          (* new Date(), as a timestamp *)
  fullYear : N;     (* new Date().getFullYear() *)
  month : N;        (* new Date().getMonth(), 0 to 11 *)
  newId : string    (* the ObjectId given to a created document *)
}.

(** ** Mongoose primitives *)

Definition isHexDigit (a : Ascii.ascii) : bool :=
  let n := Ascii.nat_of_ascii a in
  ((48 <=? n) && (n <=? 57) || (65 <=? n) && (n <=? 70)
   || (97 <=? n) && (n <=? 102))%nat.

(** [mongoose.Types.ObjectId.isValid] on a string: 24 hexadecimal digits. *)
Definition isValid (s : string) : bool :=
  (String.length s =? 24)%nat && forallb isHexDigit (list_ascii_of_string s).

(** [Model.findById(id)]: the id is cast to an ObjectId first, and a string
    that is not one makes the query reject with a [CastError] (the error
    middleware has a case for it).  The document is looked up under the
    string as it is given: ids are taken in the spelling of [toString()],
    under which the collection keeps them.  (Mongoose reads the upper-case
    spelling of an id as the same ObjectId; a statement about an id that is
    not found says so for an id in lower case.) *)
Definition findById {D} (coll : Db -> gmap string D) (id : string) : M (option D) :=
  fun db =>
    if isValid id then (inr (coll db !! id), db) else (inl (CastError id), db).

(** ** The Cart model (models/Cart.ts) *)

Local Open Scope Q_scope.

(** A JavaScript string used as a condition: the empty string is falsy. *)
Definition truthy (s : string) : bool := negb (String.eqb s "").

(** A JavaScript number in the arithmetic of the totals: a rational, or
    [None] for [NaN].  A Number field that is not set reads [undefined],
    which arithmetic and [Math.min] turn into [NaN], so an optional field is
    used as such a number as it is. *)
Definition Num : Type := option Q.

Definition lift2 (op : Q -> Q -> Q) (a b : Num) : Num :=
  match a, b with
  | Some x, Some y => Some (op x y)
  | _, _ => None
  end.

Definition add : Num -> Num -> Num := lift2 Qplus.
Definition sub : Num -> Num -> Num := lift2 Qminus.
Definition mul : Num -> Num -> Num := lift2 Qmult.
Definition mathMin : Num -> Num -> Num := lift2 Qmin.

(** The validators of [CartItemSchema]: the required fields, [min: 0] on
    [price], [subtotal] and [maxQuantity], [min: 1] on [quantity]. *)
Definition itemValid (item : CartItem.t) : bool :=
  truthy (CartItem.product item)
  && truthy (CartItem.name item)
  && Qle_bool 0 (CartItem.price item)
  && (1 <=? CartItem.quantity item)%Z
  && Qle_bool 0 (CartItem.subtotal item)
  && match CartItem.maxQuantity item with
     | Some maxQuantity => (0 <=? maxQuantity)%Z
     | None => true
     end.

Definition atLeast0 (field : option Q) : bool :=
  match field with
  | Some x => Qle_bool 0 x
  | None => true
  end.

(** The validators of [CartSchema]. *)
Definition cartValid (c : Cart.t) : bool :=
  forallb itemValid (Cart.items c)
  && Qle_bool 0 (Cart.subtotal c)
  && atLeast0 (CartDiscount.value (Cart.discount c))
  && match CartTax.rate (Cart.tax c) with
     | Some rate => Qle_bool 0 rate && Qle_bool rate 1
     | None => true
     end
  && atLeast0 (CartTax.amount (Cart.tax c))
  && atLeast0 (CartShipping.price (Cart.shippingMethod c))
  && Qle_bool 0 (Cart.total c).

(** The pre-validate hook: [!this.customer && !this.sessionId]. *)
Definition ownerless (c : Cart.t) : bool :=
  match Cart.customer c, Cart.sessionId c with
  | None, None => true
  | None, Some sessionId => negb (truthy sessionId)
  | Some _, _ => false
  end.

(** [this.save()] on a loaded cart to which numbers have been assigned: the
    pre-validate hook, the validators, then the write. *)
Definition saveCart (_id : string) (c : Cart.t) : M unit :=
  fun db =>
    if ownerless c then (inl (PlainError CustomerOrSessionRequired), db)
    else if cartValid c
    then (inr tt, mkDb (products db) (<[_id := c]> (carts db)) (orders db))
    else (inl (ValidationError CartValidationFailed), db).

(** [this.save()] on a loaded cart to which a [NaN] has been assigned: the
    assignment has failed its cast, so the document does not pass
    validation. *)
Definition saveMiscast {A} (c : Cart.t) : M A :=
  if ownerless c then throw (PlainError CustomerOrSessionRequired)
  else throw (ValidationError CartValidationFailed).

(** The three amounts [calculateTotals] works out in local variables.  The
    tests [if (this.discount)], [if (this.tax)] and [if (this.shippingMethod)]
    are on nested paths and always pass. *)
Definition sumSubtotals (items : list CartItem.t) : Q :=
  fold_left (fun total item => total + CartItem.subtotal item) items 0.

Definition discountAmount (discount : CartDiscount.t) (subtotal : Q) : Num :=
  match CartDiscount.type discount with
  | Some percentage => mul (Some subtotal) (CartDiscount.value discount)
  | _ => mathMin (CartDiscount.value discount) (Some subtotal)
  end.

Definition taxAmount (tax : CartTax.t) (subtotal : Q) (discountAmount : Num) : Num :=
  mul (sub (Some subtotal) discountAmount) (CartTax.rate tax).

Definition shippingCost (shippingMethod : CartShipping.t) : Num :=
  CartShipping.price shippingMethod.

(** The cart with the three fields [calculateTotals] assigns. *)
Definition withTotals (c : Cart.t) (subtotal taxAmount total : Q) : Cart.t :=
  Cart.mk (Cart.customer c) (Cart.sessionId c) (Cart.items c)
    subtotal (Cart.discountCode c) (Cart.discount c)
    (CartTax.mk (CartTax.rate (Cart.tax c)) (Some taxAmount))
    (Cart.shippingMethod c) total (Cart.currency c) (Cart.notes c).

Definition calculateTotals (_id : string) (c : Cart.t) : M Cart.t :=
  let subtotal := sumSubtotals (Cart.items c) in
  let discountAmount := discountAmount (Cart.discount c) subtotal in
  let taxAmount := taxAmount (Cart.tax c) subtotal discountAmount in
  let shippingCost := shippingCost (Cart.shippingMethod c) in
  let total := add (add (sub (Some subtotal) discountAmount) taxAmount) shippingCost in
  match taxAmount, total with
  | Some taxAmount, Some total =>
      let c' := withTotals c subtotal taxAmount total in
      saveCart _id c' ;; ret c'
  | _, _ => saveMiscast c
  end.

Definition withItems (c : Cart.t) (items : list CartItem.t) : Cart.t :=
  Cart.mk (Cart.customer c) (Cart.sessionId c) items
    (Cart.subtotal c) (Cart.discountCode c) (Cart.discount c) (Cart.tax c)
    (Cart.shippingMethod c) (Cart.total c) (Cart.currency c) (Cart.notes c).

(** [items.findIndex(pred)], [None] for -1. *)
Fixpoint findIndex {A} (pred : A -> bool) (xs : list A) : option nat :=
  match xs with
  | [] => None
  | x :: rest => if pred x then Some 0%nat else option_map S (findIndex pred rest)
  end.

Definition withQuantity (item : CartItem.t) (quantity : Z)
    (maxQuantity : option Z) : CartItem.t :=
  CartItem.mk (CartItem._id item) (CartItem.product item) (CartItem.name item)
    (CartItem.price item) quantity (CartItem.variant item)
    (CartItem.image item) (CartItem.sku item)
    (CartItem.price item * inject_Z quantity) maxQuantity.

(** [addItem].  A line is looked for by product and variant id when a
    variant id is given; without one the test is
    [item.product.toString() === productId && !item.variant], which no line
    passes, so the product is added as a new line. *)
Definition addItem (sys : Sys) (_id : string) (c : Cart.t) (productId : string)
    (quantity : Z) (variantId : option string) : M Cart.t :=
  let* found := findById products productId in
  match found with
  | None => throw (PlainError ProductNotFound)
  | Some product =>
    if negb (Product.isActive product) then throw (PlainError ProductNotAvailable)
    else
      let wantsVariant :=
        match variantId with Some v => truthy v | None => false end in
      let lookupVariant :=
        if wantsVariant && Product.hasVariants product
        then
          match variantId with
          | Some v =>
              match find (fun pv => String.eqb (ProductVariant._id pv) v)
                      (Product.variants product) with
              | Some pv => inr (Some pv)
              | None => inl (PlainError VariantNotFound)
              end
          | None => inr None
          end
        else inr None in
      match lookupVariant with
      | inl e => throw e
      | inr variant =>
        let inventory :=
          match variant with
          | Some pv => ProductVariant.inventory pv
          | None => Product.inventory product
          end in
        if (inventory <? quantity)%Z then throw (PlainError NotEnoughInventory)
        else
          let sameLine (item : CartItem.t) : bool :=
            if wantsVariant
            then String.eqb (CartItem.product item) productId
                 && bool_decide (VariantRef.id (CartItem.variant item) = variantId)
            else String.eqb (CartItem.product item) productId && false in
          match findIndex sameLine (Cart.items c) with
          | Some i =>
              match Cart.items c !! i with
              | Some item =>
                  let newQuantity := (CartItem.quantity item + quantity)%Z in
                  if (newQuantity >? inventory)%Z
                  then throw (PlainError NotEnoughInventory)
                  else calculateTotals _id
                         (withItems c
                            (<[i := withQuantity item newQuantity (Some inventory)]>
                               (Cart.items c)))
              | None => calculateTotals _id c
              end
          | None =>
              let price :=
                match variant with
                | Some pv => ProductVariant.price pv
                | None => Product.price product
                end in
              let sku :=
                match variant with
                | Some pv => Some (ProductVariant.sku pv)
                | None => Product.sku product
                end in
              let newItem :=
                CartItem.mk (newId sys) productId (Product.name product) price
                  quantity
                  match variant with
                  | Some pv => VariantRef.mk variantId (ProductVariant.attributes pv)
                  | None => noVariant
                  end
                  (head (Product.images product)) sku
                  (price * inject_Z quantity) (Some inventory) in
              calculateTotals _id (withItems c (Cart.items c ++ [newItem]))
          end
      end
  end.

Definition removeItem (_id : string) (c : Cart.t) (itemId : string) : M Cart.t :=
  calculateTotals _id
    (withItems c
       (filter (fun item => negb (String.eqb (CartItem._id item) itemId))
          (Cart.items c))).

Definition updateItemQuantity (_id : string) (c : Cart.t) (itemId : string)
    (quantity : Z) : M Cart.t :=
  match findIndex (fun item => String.eqb (CartItem._id item) itemId)
          (Cart.items c) with
  | None => throw (PlainError ItemNotFoundInCart)
  | Some i =>
      if (quantity <=? 0)%Z then removeItem _id c itemId
      else
        match Cart.items c !! i with
        | Some item =>
            let exceeds :=
              match CartItem.maxQuantity item with
              | Some maxQuantity => (quantity >? maxQuantity)%Z
              | None => false
              end in
            if exceeds then throw (PlainError NotEnoughInventory)
            else calculateTotals _id
                   (withItems c
                      (<[i := withQuantity item quantity (CartItem.maxQuantity item)]>
                         (Cart.items c)))
        | None => calculateTotals _id c
        end
  end.

(** [clearCart]: the three nested paths are set to [undefined], which unsets
    their sub-fields. *)
Definition clearCart (_id : string) (c : Cart.t) : M Cart.t :=
  let c' :=
    Cart.mk (Cart.customer c) (Cart.sessionId c) [] 0 None
      (CartDiscount.mk None None None None) (CartTax.mk None None)
      (CartShipping.mk None None None) 0 (Cart.currency c) (Cart.notes c) in
  saveCart _id c' ;; ret c'.

(** What [table[key]] finds in one of the mock tables, which are object
    literals: an entry of the table, a property that every object inherits
    from [Object.prototype] (truthy, and without the fields of an entry), or
    nothing. *)
Inductive Lookup (A : Type) :=
| Entry (a : A)
| Inherited
| Missing.

Arguments Entry {A} a.
Arguments Inherited {A}.
Arguments Missing {A}.

Definition inherited (key : string) : bool :=
  existsb (String.eqb key)
    ["constructor"; "__proto__"; "hasOwnProperty"; "isPrototypeOf";
     "propertyIsEnumerable"; "toLocaleString"; "toString"; "valueOf";
     "__defineGetter__"; "__defineSetter__"; "__lookupGetter__";
     "__lookupSetter__"]%string.

(** The mock table of discount codes in [applyDiscount]. *)
Definition validCodes (code : string) : Lookup (DiscountType * Q * string) :=
  if String.eqb code "WELCOME10"
  then Entry (percentage, 1 # 10, "10% off your order"%string)
  else if String.eqb code "SAVE20"
  then Entry (percentage, 2 # 10, "20% off your order"%string)
  else if String.eqb code "FLAT5"
  then Entry (fixed, 5, "$5 off your order"%string)
  else if inherited code then Inherited
  else Missing.

(** [applyDiscount].  For an inherited property the fields [type], [value]
    and [description] read [undefined]. *)
Definition applyDiscount (_id : string) (c : Cart.t) (code : string) : M Cart.t :=
  let withDiscount (d : CartDiscount.t) : Cart.t :=
    Cart.mk (Cart.customer c) (Cart.sessionId c)
      (Cart.items c) (Cart.subtotal c) (Some code) d (Cart.tax c)
      (Cart.shippingMethod c) (Cart.total c) (Cart.currency c)
      (Cart.notes c) in
  match validCodes code with
  | Missing => throw (PlainError InvalidDiscountCode)
  | Entry (type, value, description) =>
      calculateTotals _id
        (withDiscount
           (CartDiscount.mk (Some code) (Some type) (Some value) (Some description)))
  | Inherited =>
      calculateTotals _id (withDiscount (CartDiscount.mk (Some code) None None None))
  end.

(** The mock table of shipping methods in [setShippingMethod]. *)
Definition shippingMethods (methodId : string) : Lookup CartShipping.t :=
  let entry id name price :=
    Entry (CartShipping.mk (Some id) (Some name) (Some price)) in
  if String.eqb methodId "standard"
  then entry "standard"%string "Standard Shipping"%string (599 # 100)
  else if String.eqb methodId "express"
  then entry "express"%string "Express Shipping"%string (1499 # 100)
  else if String.eqb methodId "free"
  then entry "free"%string "Free Shipping"%string 0
  else if inherited methodId then Inherited
  else Missing.

(** [setShippingMethod].  An inherited property is not an object with the
    fields of the path: the assignment leaves the path without a price or
    fails its cast, and [save()] at the end of [calculateTotals] rejects the
    document. *)
Definition setShippingMethod (_id : string) (c : Cart.t) (methodId : string)
    : M Cart.t :=
  match shippingMethods methodId with
  | Missing => throw (PlainError InvalidShippingMethod)
  | Entry m =>
      calculateTotals _id
        (Cart.mk (Cart.customer c) (Cart.sessionId c)
           (Cart.items c) (Cart.subtotal c) (Cart.discountCode c)
           (Cart.discount c) (Cart.tax c) m (Cart.total c)
           (Cart.currency c) (Cart.notes c))
  | Inherited => saveMiscast c
  end.

(** The mutating methods of the cart, as one type. *)
Inductive CartMutation :=
| AddItem (productId : string) (quantity : Z) (variantId : option string)
| UpdateItemQuantity (itemId : string) (quantity : Z)
| RemoveItem (itemId : string)
| ClearCart
| ApplyDiscount (code : string)
| SetShippingMethod (methodId : string).

Definition mutate (sys : Sys) (_id : string) (c : Cart.t) (m : CartMutation)
    : M Cart.t :=
  match m with
  | AddItem productId quantity variantId =>
      addItem sys _id c productId quantity variantId
  | UpdateItemQuantity itemId quantity => updateItemQuantity _id c itemId quantity
  | RemoveItem itemId => removeItem _id c itemId
  | ClearCart => clearCart _id c
  | ApplyDiscount code => applyDiscount _id c code
  | SetShippingMethod methodId => setShippingMethod _id c methodId
  end.

(** ** The Order model (models/Order.ts) *)

(** [String(n)] for a natural number. *)
Definition decimal (n : N) : string := NilZero.string_of_uint (N.to_uint n).

Fixpoint repeatString (n : nat) (pad : string) : string :=
  match n with
  | O => ""
  | S k => pad +:+ repeatString k pad
  end.

(** [s.padStart(width, '0')]. *)
Definition padStart (width : nat) (s : string) : string :=
  repeatString (width - String.length s) "0" +:+ s.

(** [s.split(sep)] for a one-character separator. *)
Fixpoint split (sep : ascii) (s : string) : list string :=
  match s with
  | EmptyString => [EmptyString]
  | String a rest =>
      if Ascii.eqb a sep then EmptyString :: split sep rest
      else
        match split sep rest with
        | seg :: segs => String a seg :: segs
        | [] => [String a EmptyString]
        end
  end.

Definition digitValue (a : ascii) : option N :=
  let n := N_of_ascii a in
  if ((48 <=? n) && (n <=? 57))%N then Some (n - 48)%N else None.

Fixpoint parseDigits (acc : option N) (s : string) : option N :=
  match s with
  | EmptyString => acc
  | String a rest =>
      match digitValue a with
      | Some d =>
          parseDigits
            (Some (10 * match acc with Some n => n | None => 0 end + d)%N) rest
      | None => acc
      end
  end.

(** [parseInt(s, 10)] on the segment of an order number: the value of the
    leading decimal digits, [None] for [NaN] (no leading digit, or no such
    segment).  Stored order numbers come from [generateOrderNumber], so the
    sign and white-space prefixes [parseInt] also accepts do not occur.  The
    value is exact, as a JavaScript number is up to 2^53; the rounding of a
    longer sequence number is not part of the model. *)
Definition parseInt (s : option string) : option N :=
  match s with
  | Some str => parseDigits None str
  | None => None
  end.

(** The greatest string of a list in code-point order. *)
Definition maxString (xs : list string) : option string :=
  fold_left
    (fun best x =>
       match best with
       | Some b => if String.ltb b x then Some x else Some b
       | None => Some x
       end)
    xs None.

(** [Order.generateOrderNumber()]: the month prefix, then the sequence
    number after the greatest order number that has this prefix. *)
Definition orderNumberFor (sys : Sys) (existing : list string) : string :=
  let prefix :=
    "ORD-" +:+ decimal (fullYear sys) +:+ padStart 2 (decimal (month sys + 1)) in
  let lastOrder := maxString (filter (fun n => String.prefix prefix n) existing) in
  let nextNumber :=
    match lastOrder with
    | Some orderNumber =>
        match parseInt (nth_error (split "-" orderNumber) 2) with
        | Some lastNumber => Some (lastNumber + 1)%N
        | None => None
        end
    | None => Some 1%N
    end in
  prefix +:+ "-"
  +:+ padStart 5 match nextNumber with Some n => decimal n | None => "NaN" end.

Definition orderNumbers (db : Db) : list string :=
  map (fun kv => Order.orderNumber (snd kv)) (map_to_list (orders db)).

Definition generateOrderNumber (sys : Sys) : M string :=
  fun db => (inr (orderNumberFor sys (orderNumbers db)), db).

Definition withStatusHistory (o : Order.t) (h : list StatusEntry.t) : Order.t :=
  Order.mk (Order.orderNumber o) (Order.customer o)
    (Order.email o) (Order.items o) (Order.billingAddress o)
    (Order.shippingAddress o) (Order.shippingMethod o) (Order.payment o)
    (Order.subtotal o) (Order.shippingCost o) (Order.discount o) (Order.tax o)
    (Order.total o) (Order.currency o) (Order.status o) h (Order.notes o).

Definition withStatus (o : Order.t) (status : OrderStatus) : Order.t :=
  Order.mk (Order.orderNumber o) (Order.customer o)
    (Order.email o) (Order.items o) (Order.billingAddress o)
    (Order.shippingAddress o) (Order.shippingMethod o) (Order.payment o)
    (Order.subtotal o) (Order.shippingCost o) (Order.discount o) (Order.tax o)
    (Order.total o) (Order.currency o) status (Order.statusHistory o)
    (Order.notes o).

Definition withPayment (o : Order.t) (payment : Payment.t) : Order.t :=
  Order.mk (Order.orderNumber o) (Order.customer o)
    (Order.email o) (Order.items o) (Order.billingAddress o)
    (Order.shippingAddress o) (Order.shippingMethod o) payment
    (Order.subtotal o) (Order.shippingCost o) (Order.discount o) (Order.tax o)
    (Order.total o) (Order.currency o) (Order.status o) (Order.statusHistory o)
    (Order.notes o).

Definition putOrder (_id : string) (o : Order.t) (db : Db) : Db :=
  mkDb (products db) (carts db) (<[_id := o]> (orders db)).

(** *** The validators of the order schema *)

Definition nonNegative (x : Q) : bool := Qle_bool 0 x.

(** [OrderItemSchema]: [product] is cast to an ObjectId. *)
Definition orderItemValid (item : OrderItem.t) : bool :=
  isValid (OrderItem.product item)
  && truthy (OrderItem.name item)
  && nonNegative (OrderItem.price item)
  && (1 <=? OrderItem.quantity item)%Z
  && nonNegative (OrderItem.subtotal item).

(** The required fields of [billingAddress] and [shippingAddress]. *)
Definition addressValid (a : Address.t) : bool :=
  truthy (Address.fullName a)
  && truthy (Address.addressLine1 a)
  && truthy (Address.city a)
  && truthy (Address.state a)
  && truthy (Address.postalCode a)
  && truthy (Address.country a).

(** [ShippingMethodSchema]. *)
Definition shippingMethodValid (m : ShippingMethod.t) : bool :=
  truthy (ShippingMethod.name m)
  && truthy (ShippingMethod.carrier m)
  && nonNegative (ShippingMethod.price m)
  && match ShippingMethod.estimatedDelivery m with
     | Some (min, max) => (0 <=? min)%Z && (0 <=? max)%Z
     | None => true
     end.

(** [PaymentSchema]: [method] is one of the enumeration. *)
Definition paymentValid (p : Payment.t) : bool :=
  existsb (String.eqb (Payment.method p))
    ["credit_card"; "paypal"; "stripe"; "bank_transfer"; "cash_on_delivery"]%string
  && nonNegative (Payment.amount p)
  && truthy (Payment.currency p).

(** [TaxSchema]: [name], [rate] and [amount] are required, the rate is
    between 0 and 1, the amount not negative. *)
Definition taxOf (t : TaxInput.t) : option Tax.t :=
  match TaxInput.name t, TaxInput.rate t, TaxInput.amount t with
  | Some name, Some rate, Some amount =>
      if truthy name && nonNegative rate && Qle_bool rate 1 && nonNegative amount
      then Some (Tax.mk name rate amount)
      else None
  | _, _, _ => None
  end.

(** [DiscountSchema]: [code], [type] and [value] are required, the value is
    not negative. *)
Definition discountOf (d : CartDiscount.t) : option Discount.t :=
  match CartDiscount.code d, CartDiscount.type d, CartDiscount.value d with
  | Some code, Some type, Some value =>
      if truthy code && nonNegative value
      then Some (Discount.mk code type value (CartDiscount.description d))
      else None
  | _, _, _ => None
  end.

(** [xs.map(f)] for an [f] that may fail: the results, when every one is
    there. *)
Fixpoint allOf {A B} (f : A -> option B) (xs : list A) : option (list B) :=
  match xs with
  | [] => Some []
  | x :: rest =>
      match f x, allOf f rest with
      | Some y, Some ys => Some (y :: ys)
      | _, _ => None
      end
  end.

(** The new order document, when the object passes the validators of
    [OrderSchema]; [status] and [statusHistory] take their defaults. *)
Definition validated (doc : OrderInput.t) : option Order.t :=
  let discount :=
    match OrderInput.discount doc with
    | Some d => option_map Some (discountOf d)
    | None => Some None
    end in
  match allOf taxOf (OrderInput.tax doc), discount with
  | Some tax, Some discount =>
      if truthy (OrderInput.orderNumber doc)
         && isValid (OrderInput.customer doc)
         && truthy (OrderInput.email doc)
         && negb (bool_decide (OrderInput.items doc = []))
         && forallb orderItemValid (OrderInput.items doc)
         && addressValid (OrderInput.billingAddress doc)
         && addressValid (OrderInput.shippingAddress doc)
         && shippingMethodValid (OrderInput.shippingMethod doc)
         && paymentValid (OrderInput.payment doc)
         && nonNegative (OrderInput.subtotal doc)
         && nonNegative (OrderInput.shippingCost doc)
         && nonNegative (OrderInput.total doc)
         && truthy (OrderInput.currency doc)
      then
        Some (Order.mk (OrderInput.orderNumber doc) (OrderInput.customer doc)
                (OrderInput.email doc) (OrderInput.items doc)
                (OrderInput.billingAddress doc) (OrderInput.shippingAddress doc)
                (OrderInput.shippingMethod doc) (OrderInput.payment doc)
                (OrderInput.subtotal doc) (OrderInput.shippingCost doc)
                discount tax (OrderInput.total doc) (OrderInput.currency doc)
                pending [] (OrderInput.notes doc))
      else None
  | _, _ => None
  end.

(** [Order.create(doc)]: the document is validated; the pre-save hook of a
    new document records the first status-history entry; the insert is
    refused when the [_id] or the unique [orderNumber] is taken. *)
Definition createOrderDocument (sys : Sys) (doc : OrderInput.t) : M Order.t :=
  fun db =>
    match validated doc with
    | None => (inl (ValidationError OrderValidationFailed), db)
    | Some new =>
        if bool_decide (is_Some (orders db !! newId sys))
           || existsb (String.eqb (Order.orderNumber new)) (orderNumbers db)
        then (inl DuplicateKeyError, db)
        else
          let o :=
            withStatusHistory new
              (Order.statusHistory new
               ++ [StatusEntry.mk (Order.status new) (now sys)
                     (Some "Order created")]) in
          (inr o, putOrder (newId sys) o db)
    end.

(** [order.save()] on a loaded document: the pre-save hook appends a history
    entry when the status was set to a different value. *)
Definition saveOrder (sys : Sys) (_id : string) (loaded modified : Order.t)
    : M Order.t :=
  let o :=
    if bool_decide (Order.status modified = Order.status loaded) then modified
    else
      withStatusHistory modified
        (Order.statusHistory modified
         ++ [StatusEntry.mk (Order.status modified) (now sys) None]) in
  fun db => (inr o, putOrder _id o db).

(** ** The order controller (controllers/orderController.ts) *)

(** [req.user], set by the authentication middleware. *)
Module User.
Record t := mk { userId : string; email : string; role : string }.
End User.

(** The refund object of the provider: its id, the amount in cents and the
    status. *)
Module Refund.
Record t := mk { id : string; amount : Q; status : string }.
End Refund.

(** A JSON response: the HTTP status and the body. *)
Inductive Body :=
| OrderBody (_id : string) (order : Order.t)
                                       (* { success: true, order } *)
| MessageOrderBody (message : string) (_id : string) (order : Order.t)
                                       (* { success: true, message, order } *)
| RefundBody (message : string) (refund : Refund.t) (_id : string) (order : Order.t)
                                       (* { success: true, message, refund, order } *)
| ReceivedBody                         (* { received: true } *)
| WebhookFailedBody.
                      (* { success: false, error: 'Webhook processing failed' } *)

Record Response := mkResponse { statusCode : Z; body : Body }.

Definition OK : Z := 200.
Definition CREATED : Z := 201.
Definition BAD_REQUEST : Z := 400.

(** The request of [POST /api/v1/orders]. *)
Module CreateOrderReq.
Record t := mk {
  user : option User.t;
  cartId : string;
  shippingAddress : Address.t;
  paymentMethod : string;
  shippingMethod : ShippingMethod.t;
  notes : option string
}.
End CreateOrderReq.

(** [item.variant && item.variant.id]: the variant id of a line that has
    one. *)
Definition lineVariantId (variant : VariantRef.t) : option string :=
  match VariantRef.id variant with
  | Some id => if truthy id then Some id else None
  | None => None
  end.

(** One turn of the loop "Check inventory for all items". *)
Definition checkItem (item : CartItem.t) : M unit :=
  let* found := findById products (CartItem.product item) in
  match found with
  | None => throw (NotFoundError (ProductNotFoundId (CartItem.product item)))
  | Some product =>
      if negb (Product.isActive product)
      then throw (BadRequestError (ProductNoLongerAvailable (Product.name product)))
      else
        let checkStock (inventory : Z) : M unit :=
          if (inventory <? CartItem.quantity item)%Z
          then throw (BadRequestError
                        (NotEnoughInventoryFor (Product.name product) inventory))
          else ret tt in
        match lineVariantId (CartItem.variant item) with
        | Some vid =>
            match find (fun pv => String.eqb (ProductVariant._id pv) vid)
                    (Product.variants product) with
            | None => throw (NotFoundError (VariantNotFoundFor (Product.name product)))
            | Some pv => checkStock (ProductVariant.inventory pv)
            end
        | None => checkStock (Product.inventory product)
        end
  end.

(** What a loaded product document has had modified before [product.save()]. *)
Inductive ProductChange :=
| NoChange
| SetInventory (inventory : Z)
| SetVariantInventory (index : nat) (inventory : Z).

Definition withInventory (p : Product.t) (inventory : Z) : Product.t :=
  Product.mk (Product.name p) (Product.price p) (Product.sku p) inventory
    (Product.isActive p) (Product.images p) (Product.variants p)
    (Product.hasVariants p).

Definition withVariantInventory (p : Product.t) (index : nat) (inventory : Z)
    : Product.t :=
  Product.mk (Product.name p) (Product.price p) (Product.sku p)
    (Product.inventory p) (Product.isActive p) (Product.images p)
    (alter (fun pv =>
              ProductVariant.mk (ProductVariant._id pv) (ProductVariant.sku pv)
                (ProductVariant.price pv) inventory (ProductVariant.attributes pv))
       index (Product.variants p))
    (Product.hasVariants p).

Definition applyChange (ch : ProductChange) (p : Product.t) : Product.t :=
  match ch with
  | NoChange => p
  | SetInventory v => withInventory p v
  | SetVariantInventory i v => withVariantInventory p i v
  end.

(** The change a line makes to the loaded product: [inventory += delta] on
    the variant of the line, or on the product when the line has none. *)
Definition adjustInventory (variant : VariantRef.t) (delta : Z)
    (p : Product.t) : ProductChange :=
  match lineVariantId variant with
  | Some vid =>
      match findIndex (fun pv => String.eqb (ProductVariant._id pv) vid)
              (Product.variants p) with
      | Some i =>
          match Product.variants p !! i with
          | Some pv => SetVariantInventory i (ProductVariant.inventory pv + delta)
          | None => NoChange
          end
      | None => NoChange
      end
  | None => SetInventory (Product.inventory p + delta)
  end.

(** The [min: 0] validators of [inventory] in the product schema. *)
Definition inventoryValid (p : Product.t) : bool :=
  (0 <=? Product.inventory p)%Z
  && forallb (fun pv => (0 <=? ProductVariant.inventory pv)%Z) (Product.variants p).

(** [product.save()] on a loaded document: Mongoose validates the document
    in memory, then writes the modified paths to the stored document. *)
Definition saveProduct (id : string) (loaded : Product.t) (ch : ProductChange)
    : M unit :=
  fun db =>
    if inventoryValid (applyChange ch loaded)
    then
      match ch with
      | NoChange => (inr tt, db)
      | _ =>
          match products db !! id with
          | Some stored =>
              (inr tt,
               mkDb (<[id := applyChange ch stored]> (products db)) (carts db)
                 (orders db))
          | None => (inl DocumentNotFoundError, db)
          end
      end
    else (inl (ValidationError InventoryCannotBeNegative), db).

(** One turn of the loop "Update inventory for all items". *)
Definition decrementItem (item : CartItem.t) : M unit :=
  let* found := findById products (CartItem.product item) in
  match found with
  | Some product =>
      saveProduct (CartItem.product item) product
        (adjustInventory (CartItem.variant item) (- CartItem.quantity item) product)
  | None => ret tt
  end.

Definition orderItemOf (item : CartItem.t) : OrderItem.t :=
  OrderItem.mk (CartItem.product item) (CartItem.name item) (CartItem.price item)
    (CartItem.quantity item) (CartItem.variant item) (CartItem.image item)
    (CartItem.sku item) (CartItem.price item * inject_Z (CartItem.quantity item)).

(** The object [createOrder] passes to [Order.create].  [tax: cart.tax] gives
    the array path [tax] of the order schema the cart's single tax object,
    which is cast to a one-element array; the object has the fields [rate]
    and [amount] of the cart schema and no [name].  [discount: cart.discount]
    gives the sub-document path the cart's discount object. *)
Definition orderDocument (req : CreateOrderReq.t) (user : User.t)
    (cart : Cart.t) (orderNumber : string) : OrderInput.t :=
  let shippingMethod := CreateOrderReq.shippingMethod req in
  let payment :=
    Payment.mk (CreateOrderReq.paymentMethod req) PayPending None
      (Cart.total cart) "USD" None in
  OrderInput.mk orderNumber (User.userId user) (User.email user)
    (map orderItemOf (Cart.items cart))
    (CreateOrderReq.shippingAddress req)
    (CreateOrderReq.shippingAddress req)
    payment
    (ShippingMethod.mk (ShippingMethod.name shippingMethod)
       (ShippingMethod.carrier shippingMethod)
       (ShippingMethod.price shippingMethod)
       (ShippingMethod.estimatedDelivery shippingMethod))
    (Cart.subtotal cart)
    (ShippingMethod.price shippingMethod)
    [TaxInput.mk None (CartTax.rate (Cart.tax cart)) (CartTax.amount (Cart.tax cart))]
    (Some (Cart.discount cart))
    (Cart.total cart)
    "USD" (CreateOrderReq.notes req).

(** The checks of [createOrder] on the request and the cart, up to the
    inventory loop. *)
Definition loadCart (req : CreateOrderReq.t) : M (Cart.t * User.t) :=
  if negb (isValid (CreateOrderReq.cartId req))
  then throw (BadRequestError InvalidCartId)
  else
    let* found := findById carts (CreateOrderReq.cartId req) in
    match found with
    | None => throw (NotFoundError (NoCartFound (CreateOrderReq.cartId req)))
    | Some cart =>
        match CreateOrderReq.user req with
        | None => throw (BadRequestError AuthenticationRequired)
        | Some user =>
            let foreign :=
              match Cart.customer cart with
              | Some customer => negb (String.eqb customer (User.userId user))
              | None => false
              end in
            if foreign then throw (BadRequestError CartNotOwned)
            else
              match Cart.items cart with
              | [] => throw (BadRequestError EmptyCart)
              | _ => ret (cart, user)
              end
        end
    end.

Definition createOrder (sys : Sys) (req : CreateOrderReq.t) : M Response :=
  let* loaded := loadCart req in
  let cart := fst loaded in
  let user := snd loaded in
  forEach checkItem (Cart.items cart) ;;
  let* orderNumber := generateOrderNumber sys in
  let* order := createOrderDocument sys (orderDocument req user cart orderNumber) in
  forEach decrementItem (Cart.items cart) ;;
  clearCart (CreateOrderReq.cartId req) cart ;;
  ret (mkResponse CREATED (OrderBody (newId sys) order)).

(** [validStatuses.includes(status)], with the status it names. *)
Definition parseStatus (status : string) : option OrderStatus :=
  if String.eqb status "pending" then Some pending
  else if String.eqb status "processing" then Some processing
  else if String.eqb status "shipped" then Some shipped
  else if String.eqb status "delivered" then Some delivered
  else if String.eqb status "cancelled" then Some cancelled
  else if String.eqb status "refunded" then Some refunded
  else None.

(** One turn of the loop under "If order is cancelled, restore inventory". *)
Definition restoreItem (item : OrderItem.t) : M unit :=
  let* found := findById products (OrderItem.product item) in
  match found with
  | Some product =>
      saveProduct (OrderItem.product item) product
        (adjustInventory (OrderItem.variant item) (OrderItem.quantity item) product)
  | None => ret tt
  end.

(** [PATCH /api/v1/orders/:id/status].  The new status is assigned to the
    loaded order before the test that guards the restore loop reads
    [order.status]. *)
Definition updateOrderStatus (sys : Sys) (id status : string) : M Response :=
  if negb (isValid id) then throw (BadRequestError InvalidOrderId)
  else
    match parseStatus status with
    | None => throw (BadRequestError InvalidStatus)
    | Some status =>
        let* found := findById orders id in
        match found with
        | None => throw (NotFoundError (NoOrderFound id))
        | Some loaded =>
            let order := withStatus loaded status in
            (if bool_decide (status = cancelled)
                && negb (bool_decide (Order.status order = cancelled))
             then forEach restoreItem (Order.items order)
             else ret tt) ;;
            let* saved := saveOrder sys id loaded order in
            ret (mkResponse OK (OrderBody id saved))
        end
    end.

(** ** The payment controller (controllers/paymentController.ts) *)

Module PaymentIntent.
Record t := mk {
  id : string;
  status : string;
  orderId : option string   (* metadata?.orderId *)
}.
End PaymentIntent.

Module Charge.
Record t := mk { id : string; payment_intent : string }.
End Charge.

(** A verified webhook event: [event.type] with [event.data.object]. *)
Inductive Event :=
| payment_intent_succeeded (paymentIntent : PaymentIntent.t)
| payment_intent_payment_failed (paymentIntent : PaymentIntent.t)
| payment_intent_canceled (paymentIntent : PaymentIntent.t)
| charge_refunded (charge : Charge.t)
| unhandled (type : string).

(** The payment provider as the controller uses it (services/stripe.service.ts);
    [None] stands for a call that throws. *)
Record Stripe := mkStripe {
  getPaymentIntent : string -> option PaymentIntent.t;
  constructWebhookEvent : string -> string -> option Event;
  stripeCreateRefund : string -> Q -> string -> option Refund.t
}.

(** The writes "Update order payment status" that [confirmPayment] and the
    succeeded webhook share. *)
Definition markPaid (sys : Sys) (order : Order.t) (transactionId : string)
    : Order.t :=
  let p := Order.payment order in
  withStatus
    (withPayment order
       (Payment.mk (Payment.method p) PayCompleted (Some transactionId)
          (Payment.amount p) (Payment.currency p) (Some (now sys))))
    processing.

Definition withPaymentStatus (order : Order.t) (status : PaymentStatus) : Order.t :=
  let p := Order.payment order in
  withPayment order
    (Payment.mk (Payment.method p) status (Payment.transactionId p)
       (Payment.amount p) (Payment.currency p) (Payment.paidAt p)).

Module ConfirmPaymentReq.
Record t := mk {
  user : option User.t;
  paymentIntentId : option string;
  orderId : option string
}.
End ConfirmPaymentReq.

(** A request field used as a condition: absent or empty is falsy. *)
Definition present (field : option string) : option string :=
  match field with
  | Some s => if truthy s then Some s else None
  | None => None
  end.

(** The body of the [try] block of [confirmPayment].  The confirmation e-mail
    is sent inside its own [try]/[catch], which swallows a failure; it has no
    effect on the database or on the response. *)
Definition confirmPaymentBody (stripe : Stripe) (sys : Sys)
    (user : option User.t) (paymentIntentId orderId : string) : M Response :=
  match getPaymentIntent stripe paymentIntentId with
  | None => throw StripeError
  | Some paymentIntent =>
      if negb (String.eqb (PaymentIntent.status paymentIntent) "succeeded")
      then throw (BadRequestError PaymentNotSuccessful)
      else
        let* found := findById orders orderId in
        match found with
        | None => throw (NotFoundError (OrderNotFound orderId))
        | Some order =>
            match user with
            | None => throw (BadRequestError AuthenticationRequired)
            | Some u =>
                if negb (String.eqb (Order.customer order) (User.userId u))
                then throw (BadRequestError NotAuthorizedOrder)
                else if bool_decide (Payment.status (Order.payment order) = PayCompleted)
                then ret (mkResponse OK
                            (MessageOrderBody "Order is already paid" orderId order))
                else
                  let* saved :=
                    saveOrder sys orderId order (markPaid sys order paymentIntentId) in
                  ret (mkResponse OK
                         (MessageOrderBody "Payment confirmed successfully"
                            orderId saved))
            end
        end
  end.

(** [POST /api/v1/payment/confirm].  The [catch] clause rethrows a
    [BadRequestError] or [NotFoundError] and turns anything else into
    [BadRequestError('Failed to confirm payment')]. *)
Definition confirmPayment (stripe : Stripe) (sys : Sys)
    (req : ConfirmPaymentReq.t) : M Response :=
  match present (ConfirmPaymentReq.paymentIntentId req) with
  | None => throw (BadRequestError PaymentIntentIdRequired)
  | Some paymentIntentId =>
      match present (ConfirmPaymentReq.orderId req) with
      | None => throw (BadRequestError OrderIdRequired)
      | Some orderId =>
          fun db =>
            match confirmPaymentBody stripe sys (ConfirmPaymentReq.user req)
                    paymentIntentId orderId db with
            | (inl (BadRequestError m), db') => (inl (BadRequestError m), db')
            | (inl (NotFoundError m), db') => (inl (NotFoundError m), db')
            | (inl _, db') => (inl (BadRequestError FailedToConfirmPayment), db')
            | (inr response, db') => (inr response, db')
            end
      end
  end.

(** The update of an order named by [metadata.orderId], common to the three
    [payment_intent.*] cases. *)
Definition withIntentOrder (paymentIntent : PaymentIntent.t)
    (update : string -> Order.t -> M unit) : M unit :=
  match present (PaymentIntent.orderId paymentIntent) with
  | Some orderId =>
      let* found := findById orders orderId in
      match found with
      | Some order => update orderId order
      | None => ret tt
      end
  | None => ret tt
  end.

(** [Order.findOne({ 'payment.transactionId': id })]: an order with this
    transaction id, the first one in the store's enumeration. *)
Definition findOneByTransactionId (transactionId : string)
    : M (option (string * Order.t)) :=
  fun db =>
    (inr (find (fun kv =>
                  bool_decide
                    (Payment.transactionId (Order.payment (snd kv))
                     = Some transactionId))
            (map_to_list (orders db))),
     db).

(** The [switch (event.type)] of [handleWebhook]. *)
Definition dispatchEvent (sys : Sys) (event : Event) : M unit :=
  match event with
  | payment_intent_succeeded paymentIntent =>
      withIntentOrder paymentIntent (fun _id order =>
        if bool_decide (Payment.status (Order.payment order) <> PayCompleted)
        then saveOrder sys _id order
               (markPaid sys order (PaymentIntent.id paymentIntent)) ;;
             ret tt
        else ret tt)
  | payment_intent_payment_failed paymentIntent =>
      withIntentOrder paymentIntent (fun _id order =>
        saveOrder sys _id order (withPaymentStatus order PayFailed) ;; ret tt)
  | payment_intent_canceled paymentIntent =>
      withIntentOrder paymentIntent (fun _id order =>
        saveOrder sys _id order (withPaymentStatus order PayFailed) ;; ret tt)
  | charge_refunded charge =>
      let* found := findOneByTransactionId (Charge.payment_intent charge) in
      match found with
      | Some (_id, order) =>
          saveOrder sys _id order
            (withStatus (withPaymentStatus order PayRefunded) refunded) ;;
          ret tt
      | None => ret tt
      end
  | unhandled _ => ret tt
  end.

Module WebhookReq.
Record t := mk {
  signature : option string;   (* req.headers['stripe-signature'] *)
  body : string                (* the raw request body *)
}.
End WebhookReq.

(** The body of the [try] block of [handleWebhook], up to the response. *)
Definition processWebhook (stripe : Stripe) (sys : Sys) (payload signature : string)
    : M unit :=
  match constructWebhookEvent stripe payload signature with
  | None => throw StripeError
  | Some event => dispatchEvent sys event
  end.

(** [POST /api/v1/payment/webhook]. *)
Definition handleWebhook (stripe : Stripe) (sys : Sys) (req : WebhookReq.t)
    : M Response :=
  match present (WebhookReq.signature req) with
  | None => throw (BadRequestError MissingStripeSignature)
  | Some signature =>
      fun db =>
        match processWebhook stripe sys (WebhookReq.body req) signature db with
        | (inr _, db') => (inr (mkResponse OK ReceivedBody), db')
        | (inl _, db') => (inr (mkResponse BAD_REQUEST WebhookFailedBody), db')
        end
  end.

Module RefundReq.
Record t := mk {
  orderId : option string;
  amount : option Q;
  reason : option string
}.
End RefundReq.

(** [POST /api/v1/payment/refund]. *)
Definition createRefund (stripe : Stripe) (sys : Sys) (req : RefundReq.t)
    : M Response :=
  match present (RefundReq.orderId req) with
  | None => throw (BadRequestError OrderIdRequired)
  | Some orderId =>
      let* found := findById orders orderId in
      match found with
      | None => throw (NotFoundError (OrderNotFound orderId))
      | Some order =>
          match present (Payment.transactionId (Order.payment order)) with
          | None => throw (BadRequestError NoPaymentTransaction)
          | Some transactionId =>
              if bool_decide (Payment.status (Order.payment order) = PayRefunded)
              then throw (BadRequestError AlreadyRefunded)
              else
                let amount :=
                  match RefundReq.amount req with
                  | Some a => if Qeq_bool a 0 then Order.total order else a
                  | None => Order.total order
                  end in
                let reason :=
                  match present (RefundReq.reason req) with
                  | Some r => r
                  | None => "requested_by_customer"%string
                  end in
                match stripeCreateRefund stripe transactionId amount reason with
                | None => throw (BadRequestError FailedToCreateRefund)
                | Some refund =>
                    let* saved :=
                      saveOrder sys orderId order
                        (withStatus (withPaymentStatus order PayRefunded) refunded) in
                    ret (mkResponse OK
                           (RefundBody "Refund created successfully"
                              (Refund.mk (Refund.id refund)
                                 (Refund.amount refund / 100)
                                 (Refund.status refund))
                              orderId saved))
                end
          end
      end
  end.

(** ** Concurrent checkouts

    The server handles requests on one event loop: a handler runs until its
    next [await], and the handlers of other requests may run before it
    resumes.  A [createOrder] request in flight is a [Task]: the operation it
    is about to await, with the local variables it holds.  One [step] performs
    that operation on the database and runs the handler up to its next
    [await]. *)
Inductive Task :=
| Started
    (* about to await Cart.findById(cartId) *)
| Checking (cart : Cart.t) (user : User.t) (todo : list CartItem.t)
    (* first loop, about to await Product.findById for the head of [todo];
       with [todo] empty, about to await Order.generateOrderNumber() *)
| Creating (cart : Cart.t) (user : User.t) (orderNumber : string)
    (* about to await Order.create *)
| Updating (cart : Cart.t) (order : Order.t) (todo : list CartItem.t)
    (* second loop, about to await Product.findById for the head of [todo];
       with [todo] empty, about to await cart.clearCart() *)
| Saving (cart : Cart.t) (order : Order.t) (item : CartItem.t)
    (product : Product.t) (todo : list CartItem.t)
    (* second loop, [product] loaded and modified, about to await product.save() *)
| Finished (result : Result Response).

Definition advance {A} (out : Result A * Db) (next : A -> Task) : Task * Db :=
  match out with
  | (inl e, db') => (Finished (inl e), db')
  | (inr a, db') => (next a, db')
  end.

Definition step (sys : Sys) (req : CreateOrderReq.t) (t : Task) (db : Db)
    : Task * Db :=
  match t with
  | Started =>
      advance (loadCart req db)
        (fun loaded => Checking (fst loaded) (snd loaded) (Cart.items (fst loaded)))
  | Checking cart user (item :: todo) =>
      advance (checkItem item db) (fun _ => Checking cart user todo)
  | Checking cart user [] =>
      advance (generateOrderNumber sys db) (fun n => Creating cart user n)
  | Creating cart user orderNumber =>
      advance
        (createOrderDocument sys (orderDocument req user cart orderNumber) db)
        (fun order => Updating cart order (Cart.items cart))
  | Updating cart order (item :: todo) =>
      advance (findById products (CartItem.product item) db)
        (fun found =>
           match found with
           | Some product => Saving cart order item product todo
           | None => Updating cart order todo
           end)
  | Saving cart order item product todo =>
      advance
        (saveProduct (CartItem.product item) product
           (adjustInventory (CartItem.variant item) (- CartItem.quantity item)
              product) db)
        (fun _ => Updating cart order todo)
  | Updating cart order [] =>
      advance (clearCart (CreateOrderReq.cartId req) cart db)
        (fun _ => Finished (inr (mkResponse CREATED (OrderBody (newId sys) order))))
  | Finished result => (Finished result, db)
  end.

(** A request in flight, and the server with its requests in flight. *)
Record Job := mkJob { jobSys : Sys; jobReq : CreateOrderReq.t; jobTask : Task }.

Definition submit (sys : Sys) (req : CreateOrderReq.t) : Job :=
  mkJob sys req Started.

(** The event loop resumes job [i]. *)
Definition resume (i : nat) (jobs : list Job) (db : Db) : list Job * Db :=
  match jobs !! i with
  | Some j =>
      let out := step (jobSys j) (jobReq j) (jobTask j) db in
      (<[i := mkJob (jobSys j) (jobReq j) (fst out)]> jobs, snd out)
  | None => (jobs, db)
  end.

(** A schedule is the order in which the event loop resumes the jobs. *)
Fixpoint run (schedule : list nat) (jobs : list Job) (db : Db) : list Job * Db :=
  match schedule with
  | [] => (jobs, db)
  | i :: rest =>
      let out := resume i jobs db in
      run rest (fst out) (snd out)
  end.

(** One request alone on the server, resumed [fuel] times. *)
Fixpoint runAlone (fuel : nat) (sys : Sys) (req : CreateOrderReq.t) (t : Task)
    (db : Db) : Task * Db :=
  match fuel with
  | O => (t, db)
  | S k =>
      let out := step sys req t db in
      runAlone k sys req (fst out) (snd out)
  end.

(** The stock of a product in the database. *)
Definition stockOf (db : Db) (productId : string) : option Z :=
  Product.inventory <$> products db !! productId.

(** The total quantity that the order of a finished job took from a product:
    the sum over its lines, 0 for a job that failed or has not finished. *)
Definition quantityTaken (productId : string) (j : Job) : Z :=
  match jobTask j with
  | Finished (inr (mkResponse _ (OrderBody _ order))) =>
      fold_left
        (fun total item =>
           if String.eqb (OrderItem.product item) productId
           then (total + OrderItem.quantity item)%Z else total)
        (Order.items order) 0%Z
  | _ => 0%Z
  end.

(** ** Status and payment updates *)

(** The handlers that update the status or the payment of an order. *)
Inductive Update :=
| UpdateOrderStatus (sys : Sys) (id status : string)
| ConfirmPayment (stripe : Stripe) (sys : Sys) (req : ConfirmPaymentReq.t)
| HandleWebhook (stripe : Stripe) (sys : Sys) (req : WebhookReq.t)
| CreateRefund (stripe : Stripe) (sys : Sys) (req : RefundReq.t).

Definition applyUpdate (u : Update) : M Response :=
  match u with
  | UpdateOrderStatus sys id status => updateOrderStatus sys id status
  | ConfirmPayment stripe sys req => confirmPayment stripe sys req
  | HandleWebhook stripe sys req => handleWebhook stripe sys req
  | CreateRefund stripe sys req => createRefund stripe sys req
  end.

(** The database after a sequence of updates, whatever each one answers. *)
Definition applyUpdates (updates : list Update) (db : Db) : Db :=
  fold_left (fun db u => snd (applyUpdate u db)) updates db.

(** * Statements of the specification *)

(** The totals of a cart in the words of the specification: the discount
    of a percentage or fixed discount, the tax when a tax rate is set, the
    price of the selected shipping method, each 0 otherwise. *)
Module TotalsSpec.
Fixpoint sumOfLineSubtotals (items : list CartItem.t) : Q :=
  match items with
  | [] => 0
  | item :: rest => CartItem.subtotal item + sumOfLineSubtotals rest
  end.

Definition discountAmount (c : Cart.t) (subtotal : Q) : Q :=
  match CartDiscount.type (Cart.discount c), CartDiscount.value (Cart.discount c) with
  | Some percentage, Some value => subtotal * value
  | Some fixed, Some value => Qmin value subtotal
  | _, _ => 0
  end.

Definition taxAmount (c : Cart.t) (subtotal : Q) : Q :=
  match CartTax.rate (Cart.tax c) with
  | Some taxRate => (subtotal - discountAmount c subtotal) * taxRate
  | None => 0
  end.

Definition shippingCost (c : Cart.t) : Q :=
  match CartShipping.price (Cart.shippingMethod c) with
  | Some price => price
  | None => 0
  end.

(** Subtotal, tax, shipping cost and total of the lines, discount, tax rate
    and shipping method of a cart. *)
Definition totals (c : Cart.t) : Q * Q * Q * Q :=
  let subtotal := sumOfLineSubtotals (Cart.items c) in
  (subtotal, taxAmount c subtotal, shippingCost c,
   subtotal - discountAmount c subtotal + taxAmount c subtotal + shippingCost c).

(** The stored totals of a cart are the ones of its lines, discount, tax
    rate and shipping method. *)
Definition holds (c : Cart.t) : Prop :=
  let subtotal := sumOfLineSubtotals (Cart.items c) in
  Cart.subtotal c == subtotal
  /\ (exists amount,
        CartTax.amount (Cart.tax c) = Some amount /\ amount == taxAmount c subtotal)
  /\ Cart.total c
     == subtotal - discountAmount c subtotal + taxAmount c subtotal + shippingCost c.
End TotalsSpec.

(** The amounts of an order. *)
Module OrderSpec.
End OrderSpec.

(** The verified events whose processing throws: a [payment_intent.*] event
    whose [metadata.orderId] is set and is not an ObjectId. *)
Definition eventOrderId (event : Event) : option string :=
  match event with
  | payment_intent_succeeded paymentIntent
  | payment_intent_payment_failed paymentIntent
  | payment_intent_canceled paymentIntent =>
      present (PaymentIntent.orderId paymentIntent)
  | charge_refunded _ | unhandled _ => None
  end.

Definition processingThrows (event : Event) : bool :=
  match eventOrderId event with
  | Some orderId => negb (isValid orderId)
  | None => false
  end.

(** The errors with which [createOrder] rejects a request on validation:
    malformed or missing cart, no authenticated user, a cart of another
    customer, an empty cart, a missing or inactive product, a missing variant,
    insufficient stock. *)
Definition isValidationFailure (e : Error) : bool :=
  match e with
  | BadRequestError
      (InvalidCartId | AuthenticationRequired | CartNotOwned | EmptyCart
      | ProductNoLongerAvailable _ | NotEnoughInventoryFor _ _) => true
  | NotFoundError (NoCartFound _ | ProductNotFoundId _ | VariantNotFoundFor _) => true
  | _ => false
  end.

(** Every stored product passes the [min: 0] validators of its stock. *)
Definition stockValid (db : Db) : Prop :=
  forall id p, products db !! id = Some p -> inventoryValid p = true.

(** * Definitions for the proofs *)

(** A computation that only reads the database. *)
Definition readOnly {A} (m : M A) : Prop := forall db, snd (m db) = db.


(** The order [updateOrderStatus] saves. *)
Definition statusSaved (sys : Sys) (loaded : Order.t) (status : OrderStatus)
    : Order.t :=
  if bool_decide (status = Order.status loaded) then withStatus loaded status
  else
    withStatusHistory (withStatus loaded status)
      (Order.statusHistory loaded ++ [StatusEntry.mk status (now sys) None]).

(** The order [confirmPayment] and the succeeded webhook save for an order
    that was not paid yet. *)
Definition paidSaved (sys : Sys) (o : Order.t) (transactionId : string) : Order.t :=
  if bool_decide (processing = Order.status o) then markPaid sys o transactionId
  else
    withStatusHistory (markPaid sys o transactionId)
      (Order.statusHistory o ++ [StatusEntry.mk processing (now sys) None]).

(** What is left of [createOrder] for a task: the handler from the point
    where the task stands. *)
Definition finish (sys : Sys) (req : CreateOrderReq.t) (t : Task) : M Response :=
  let created (order : Order.t) : M Response :=
    ret (mkResponse CREATED (OrderBody (newId sys) order)) in
  let update (cart : Cart.t) (order : Order.t) (todo : list CartItem.t)
      : M Response :=
    forEach decrementItem todo ;;
    clearCart (CreateOrderReq.cartId req) cart ;;
    created order in
  let create (cart : Cart.t) (user : User.t) (orderNumber : string)
      : M Response :=
    let* order :=
      createOrderDocument sys (orderDocument req user cart orderNumber) in
    update cart order (Cart.items cart) in
  match t with
  | Started => createOrder sys req
  | Checking cart user todo =>
      forEach checkItem todo ;;
      let* orderNumber := generateOrderNumber sys in
      create cart user orderNumber
  | Creating cart user orderNumber => create cart user orderNumber
  | Updating cart order todo => update cart order todo
  | Saving cart order item product todo =>
      saveProduct (CartItem.product item) product
        (adjustInventory (CartItem.variant item) (- CartItem.quantity item)
           product) ;;
      update cart order todo
  | Finished result => fun db => (result, db)
  end.

(** A bound on the steps a task still takes. *)
Definition stepsLeft (t : Task) : nat :=
  match t with
  | Started => 0
  | Checking cart _ todo => length todo + 2 * length (Cart.items cart) + 3
  | Creating cart _ _ => 2 * length (Cart.items cart) + 2
  | Updating _ _ todo => 2 * length todo + 1
  | Saving _ _ _ _ todo => 2 * length todo + 2
  | Finished _ => 0
  end.

(** A task that has not stored its order yet. *)
Definition beforeOrder (t : Task) : bool :=
  match t with
  | Started | Checking _ _ _ | Creating _ _ _ | Finished _ => true
  | Updating _ _ _ | Saving _ _ _ _ _ => false
  end.

(** A job after it has been resumed as often as the schedule names it, on a
    database that stays as it is. *)
Definition resumed (schedule : list nat) (db : Db) (i : nat) (j : Job) : Job :=
  mkJob (jobSys j) (jobReq j)
    (fst (runAlone (count_occ Nat.eq_dec schedule i) (jobSys j) (jobReq j)
            (jobTask j) db)).

(** ** Sample data: one product with stock 5 and carts that hold it *)

Module Sample.
Definition P1 : string := "64b000000000000000000001".
Definition cartA : string := "64c00000000000000000000a".
Definition cartB : string := "64c00000000000000000000b".
Definition alice : User.t :=
  User.mk "64a00000000000000000000a" "alice@example.com" "user".
Definition bob : User.t :=
  User.mk "64a00000000000000000000b" "bob@example.com" "user".

Definition product : Product.t :=
  Product.mk "Mug" 10 (Some "MUG-1"%string) 5 true [] [] false.

Definition noDiscount : CartDiscount.t := CartDiscount.mk None None None None.
Definition noTax : CartTax.t := CartTax.mk None None.
Definition noShipping : CartShipping.t := CartShipping.mk None None None.

Definition emptyCart (owner : User.t) : Cart.t :=
  Cart.mk (Some (User.userId owner)) None [] 0 None noDiscount noTax noShipping
    0 "USD" None.

Definition line (quantity : Z) : CartItem.t :=
  CartItem.mk "64d000000000000000000001" P1 "Mug" 10 quantity noVariant None
    (Some "MUG-1"%string) (10 * inject_Z quantity) (Some 5%Z).

(** A stored cart with one line of [quantity] mugs and no discount, tax or
    shipping method. *)
Definition cartWith (owner : User.t) (quantity : Z) : Cart.t :=
  Cart.mk (Some (User.userId owner)) None [line quantity]
    (10 * inject_Z quantity) None noDiscount noTax noShipping
    (10 * inject_Z quantity) "USD" None.

Definition address : Address.t :=
  Address.mk "A. Buyer" "1 Main Street" None "Springfield" "IL" "62701" "US" None.

Definition flatRate : ShippingMethod.t :=
  ShippingMethod.mk "Flat rate" "UPS" 5 None.

Definition checkout (user : User.t) (cartId : string) : CreateOrderReq.t :=
  CreateOrderReq.mk (Some user) cartId address "stripe" flatRate None.

Definition sys (newId : string) : Sys := mkSys 1793577600000 2026 10 newId.
Definition orderA : string := "64e00000000000000000000a".
Definition orderB : string := "64e00000000000000000000b".

Definition db (quantityA quantityB : Z) : Db :=
  mkDb {[ P1 := product ]}
    {[ cartA := cartWith alice quantityA; cartB := cartWith bob quantityB ]}
    ∅.

(** A stored order of Alice for two mugs, in a given state, in a shop whose
    stock of mugs is 3. *)
Definition order (status : OrderStatus) (payment : PaymentStatus)
    (transactionId : option string) : Order.t :=
  Order.mk "ORD-202611-00001" (User.userId alice) (User.email alice)
    [orderItemOf (line 2)] address address flatRate
    (Payment.mk "stripe" payment transactionId 25 "USD"
       (match transactionId with Some _ => Some 1793577700000%Z | None => None end))
    20 5 None [] 25 "USD" status
    [StatusEntry.mk pending 1793577600000 (Some "Order created"%string)] None.

Definition dbWithOrder (o : Order.t) : Db :=
  mkDb {[ P1 := withInventory product 3 ]} ∅ {[ orderA := o ]}.

(** A provider that verifies the signature "t=1,v1=ok" and delivers [event],
    reports every payment intent as succeeded and accepts every refund. *)
Definition stripe (event : Event) : Stripe :=
  mkStripe
    (fun id => Some (PaymentIntent.mk id "succeeded" (Some orderA)))
    (fun payload signature =>
       if String.eqb signature "t=1,v1=ok" then Some event else None)
    (fun transactionId amount reason =>
       Some (Refund.mk "re_1" (amount * 100) "succeeded")).

Definition webhook : WebhookReq.t := WebhookReq.mk (Some "t=1,v1=ok"%string) "{}".

(** The cart of the totals scenario: one line of two mugs at 10.00, a tax
    rate of 10% and a shipping method priced 5.00, no discount, totals not
    yet computed. *)
Definition flat : CartShipping.t :=
  CartShipping.mk (Some "flat"%string) (Some "Flat rate"%string) (Some 5).

Definition taxedCart : Cart.t :=
  Cart.mk (Some (User.userId alice)) None [line 2] 0 None noDiscount
    (CartTax.mk (Some (1 # 10)) None) flat 0 "USD" None.

Definition dbTaxed : Db :=
  mkDb {[ P1 := product ]} {[ cartA := taxedCart ]} ∅.

(** The same cart stored with the totals of the scenario: subtotal 20.00,
    tax 2.00, total 27.00. *)
Definition totalledCart (owner : User.t) (quantity : Z) : Cart.t :=
  Cart.mk (Some (User.userId owner)) None [line quantity]
    (10 * inject_Z quantity) None noDiscount
    (CartTax.mk (Some (1 # 10)) (Some (inject_Z quantity)))
    flat (11 * inject_Z quantity + 5) "USD" None.

Definition dbTotalled (quantityA quantityB : Z) : Db :=
  mkDb {[ P1 := product ]}
    {[ cartA := totalledCart alice quantityA; cartB := totalledCart bob quantityB ]}
    ∅.

(** A cart on which [calculateTotals] succeeds: the same cart with the
    discount of the code FLAT5. *)
Definition flat5 : CartDiscount.t :=
  CartDiscount.mk (Some "FLAT5"%string) (Some fixed) (Some 5)
    (Some "$5 off your order"%string).

Definition completeCart (items : list CartItem.t) : Cart.t :=
  Cart.mk (Some (User.userId alice)) None items 0 (Some "FLAT5"%string) flat5
    (CartTax.mk (Some (1 # 10)) None) flat 0 "USD" None.

(** Two checkouts in flight, each for three of the five mugs. *)
Definition twoCheckouts : list Job :=
  [submit (sys orderA) (checkout alice cartA);
   submit (sys orderB) (checkout bob cartB)].
End Sample.

(** * Further handlers, and definitions for their properties *)

(** ** What a status or payment update writes *)

(** The documents the handlers pass to [order.save()] for a loaded order
    [o]: a new status ([updateOrderStatus]), the payment marked paid
    ([confirmPayment], the succeeded webhook, both for an order not yet
    completed), the payment marked failed (the failed and canceled
    webhooks), and payment and order marked refunded ([createRefund], the
    refunded webhook, both for an order that has a transaction id). *)
Inductive Edited (sys : Sys) (o : Order.t) : Order.t -> Prop :=
| Edited_status (status : OrderStatus) : Edited sys o (withStatus o status)
| Edited_paid (transactionId : string) :
    Payment.status (Order.payment o) <> PayCompleted ->
    Edited sys o (markPaid sys o transactionId)
| Edited_failed : Edited sys o (withPaymentStatus o PayFailed)
| Edited_refunded :
    is_Some (Payment.transactionId (Order.payment o)) ->
    Edited sys o (withStatus (withPaymentStatus o PayRefunded) refunded).

(** The document [saveOrder] stores: the pre-save hook has appended a history
    entry when the status was changed. *)
Definition hooked (sys : Sys) (loaded modified : Order.t) : Order.t :=
  if bool_decide (Order.status modified = Order.status loaded) then modified
  else
    withStatusHistory modified
      (Order.statusHistory modified
       ++ [StatusEntry.mk (Order.status modified) (now sys) None]).

(** The fields of an order that no handler assigns after creation. *)
Definition frozen (o : Order.t) :=
  (Order.orderNumber o, Order.customer o, Order.email o, Order.items o,
   Order.billingAddress o, Order.shippingAddress o, Order.shippingMethod o,
   Order.currency o, Order.notes o,
   (Payment.method (Order.payment o), Payment.amount (Order.payment o),
    Payment.currency (Order.payment o))).

(** The last entry of the status history records the current status. *)
Definition historyCurrent (o : Order.t) : Prop :=
  StatusEntry.status <$> last (Order.statusHistory o) = Some (Order.status o).

(** The payment is for the total of the order, and a completed payment has
    its transaction id and payment date. *)
Definition paymentSound (o : Order.t) : Prop :=
  let p := Order.payment o in
  Payment.amount p = Order.total o
  /\ (Payment.status p = PayCompleted ->
      is_Some (Payment.transactionId p) /\ is_Some (Payment.paidAt p)).

(** ** createRefund *)

(** The amount [createRefund] asks the provider to refund: [amount ||
    order.total]. *)
Definition refundAmount (req : RefundReq.t) (order : Order.t) : Q :=
  match RefundReq.amount req with
  | Some a => if Qeq_bool a 0 then Order.total order else a
  | None => Order.total order
  end.

(** The reason it passes: [reason || 'requested_by_customer']. *)
Definition refundReason (req : RefundReq.t) : string :=
  match present (RefundReq.reason req) with
  | Some r => r
  | None => "requested_by_customer"
  end.

(** The order it stores once the provider has accepted the refund. *)
Definition refundedOrder (sys : Sys) (o : Order.t) : Order.t :=
  hooked sys o (withStatus (withPaymentStatus o PayRefunded) refunded).

(** ** The totals of a cart *)

(** The cart [calculateTotals] works out for a cart that has a discount of
    the given type and value, a tax rate and a shipping price. *)
Definition totalled (c : Cart.t) (type : DiscountType) (value rate price : Q)
    : Cart.t :=
  let subtotal := sumSubtotals (Cart.items c) in
  let amount :=
    match type with
    | percentage => subtotal * value
    | fixed => Qmin value subtotal
    end in
  withTotals c subtotal ((subtotal - amount) * rate)
    (subtotal - amount + (subtotal - amount) * rate + price).

(** ** The lines of a cart *)

(** A line whose subtotal is its price times its quantity, as [addItem] and
    [updateItemQuantity] write it. *)
Definition lineConsistent (item : CartItem.t) : Prop :=
  CartItem.subtotal item
  = (CartItem.price item * inject_Z (CartItem.quantity item))%Q.

(** A line within the stock that was recorded in it. *)
Definition withinMax (item : CartItem.t) : Prop :=
  match CartItem.maxQuantity item with
  | Some maxQuantity => (CartItem.quantity item <= maxQuantity)%Z
  | None => True
  end.

(** The value of the lines of a cart: the sum of price times quantity. *)
Definition linesValue (items : list CartItem.t) : Q :=
  foldr (fun item total =>
           (CartItem.price item * inject_Z (CartItem.quantity item) + total)%Q)
    0%Q items.

(** ** Order numbers *)

(** The prefix of the order numbers of the current month, "ORD-YYYYMM". *)
Definition monthPrefix (sys : Sys) : string :=
  "ORD-" +:+ decimal (fullYear sys) +:+ padStart 2 (decimal (month sys + 1)).

(** The order number of a month with a given sequence number. *)
Definition orderNumberOf (sys : Sys) (n : N) : string :=
  monthPrefix sys +:+ "-" +:+ padStart 5 (decimal n).

(** A string of decimal digits. *)
Fixpoint allDigits (s : string) : bool :=
  match s with
  | EmptyString => true
  | String a rest =>
      match digitValue a with
      | Some _ => allDigits rest
      | None => false
      end
  end.

(** A string of [n] nines. *)
Definition nines (n : nat) : string := repeatString n "9".

(** ** getOrderById *)

(** An id spelt as [toString()] spells an ObjectId and as the store keeps
    it: without upper-case digits. *)
Definition canonical (id : string) : bool :=
  forallb
    (fun a => negb ((65 <=? nat_of_ascii a)%nat && (nat_of_ascii a <=? 70)%nat))
    (list_ascii_of_string id).

(** [GET /api/v1/orders/:id]. *)
Definition getOrderById (user : option User.t) (id : string) : M Response :=
  if negb (isValid id) then throw (BadRequestError InvalidOrderId)
  else
    let* found := findById orders id in
    match found with
    | None => throw (NotFoundError (NoOrderFound id))
    | Some order =>
        match user with
        | None => throw (BadRequestError AuthenticationRequired)
        | Some u =>
            if negb (String.eqb (Order.customer order) (User.userId u))
               && negb (String.eqb (User.role u) "admin")
            then throw (BadRequestError NotAuthorizedOrder)
            else ret (mkResponse OK (OrderBody id order))
        end
    end.

(** ** The handlers that write orders, in sequence *)

Inductive Action :=
| Checkout (sys : Sys) (req : CreateOrderReq.t)
| Change (u : Update).

(** The database after a handler, whatever it answers. *)
Definition act (a : Action) (db : Db) : Db :=
  match a with
  | Checkout sys req => snd (createOrder sys req db)
  | Change u => snd (applyUpdate u db)
  end.

Definition acts (actions : list Action) (db : Db) : Db :=
  fold_left (fun db a => act a db) actions db.

(** No two stored orders have the same order number. *)
Definition uniqueNumbers (db : Db) : Prop :=
  forall id1 id2 o1 o2,
    orders db !! id1 = Some o1 -> orders db !! id2 = Some o2 ->
    Order.orderNumber o1 = Order.orderNumber o2 -> id1 = id2.

(** * createPaymentIntent (controllers/paymentController.ts) *)

(** The message of an error that a handler constructs: a literal of the
    source, or [error.message] of an error it has caught. *)
Inductive Message :=
| Literal (text : string)
| MessageOf (e : Error).

(** What the handler throws: an error of Mongoose that it does not catch, or
    an error it constructs itself. *)
Inductive Thrown :=
| Uncaught (e : Error)
| BadRequest (message : Message)     (* new BadRequestError(message) *)
| NotFound (message : Message).      (* new NotFoundError(message) *)

Definition H (A : Type) : Type := Db -> (Thrown + A) * Db.

Definition retH {A} (a : A) : H A := fun db => (inr a, db).

Definition throwH {A} (e : Thrown) : H A := fun db => (inl e, db).

Definition bindH {A B} (m : H A) (k : A -> H B) : H B :=
  fun db =>
    match m db with
    | (inl e, db') => (inl e, db')
    | (inr a, db') => k a db'
    end.

(** An awaited call of a model function outside a [try]. *)
Definition call {A} (m : M A) : H A :=
  fun db =>
    match m db with
    | (inl e, db') => (inl (Uncaught e), db')
    | (inr a, db') => (inr a, db')
    end.

Notation "'let+' x ':=' m 'in' k" := (bindH m (fun x => k))
  (at level 10, x pattern, m at level 100, k at level 200).

(** The metadata [createPaymentIntent] attaches to a payment intent. *)
Module IntentMetadata.
Record t := mk { orderId : string; userId : string; email : string }.
End IntentMetadata.

(** The payment intent the provider has created. *)
Module CreatedIntent.
Record t := mk { id : string; client_secret : string }.
End CreatedIntent.

(** [stripeService.createPaymentIntent(amount, currency, metadata)], the
    amount in dollars; [None] stands for a call that throws. *)
Definition IntentService : Type :=
  Q -> string -> IntentMetadata.t -> option CreatedIntent.t.

(** { success: true, clientSecret, paymentIntentId } *)
Record IntentResponse := mkIntentResponse {
  intentStatus : Z;
  clientSecret : string;
  paymentIntentId : string
}.

(** [a || b] on strings. *)
Definition orElse (field : option string) (default : string) : string :=
  match present field with
  | Some s => s
  | None => default
  end.

(** The block "Validate order ID if provided". *)
Definition checkOrderToPay (user : option User.t) (orderId : string) : H unit :=
  let+ found := call (findById orders orderId) in
  match found with
  | None => throwH (NotFound (Literal ("Order not found with id: " +:+ orderId)))
  | Some order =>
      match user with
      | None => throwH (BadRequest (Literal "Authentication required"))
      | Some u =>
          if negb (String.eqb (Order.customer order) (User.userId u))
          then throwH (BadRequest (Literal "Not authorized to pay for this order"))
          else if bool_decide (Payment.status (Order.payment order) = PayCompleted)
          then throwH (BadRequest (Literal "Order is already paid"))
          else retH tt
      end
  end.

(** The metadata of the intent: [orderId || 'pending'],
    [req.user?.userId || 'guest'], [req.user?.email || '']. *)
Definition intentMetadata (user : option User.t) (orderId : option string)
    : IntentMetadata.t :=
  IntentMetadata.mk (orElse orderId "pending")
    (orElse (User.userId <$> user) "guest")
    (orElse (User.email <$> user) "").

(** [POST /api/v1/payment/create-intent]. *)
Definition createPaymentIntent (service : IntentService) (user : option User.t)
    (amount : option Q) (orderId currency : option string) : H IntentResponse :=
  match amount with
  | None => throwH (BadRequest (Literal "Invalid payment amount"))
  | Some amount =>
      if Qle_bool amount 0
      then throwH (BadRequest (Literal "Invalid payment amount"))
      else
        let+ _ :=
          match present orderId with
          | Some orderId => checkOrderToPay user orderId
          | None => retH tt
          end in
        match service amount (default "usd"%string currency)
                (intentMetadata user orderId) with
        | None => throwH (BadRequest (Literal "Failed to create payment intent"))
        | Some paymentIntent =>
            retH (mkIntentResponse OK (CreatedIntent.client_secret paymentIntent)
                    (CreatedIntent.id paymentIntent))
        end
  end.

(** ** Further sample data *)

Module Scenario.
(** Alice's order of two mugs under a given order number. *)
Definition numbered (orderNumber : string) : Order.t :=
  Order.mk orderNumber (User.userId Sample.alice) (User.email Sample.alice)
    [orderItemOf (Sample.line 2)] Sample.address Sample.address Sample.flatRate
    (Payment.mk "stripe" PayPending None 25 "USD" None)
    20 5 None [] 25 "USD" pending
    [StatusEntry.mk pending 1793577600000 (Some "Order created"%string)] None.

(** A month in which the order numbers 99999 and 100000 have been given. *)
Definition dbFullMonth : Db :=
  mkDb {[ Sample.P1 := Sample.product ]}
    {[ Sample.cartA := Sample.cartWith Sample.alice 2 ]}
    {[ Sample.orderA := numbered "ORD-202611-99999";
       Sample.orderB := numbered "ORD-202611-100000" ]}.

(** A provider that knows no event and accepts every refund. *)
Definition provider : Stripe := Sample.stripe (unhandled "ping").

(** Alice's paid order. *)
Definition paid : Order.t :=
  Sample.order processing PayCompleted (Some "pi_1"%string).

(** Alice's unpaid order, stored under the second order id. *)
Definition dbSecondOrder : Db :=
  mkDb ∅ ∅ {[ Sample.orderB := Sample.order pending PayPending None ]}.

(** A shop without carts and orders. *)
Definition shop : Db := mkDb {[ Sample.P1 := Sample.product ]} ∅ ∅.

(** A provider that creates the payment intent "pi_7" for every request. *)
Definition intentService : IntentService :=
  fun amount currency metadata => Some (CreatedIntent.mk "pi_7" "pi_7_secret").

(** An object for [Order.create] that passes the validators of the order
    schema: Alice's two mugs with a named tax entry and no discount. *)
Definition namedTaxDocument : OrderInput.t :=
  OrderInput.mk "ORD-202611-00001" (User.userId Sample.alice)
    (User.email Sample.alice) [orderItemOf (Sample.line 2)] Sample.address
    Sample.address (Payment.mk "stripe" PayPending None 27 "USD" None)
    Sample.flatRate 20 5
    [TaxInput.mk (Some "VAT"%string) (Some (1 # 10)) (Some 2)] None 27 "USD"
    None.

(** The same object under the order number 100000 of the month. *)
Definition namedTaxDocument100000 : OrderInput.t :=
  OrderInput.mk "ORD-202611-100000" (User.userId Sample.alice)
    (User.email Sample.alice) [orderItemOf (Sample.line 2)] Sample.address
    Sample.address (Payment.mk "stripe" PayPending None 27 "USD" None)
    Sample.flatRate 20 5
    [TaxInput.mk (Some "VAT"%string) (Some (1 # 10)) (Some 2)] None 27 "USD"
    None.

(** Alice's cart with discount, tax rate and shipping method, stored with
    the totals of its lines. *)
Definition complete (items : list CartItem.t) (subtotal taxAmount total : Q)
    : Cart.t :=
  withTotals (Sample.completeCart items) subtotal taxAmount total.

Definition dbComplete (c : Cart.t) : Db :=
  mkDb {[ Sample.P1 := Sample.product ]} {[ Sample.cartA := c ]} ∅.
End Scenario.
(** * Properties *)

(** ** The handler monad *)

Lemma bind_inr {A B} (m : M A) (k : A -> M B) (db db' : Db) (b : B) :
  bind m k db = (inr b, db') ->
  exists a db1, m db = (inr a, db1) /\ k a db1 = (inr b, db').
Proof.
  unfold bind. destruct (m db) as [[e|a] db1]; [discriminate|]. eauto.
Qed.

Lemma bind_inl {A B} (m : M A) (k : A -> M B) (db db' : Db) (e : Error) :
  bind m k db = (inl e, db') ->
  m db = (inl e, db')
  \/ exists a db1, m db = (inr a, db1) /\ k a db1 = (inl e, db').
Proof.
  unfold bind. destruct (m db) as [[e1|a] db1]; [intros [= <- <-]|]; eauto.
Qed.

Lemma readOnly_run {A} (m : M A) (db db' : Db) (r : Result A) :
  readOnly m -> m db = (r, db') -> db' = db.
Proof. intros Hm Hrun. specialize (Hm db). now rewrite Hrun in Hm. Qed.

Lemma readOnly_ret {A} (a : A) : readOnly (ret a).
Proof. now intros db. Qed.

Lemma readOnly_throw {A} (e : Error) : readOnly (throw (A := A) e).
Proof. now intros db. Qed.

Lemma readOnly_findById {D} (coll : Db -> gmap string D) (id : string) :
  readOnly (findById coll id).
Proof. intros db. unfold findById. now destruct (isValid id). Qed.

Lemma readOnly_bind {A B} (m : M A) (k : A -> M B) :
  readOnly m -> (forall a, readOnly (k a)) -> readOnly (bind m k).
Proof.
  intros Hm Hk db. unfold bind. specialize (Hm db).
  destruct (m db) as [[e|a] db1]; simpl in *; [assumption|].
  subst db1. apply Hk.
Qed.

Lemma readOnly_forEach {A} (body : A -> M unit) (xs : list A) :
  (forall x, readOnly (body x)) -> readOnly (forEach body xs).
Proof.
  intros Hbody. induction xs as [|x rest IH]; simpl.
  - apply readOnly_ret.
  - apply readOnly_bind; [apply Hbody|]. intros _. exact IH.
Qed.

(** Splits on the tests of a handler until each branch is a [ret], a [throw]
    or a query. *)
Ltac readonly_cases :=
  repeat first
    [ progress intros
    | apply readOnly_ret | apply readOnly_throw | apply readOnly_findById
    | apply readOnly_bind
    | match goal with
      | |- readOnly (match ?x with _ => _ end) => destruct x
      | |- readOnly (if ?b then _ else _) => destruct b
      end ].

Lemma readOnly_checkItem (item : CartItem.t) : readOnly (checkItem item).
Proof. unfold checkItem. readonly_cases. Qed.

Lemma readOnly_loadCart (req : CreateOrderReq.t) : readOnly (loadCart req).
Proof. unfold loadCart. readonly_cases. Qed.

(** ** Cart totals *)

Lemma fold_left_subtotals (items : list CartItem.t) (acc : Q) :
  fold_left (fun total item => total + CartItem.subtotal item) items acc
  == acc + TotalsSpec.sumOfLineSubtotals items.
Proof.
  revert acc. induction items as [|item rest IH]; intros acc; simpl.
  - symmetry. apply Qplus_0_r.
  - rewrite IH. symmetry. apply Qplus_assoc.
Qed.

Lemma sumSubtotals_spec (items : list CartItem.t) :
  sumSubtotals items == TotalsSpec.sumOfLineSubtotals items.
Proof. unfold sumSubtotals. rewrite fold_left_subtotals. apply Qplus_0_l. Qed.

(** A [NaN] among the three amounts makes the total a [NaN]. *)
Lemma calculateTotals_miscast (_id : string) (c : Cart.t) (db : Db) :
  CartDiscount.value (Cart.discount c) = None
  \/ CartTax.rate (Cart.tax c) = None
  \/ CartShipping.price (Cart.shippingMethod c) = None ->
  calculateTotals _id c db = saveMiscast c db.
Proof.
  unfold calculateTotals, discountAmount, taxAmount, shippingCost, add, sub, mul,
    mathMin, lift2.
  intros [H|[H|H]]; rewrite H.
  - now destruct (CartDiscount.type (Cart.discount c)) as [[]|].
  - now destruct (CartDiscount.type (Cart.discount c)) as [[]|],
      (CartDiscount.value (Cart.discount c)).
  - now destruct (CartDiscount.type (Cart.discount c)) as [[]|],
      (CartDiscount.value (Cart.discount c)), (CartTax.rate (Cart.tax c)).
Qed.

(** C9 on the code.  [calculateTotals] does not establish the totals of a
    cart that has no discount, no tax rate or no shipping method: the tests
    [if (this.discount)], [if (this.tax)] and [if (this.shippingMethod)] are
    on nested paths and always pass, the field that is not set makes the
    amount and the total [NaN], and [save()] rejects the cart (with the
    error of the pre-validate hook for a cart without customer and session,
    with a ValidationError otherwise).  Nothing is written.  The
    specification has 0 for the amount of a discount, tax rate or shipping
    method that is not set. *)
Theorem calculateTotals_rejects_unset_discount_tax_or_shipping (_id : string)
    (c : Cart.t) (db : Db) :
  CartDiscount.value (Cart.discount c) = None
  \/ CartTax.rate (Cart.tax c) = None
  \/ CartShipping.price (Cart.shippingMethod c) = None ->
  calculateTotals _id c db
  = (inl (if ownerless c then PlainError CustomerOrSessionRequired
          else ValidationError CartValidationFailed),
     db).
Proof.
  intros H. rewrite (calculateTotals_miscast _ _ _ H).
  unfold saveMiscast. now destruct (ownerless c).
Qed.

(** ** createOrder *)

Lemma loadCart_inr (req : CreateOrderReq.t) (db db' : Db) (cart : Cart.t)
    (user : User.t) :
  loadCart req db = (inr (cart, user), db') ->
  db' = db
  /\ carts db !! CreateOrderReq.cartId req = Some cart
  /\ CreateOrderReq.user req = Some user
  /\ Cart.items cart <> [].
Proof.
  intros H. split; [eapply readOnly_run; [apply readOnly_loadCart|exact H]|].
  revert H. unfold loadCart, bind, findById, throw, ret.
  destruct (isValid (CreateOrderReq.cartId req)); simpl; [|discriminate].
  destruct (carts db !! CreateOrderReq.cartId req) as [c|]; [|discriminate].
  destruct (CreateOrderReq.user req) as [u|]; [|discriminate].
  destruct (match Cart.customer c with Some _ => _ | None => _ end);
    [discriminate|].
  destruct (Cart.items c) eqn:Hitems; [discriminate|].
  intros [= <- <- <-]. rewrite Hitems. repeat split; discriminate.
Qed.

(** The tax entry that [createOrder] passes has no name, so the object does
    not pass the validators of the order schema. *)
Lemma validated_orderDocument (req : CreateOrderReq.t) (user : User.t)
    (cart : Cart.t) (orderNumber : string) :
  validated (orderDocument req user cart orderNumber) = None.
Proof. reflexivity. Qed.

Lemma createOrderDocument_orderDocument (sys : Sys) (req : CreateOrderReq.t)
    (user : User.t) (cart : Cart.t) (orderNumber : string) (db : Db) :
  createOrderDocument sys (orderDocument req user cart orderNumber) db
  = (inl (ValidationError OrderValidationFailed), db).
Proof. reflexivity. Qed.

Lemma createOrderDocument_inr (sys : Sys) (doc : OrderInput.t) (o : Order.t)
    (db db' : Db) :
  createOrderDocument sys doc db = (inr o, db') ->
  exists new,
    validated doc = Some new
    /\ o = withStatusHistory new
             [StatusEntry.mk pending (now sys) (Some "Order created"%string)]
    /\ db' = putOrder (newId sys) o db
    /\ orders db !! newId sys = None.
Proof.
  unfold createOrderDocument.
  destruct (validated doc) as [new|] eqn:Hnew; [|discriminate].
  destruct (bool_decide (is_Some (orders db !! newId sys))) eqn:Htaken;
    simpl; [discriminate|].
  destruct (existsb _ _); [discriminate|].
  intros [= <- <-]. exists new.
  assert (Hfresh : Order.status new = pending /\ Order.statusHistory new = []).
  { revert Hnew. unfold validated.
    destruct (allOf taxOf _); [|discriminate].
    destruct (match OrderInput.discount doc with Some _ => _ | None => _ end);
      [|discriminate].
    destruct (_ && _); [|discriminate]. now intros [= <-]. }
  destruct Hfresh as [-> ->]. repeat split.
  apply bool_decide_eq_false in Htaken. now apply eq_None_not_Some.
Qed.

(** What [createOrder] does: the checks on the cart and on the stock, which
    only read, and then the failure of [Order.create]. *)
Lemma createOrder_run (sys : Sys) (req : CreateOrderReq.t) (db : Db) :
  createOrder sys req db
  = match loadCart req db with
    | (inl e, _) => (inl e, db)
    | (inr loaded, _) =>
        match forEach checkItem (Cart.items (fst loaded)) db with
        | (inl e, _) => (inl e, db)
        | (inr _, _) => (inl (ValidationError OrderValidationFailed), db)
        end
    end.
Proof.
  unfold createOrder, bind.
  pose proof (readOnly_loadCart req db) as Hload.
  destruct (loadCart req db) as [[e|[cart user]] db1]; simpl in *; subst db1;
    [reflexivity|].
  pose proof (readOnly_forEach checkItem (Cart.items cart) readOnly_checkItem db)
    as Hcheck.
  destruct (forEach checkItem (Cart.items cart) db) as [[e|[]] db2];
    simpl in *; subst db2; reflexivity.
Qed.

Lemma createOrder_fails (sys : Sys) (req : CreateOrderReq.t) (db : Db) :
  exists e, createOrder sys req db = (inl e, db).
Proof.
  rewrite createOrder_run.
  destruct (loadCart req db) as [[e|loaded] db1]; [eauto|].
  destruct (forEach checkItem _ db) as [[e|[]] db2]; eauto.
Qed.

Lemma createOrder_inl (sys : Sys) (req : CreateOrderReq.t) (db db' : Db) (e : Error) :
  createOrder sys req db = (inl e, db') ->
  isValidationFailure e = true -> db' = db.
Proof.
  destruct (createOrder_fails sys req db) as [e' ->]. now intros [= _ <-].
Qed.

(** C8. A [createOrder] call that fails validation (malformed or missing
    cart, no authenticated user, cart of another customer, empty cart,
    missing or inactive product, missing variant, insufficient stock for a
    line) mutates nothing: the database it leaves is the database it found,
    so no order was created, no inventory was decremented and the cart is
    unchanged. *)
Theorem createOrder_validation_failure_mutates_nothing (sys : Sys)
    (req : CreateOrderReq.t) (db db' : Db) (e : Error) :
  createOrder sys req db = (inl e, db') ->
  isValidationFailure e = true ->
  db' = db
  /\ orders db' = orders db
  /\ products db' = products db
  /\ carts db' !! CreateOrderReq.cartId req = carts db !! CreateOrderReq.cartId req.
Proof.
  intros H Hval. now rewrite (createOrder_inl _ _ _ _ _ H Hval).
Qed.


(** ** Status and payment updates keep the amounts of every order *)



Lemma findOneByTransactionId_inr (transactionId : string) (db db' : Db)
    (id : string) (o : Order.t) :
  findOneByTransactionId transactionId db = (inr (Some (id, o)), db') ->
  db' = db /\ orders db !! id = Some o.
Proof.
  unfold findOneByTransactionId. intros [= Hfind <-]. split; [reflexivity|].
  apply find_some in Hfind as [Hin _].
  now apply list_elem_of_In, elem_of_map_to_list in Hin.
Qed.


Lemma updateOrderStatus_run (sys : Sys) (id name : string) (db : Db) :
  updateOrderStatus sys id name db
  = if isValid id
    then
      match parseStatus name with
      | None => (inl (BadRequestError InvalidStatus), db)
      | Some status =>
          match orders db !! id with
          | None => (inl (NotFoundError (NoOrderFound id)), db)
          | Some loaded =>
              (inr (mkResponse OK (OrderBody id (statusSaved sys loaded status))),
               putOrder id (statusSaved sys loaded status) db)
          end
      end
    else (inl (BadRequestError InvalidOrderId), db).
Proof.
  unfold updateOrderStatus. destruct (isValid id) eqn:Hid; [|reflexivity].
  simpl. destruct (parseStatus name) as [status|]; [|reflexivity].
  unfold bind, findById. rewrite Hid.
  destruct (orders db !! id) as [loaded|]; [|reflexivity].
  cbv zeta. simpl. rewrite andb_negb_r. unfold ret, saveOrder, statusSaved. simpl.
  now destruct (bool_decide (status = Order.status loaded)).
Qed.




(** The [catch] clause of [confirmPayment] changes the error, not the
    database. *)
Lemma confirmPayment_db (stripe : Stripe) (sys : Sys) (req : ConfirmPaymentReq.t)
    (db : Db) :
  snd (confirmPayment stripe sys req db)
  = match present (ConfirmPaymentReq.paymentIntentId req),
          present (ConfirmPaymentReq.orderId req) with
    | Some paymentIntentId, Some orderId =>
        snd (confirmPaymentBody stripe sys (ConfirmPaymentReq.user req)
               paymentIntentId orderId db)
    | _, _ => db
    end.
Proof.
  unfold confirmPayment.
  destruct (present (ConfirmPaymentReq.paymentIntentId req)); [|reflexivity].
  destruct (present (ConfirmPaymentReq.orderId req)); [|reflexivity].
  now destruct (confirmPaymentBody _ _ _ _ _ _) as [[[]|] ?].
Qed.



(** The [catch] clause of [handleWebhook] changes the response, not the
    database. *)
Lemma handleWebhook_db (stripe : Stripe) (sys : Sys) (req : WebhookReq.t) (db : Db) :
  snd (handleWebhook stripe sys req db)
  = match present (WebhookReq.signature req) with
    | Some signature =>
        match constructWebhookEvent stripe (WebhookReq.body req) signature with
        | Some event => snd (dispatchEvent sys event db)
        | None => db
        end
    | None => db
    end.
Proof.
  unfold handleWebhook, processWebhook.
  destruct (present (WebhookReq.signature req)) as [signature|]; [|reflexivity].
  destruct (constructWebhookEvent _ _ _) as [event|]; [|reflexivity].
  now destruct (dispatchEvent sys event db) as [[] ?].
Qed.






(** ** updateOrderStatus *)

(** C3, as the code has it.  [updateOrderStatus] has no transition table:
    for an order in any state, terminal or not, every one of the six status
    names is accepted; the handler answers 200, stores the order with the
    new status, appends one status-history entry when the status differs
    from the old one and changes no other field.  A name outside the six is
    refused with [BadRequestError] and the database is left as it was. *)
Theorem updateOrderStatus_accepts_every_transition (sys : Sys) (id name : string)
    (db : Db) (loaded : Order.t) :
  isValid id = true ->
  orders db !! id = Some loaded ->
  match parseStatus name with
  | Some status =>
      exists saved,
        updateOrderStatus sys id name db
        = (inr (mkResponse OK (OrderBody id saved)), putOrder id saved db)
        /\ Order.status saved = status
        /\ Order.statusHistory saved
           = (if bool_decide (status = Order.status loaded)
              then Order.statusHistory loaded
              else Order.statusHistory loaded
                   ++ [StatusEntry.mk status (now sys) None])
        /\ withStatusHistory (withStatus saved (Order.status loaded))
             (Order.statusHistory loaded) = loaded
  | None =>
      updateOrderStatus sys id name db = (inl (BadRequestError InvalidStatus), db)
  end.
Proof.
  intros Hid Hloaded. rewrite updateOrderStatus_run, Hid.
  destruct (parseStatus name) as [status|]; [|reflexivity].
  rewrite Hloaded. exists (statusSaved sys loaded status).
  split; [reflexivity|]. unfold statusSaved.
  destruct (bool_decide (status = Order.status loaded)); destruct loaded;
    repeat split.
Qed.

(** C3, as the specification states it, fails: cancelling a delivered order
    is answered with 200 and the stored order becomes cancelled. *)
Lemma updateOrderStatus_cancels_delivered_order :
  let o := Sample.order delivered PayCompleted (Some "pi_1"%string) in
  let db := Sample.dbWithOrder o in
  exists saved,
    updateOrderStatus (Sample.sys "") Sample.orderA "cancelled" db
    = (inr (mkResponse OK (OrderBody Sample.orderA saved)),
       putOrder Sample.orderA saved db)
    /\ Order.status o = delivered
    /\ Order.status saved = cancelled
    /\ Order.statusHistory saved
       = Order.statusHistory o
         ++ [StatusEntry.mk cancelled (now (Sample.sys "")) None].
Proof. eexists. split; [vm_compute; reflexivity|]. repeat split. Qed.

Lemma updateOrderStatus_products (sys : Sys) (id name : string) (db : Db) :
  products (snd (updateOrderStatus sys id name db)) = products db.
Proof.
  rewrite updateOrderStatus_run. destruct (isValid id); [|reflexivity].
  destruct (parseStatus name); [|reflexivity].
  now destruct (orders db !! id).
Qed.

(** C4 on the code.  [updateOrderStatus] never writes a product: the test
    that guards the restore loop reads [order.status] after the new status
    was assigned to it, so it is false for every request.  Cancelling Alice's
    pending order of two mugs answers 200 and stores the order as cancelled,
    and the stock of the mug stays at 3, where the specification has it go
    back to 5. *)
Theorem updateOrderStatus_never_restores_inventory :
  (forall sys id name db,
      products (snd (updateOrderStatus sys id name db)) = products db)
  /\ (let o := Sample.order pending PayPending None in
      let db := Sample.dbWithOrder o in
      exists saved db',
        updateOrderStatus (Sample.sys "") Sample.orderA "cancelled" db
        = (inr (mkResponse OK (OrderBody Sample.orderA saved)), db')
        /\ Order.status o = pending
        /\ Order.status saved = cancelled
        /\ map OrderItem.quantity (Order.items o) = [2%Z]
        /\ stockOf db Sample.P1 = Some 3%Z
        /\ stockOf db' Sample.P1 = Some 3%Z).
Proof.
  split; [apply updateOrderStatus_products|].
  do 2 eexists. split; [vm_compute; reflexivity|]. repeat split.
Qed.

(** ** The payment controller *)

(** What [processWebhook] does for an event about an order it finds. *)
Lemma dispatchEvent_found (sys : Sys) (event : Event) (id : string) (o : Order.t)
    (db : Db) :
  eventOrderId event = Some id ->
  isValid id = true ->
  orders db !! id = Some o ->
  dispatchEvent sys event db
  = match event with
    | payment_intent_succeeded paymentIntent =>
        if bool_decide (Payment.status (Order.payment o) <> PayCompleted)
        then (saveOrder sys id o (markPaid sys o (PaymentIntent.id paymentIntent)) ;;
              ret tt) db
        else (inr tt, db)
    | _ => (saveOrder sys id o (withPaymentStatus o PayFailed) ;; ret tt) db
    end.
Proof.
  intros Hevent Hid Ho.
  destruct event; simpl in Hevent; try discriminate;
    unfold dispatchEvent, withIntentOrder; rewrite Hevent;
    unfold bind at 1, findById; rewrite Hid, Ho; try reflexivity.
  now destruct (bool_decide _).
Qed.

Lemma handleWebhook_run (stripe : Stripe) (sys : Sys) (req : WebhookReq.t)
    (signature : string) (event : Event) (db : Db) :
  present (WebhookReq.signature req) = Some signature ->
  constructWebhookEvent stripe (WebhookReq.body req) signature = Some event ->
  handleWebhook stripe sys req db
  = match dispatchEvent sys event db with
    | (inr _, db') => (inr (mkResponse OK ReceivedBody), db')
    | (inl _, db') => (inr (mkResponse BAD_REQUEST WebhookFailedBody), db')
    end.
Proof.
  intros Hsig Hevent. unfold handleWebhook, processWebhook.
  now rewrite Hsig, Hevent.
Qed.

(** C5 on the code.  The [payment_intent.payment_failed] and
    [payment_intent.canceled] cases set [payment.status] to failed whatever
    it was: for a stored order whose payment is completed, a verified event
    of either type that names it is answered with 200 and leaves the order
    stored with [payment.status = failed] and its status as it was.  Alice's
    paid order, in processing with [payment.status = completed], ends with
    [payment.status = failed] after a late [payment_intent.payment_failed]
    event, where the specification has it stay completed. *)
Theorem handleWebhook_failed_event_overwrites_completed :
  (forall stripe sys req signature paymentIntent event id o db,
      present (WebhookReq.signature req) = Some signature ->
      constructWebhookEvent stripe (WebhookReq.body req) signature = Some event ->
      event = payment_intent_payment_failed paymentIntent
      \/ event = payment_intent_canceled paymentIntent ->
      present (PaymentIntent.orderId paymentIntent) = Some id ->
      isValid id = true ->
      orders db !! id = Some o ->
      Payment.status (Order.payment o) = PayCompleted ->
      exists db',
        handleWebhook stripe sys req db = (inr (mkResponse OK ReceivedBody), db')
        /\ exists o',
             orders db' !! id = Some o'
             /\ Payment.status (Order.payment o') = PayFailed
             /\ Order.status o' = Order.status o)
  /\ (let o := Sample.order processing PayCompleted (Some "pi_1"%string) in
      let event :=
        payment_intent_payment_failed
          (PaymentIntent.mk "pi_1" "requires_payment_method" (Some Sample.orderA)) in
      exists db' o',
        handleWebhook (Sample.stripe event) (Sample.sys "") Sample.webhook
          (Sample.dbWithOrder o)
        = (inr (mkResponse OK ReceivedBody), db')
        /\ Payment.status (Order.payment o) = PayCompleted
        /\ orders db' !! Sample.orderA = Some o'
        /\ Payment.status (Order.payment o') = PayFailed
        /\ Order.status o' = processing).
Proof.
  split.
  - intros stripe sys req signature paymentIntent event id o db
      Hsig Hevent Hkind Hmeta Hid Ho Hpaid.
    rewrite (handleWebhook_run _ _ _ _ _ _ Hsig Hevent).
    rewrite (dispatchEvent_found sys event id o db);
      [|destruct Hkind; now subst|assumption..].
    destruct Hkind; subst event; unfold bind, saveOrder, ret; simpl;
      (eexists; split; [reflexivity|]); simpl;
      rewrite lookup_insert_eq; eexists; (split; [reflexivity|]);
      destruct (bool_decide _); now split.
  - do 2 eexists. split; [vm_compute; reflexivity|].
    split; [reflexivity|]. split; [vm_compute; reflexivity|]. now split.
Qed.

(** [confirmPayment] when every check before the payment test passes. *)
Lemma confirmPayment_checked (stripe : Stripe) (sys : Sys)
    (req : ConfirmPaymentReq.t) (pid id : string) (pi : PaymentIntent.t)
    (o : Order.t) (u : User.t) (db : Db) :
  present (ConfirmPaymentReq.paymentIntentId req) = Some pid ->
  present (ConfirmPaymentReq.orderId req) = Some id ->
  getPaymentIntent stripe pid = Some pi ->
  PaymentIntent.status pi = "succeeded"%string ->
  isValid id = true ->
  orders db !! id = Some o ->
  ConfirmPaymentReq.user req = Some u ->
  Order.customer o = User.userId u ->
  confirmPayment stripe sys req db
  = if bool_decide (Payment.status (Order.payment o) = PayCompleted)
    then (inr (mkResponse OK (MessageOrderBody "Order is already paid" id o)), db)
    else (inr (mkResponse OK
                 (MessageOrderBody "Payment confirmed successfully" id
                    (paidSaved sys o pid))),
          putOrder id (paidSaved sys o pid) db).
Proof.
  intros Hpid Hid Hpi Hstatus Hvalid Ho Hu Hcust.
  unfold confirmPayment, confirmPaymentBody. rewrite Hpid, Hid, Hpi, Hstatus, Hu.
  simpl. unfold bind, findById. rewrite Hvalid, Ho, Hcust, String.eqb_refl.
  simpl. unfold paidSaved.
  destruct (bool_decide (Payment.status (Order.payment o) = PayCompleted));
    reflexivity.
Qed.

(** A successful [confirmPayment] has passed every check. *)
Lemma confirmPayment_inr (stripe : Stripe) (sys : Sys) (req : ConfirmPaymentReq.t)
    (db db' : Db) (r : Response) :
  confirmPayment stripe sys req db = (inr r, db') ->
  exists pid id pi o u,
    present (ConfirmPaymentReq.paymentIntentId req) = Some pid
    /\ present (ConfirmPaymentReq.orderId req) = Some id
    /\ getPaymentIntent stripe pid = Some pi
    /\ PaymentIntent.status pi = "succeeded"%string
    /\ isValid id = true
    /\ orders db !! id = Some o
    /\ ConfirmPaymentReq.user req = Some u
    /\ Order.customer o = User.userId u.
Proof.
  unfold confirmPayment, confirmPaymentBody.
  destruct (present (ConfirmPaymentReq.paymentIntentId req)) as [pid|] eqn:Hpid;
    [|discriminate].
  destruct (present (ConfirmPaymentReq.orderId req)) as [id|] eqn:Hid;
    [|discriminate].
  destruct (getPaymentIntent stripe pid) as [pi|] eqn:Hpi; [|discriminate].
  destruct (String.eqb (PaymentIntent.status pi) "succeeded") eqn:Hstatus;
    simpl; [|discriminate].
  unfold bind, findById. destruct (isValid id) eqn:Hvalid; [|discriminate].
  destruct (orders db !! id) as [o|] eqn:Ho; [|discriminate].
  destruct (ConfirmPaymentReq.user req) as [u|] eqn:Hu; [|discriminate].
  destruct (String.eqb (Order.customer o) (User.userId u)) eqn:Hcust;
    simpl; [|discriminate].
  intros _. exists pid, id, pi, o, u.
  apply String.eqb_eq in Hstatus, Hcust. repeat split; (assumption || reflexivity).
Qed.

Lemma paidSaved_completed (sys : Sys) (o : Order.t) (transactionId : string) :
  Payment.status (Order.payment (paidSaved sys o transactionId)) = PayCompleted
  /\ Order.customer (paidSaved sys o transactionId) = Order.customer o.
Proof. unfold paidSaved. now destruct (bool_decide _). Qed.

(** The succeeded webhook for an order it finds. *)
Lemma handleWebhook_succeeded (stripe : Stripe) (sys : Sys) (req : WebhookReq.t)
    (signature id : string) (pi : PaymentIntent.t) (o : Order.t) (db : Db) :
  present (WebhookReq.signature req) = Some signature ->
  constructWebhookEvent stripe (WebhookReq.body req) signature
  = Some (payment_intent_succeeded pi) ->
  present (PaymentIntent.orderId pi) = Some id ->
  isValid id = true ->
  orders db !! id = Some o ->
  handleWebhook stripe sys req db
  = (inr (mkResponse OK ReceivedBody),
     if bool_decide (Payment.status (Order.payment o) = PayCompleted) then db
     else putOrder id (paidSaved sys o (PaymentIntent.id pi)) db).
Proof.
  intros Hsig Hevent Hmeta Hvalid Ho.
  rewrite (handleWebhook_run _ _ _ _ _ _ Hsig Hevent).
  rewrite (dispatchEvent_found sys (payment_intent_succeeded pi) id o db
             Hmeta Hvalid Ho).
  destruct (decide (Payment.status (Order.payment o) = PayCompleted)) as [Hp|Hp].
  - rewrite (bool_decide_eq_false_2 _) by tauto.
    now rewrite (bool_decide_eq_true_2 _ Hp).
  - rewrite (bool_decide_eq_true_2 _ Hp), (bool_decide_eq_false_2 _ Hp).
    reflexivity.
Qed.

(** C6.  On an order whose payment is already completed, [confirmPayment]
    and the [payment_intent.succeeded] webhook change nothing in the
    database, so the status history, [payment.transactionId],
    [payment.paidAt] and every stock are as before, and they answer with
    success: [confirmPayment] with 200 "Order is already paid" when the
    request passes the checks made before the payment test, the webhook with
    200 {received: true}.  Applied a second time after a first successful
    application, each of them finds the payment completed: the second
    application answers with success and leaves the database of the first,
    in which the first application has added at most one status-history
    entry, the one for processing. *)
Theorem payment_confirmation_idempotent (stripe : Stripe) (sys : Sys)
    (id : string) (o : Order.t) (db : Db) :
  isValid id = true ->
  orders db !! id = Some o ->
  Payment.status (Order.payment o) = PayCompleted ->
  (forall req,
      present (ConfirmPaymentReq.orderId req) = Some id ->
      snd (confirmPayment stripe sys req db) = db
      /\ forall pid pi u,
           present (ConfirmPaymentReq.paymentIntentId req) = Some pid ->
           getPaymentIntent stripe pid = Some pi ->
           PaymentIntent.status pi = "succeeded"%string ->
           ConfirmPaymentReq.user req = Some u ->
           Order.customer o = User.userId u ->
           confirmPayment stripe sys req db
           = (inr (mkResponse OK (MessageOrderBody "Order is already paid" id o)),
              db))
  /\ (forall req signature pi,
        present (WebhookReq.signature req) = Some signature ->
        constructWebhookEvent stripe (WebhookReq.body req) signature
        = Some (payment_intent_succeeded pi) ->
        present (PaymentIntent.orderId pi) = Some id ->
        handleWebhook stripe sys req db = (inr (mkResponse OK ReceivedBody), db))
  /\ (forall req sys1 db0 db1 r1,
        confirmPayment stripe sys1 req db0 = (inr r1, db1) ->
        exists id1 o0 o1,
          orders db0 !! id1 = Some o0
          /\ orders db1 !! id1 = Some o1
          /\ (Order.statusHistory o1 = Order.statusHistory o0
              \/ Order.statusHistory o1
                 = Order.statusHistory o0
                   ++ [StatusEntry.mk processing (now sys1) None])
          /\ products db1 = products db0
          /\ confirmPayment stripe sys req db1
             = (inr (mkResponse OK
                       (MessageOrderBody "Order is already paid" id1 o1)),
                db1))
  /\ (forall req signature pi id1 sys1 db0 o0,
        present (WebhookReq.signature req) = Some signature ->
        constructWebhookEvent stripe (WebhookReq.body req) signature
        = Some (payment_intent_succeeded pi) ->
        present (PaymentIntent.orderId pi) = Some id1 ->
        isValid id1 = true ->
        orders db0 !! id1 = Some o0 ->
        exists db1 o1,
          handleWebhook stripe sys1 req db0
          = (inr (mkResponse OK ReceivedBody), db1)
          /\ orders db1 !! id1 = Some o1
          /\ (Order.statusHistory o1 = Order.statusHistory o0
              \/ Order.statusHistory o1
                 = Order.statusHistory o0
                   ++ [StatusEntry.mk processing (now sys1) None])
          /\ products db1 = products db0
          /\ handleWebhook stripe sys req db1
             = (inr (mkResponse OK ReceivedBody), db1)).
Proof.
  intros Hvalid Ho Hpaid. split; [|split; [|split]].
  - intros req Hid. split.
    + rewrite confirmPayment_db, Hid.
      destruct (present (ConfirmPaymentReq.paymentIntentId req)) as [pid|];
        [|reflexivity].
      unfold confirmPaymentBody, bind, findById, throw, ret.
      destruct (getPaymentIntent stripe pid); [|reflexivity].
      destruct (negb _); [reflexivity|].
      rewrite Hvalid, Ho, Hpaid.
      destruct (ConfirmPaymentReq.user req); [|reflexivity].
      now destruct (negb _).
    + intros pid pi u Hpid Hpi Hstatus Hu Hcust.
      rewrite (confirmPayment_checked stripe sys req pid id pi o u db)
        by assumption.
      now rewrite (bool_decide_eq_true_2 _ Hpaid).
  - intros req signature pi Hsig Hevent Hmeta.
    rewrite (handleWebhook_succeeded stripe sys req signature id pi o db)
      by assumption.
    now rewrite (bool_decide_eq_true_2 _ Hpaid).
  - intros req sys1 db0 db1 r1 Hfirst.
    pose proof (confirmPayment_inr _ _ _ _ _ _ Hfirst)
      as (pid & id1 & pi & o0 & u & Hpid & Hid & Hpi & Hstatus & Hv & Ho0 & Hu & Hc).
    rewrite (confirmPayment_checked stripe sys1 req pid id1 pi o0 u db0)
      in Hfirst by assumption.
    exists id1, o0.
    destruct (decide (Payment.status (Order.payment o0) = PayCompleted)) as [Hp|Hp].
    + rewrite (bool_decide_eq_true_2 _ Hp) in Hfirst. injection Hfirst as _ <-.
      exists o0. split; [assumption|]. split; [assumption|].
      split; [now left|]. split; [reflexivity|].
      rewrite (confirmPayment_checked stripe sys req pid id1 pi o0 u db0)
        by assumption.
      now rewrite (bool_decide_eq_true_2 _ Hp).
    + rewrite (bool_decide_eq_false_2 _ Hp) in Hfirst. injection Hfirst as _ <-.
      exists (paidSaved sys1 o0 pid). split; [assumption|].
      assert (Hs : orders (putOrder id1 (paidSaved sys1 o0 pid) db0) !! id1
                   = Some (paidSaved sys1 o0 pid)) by apply lookup_insert_eq.
      split; [exact Hs|].
      split; [unfold paidSaved; destruct (bool_decide _); [left|right]; reflexivity|].
      split; [reflexivity|].
      destruct (paidSaved_completed sys1 o0 pid) as [Hdone Hsame].
      rewrite (confirmPayment_checked stripe sys req pid id1 pi
                 (paidSaved sys1 o0 pid) u _) by (try assumption; congruence).
      now rewrite (bool_decide_eq_true_2 _ Hdone).
  - intros req signature pi id1 sys1 db0 o0 Hsig Hevent Hmeta Hv Ho0.
    rewrite (handleWebhook_succeeded stripe sys1 req signature id1 pi o0 db0)
      by assumption.
    destruct (decide (Payment.status (Order.payment o0) = PayCompleted)) as [Hp|Hp].
    + rewrite (bool_decide_eq_true_2 _ Hp). exists db0, o0.
      split; [reflexivity|]. split; [assumption|]. split; [now left|].
      split; [reflexivity|].
      rewrite (handleWebhook_succeeded stripe sys req signature id1 pi o0 db0)
        by assumption.
      now rewrite (bool_decide_eq_true_2 _ Hp).
    + rewrite (bool_decide_eq_false_2 _ Hp).
      eexists. exists (paidSaved sys1 o0 (PaymentIntent.id pi)).
      split; [reflexivity|].
      assert (Hs : orders (putOrder id1 (paidSaved sys1 o0 (PaymentIntent.id pi)) db0)
                     !! id1
                   = Some (paidSaved sys1 o0 (PaymentIntent.id pi)))
        by apply lookup_insert_eq.
      split; [exact Hs|].
      split; [unfold paidSaved; destruct (bool_decide _); [left|right]; reflexivity|].
      split; [reflexivity|].
      destruct (paidSaved_completed sys1 o0 (PaymentIntent.id pi)) as [Hdone _].
      rewrite (handleWebhook_succeeded stripe sys req signature id1 pi
                 (paidSaved sys1 o0 (PaymentIntent.id pi)) _) by assumption.
      now rewrite (bool_decide_eq_true_2 _ Hdone).
Qed.

Lemma dispatchEvent_throws (sys : Sys) (event : Event) (db : Db) :
  if processingThrows event
  then exists e, dispatchEvent sys event db = (inl e, db)
  else exists db', dispatchEvent sys event db = (inr tt, db').
Proof.
  unfold processingThrows.
  destruct event as [pi|pi|pi|charge|type]; simpl;
    try (unfold withIntentOrder;
         destruct (present (PaymentIntent.orderId pi)) as [id|];
         [|eexists; reflexivity];
         unfold bind, findById; destruct (isValid id); simpl;
         [|eexists; reflexivity];
         destruct (orders db !! id); [|eexists; reflexivity];
         try destruct (bool_decide _); eexists; reflexivity).
  - unfold bind. destruct (findOneByTransactionId _ db) as [[e|[[id o]|]] db1] eqn:Hfind;
      try discriminate Hfind; eexists; reflexivity.
  - eexists. reflexivity.
Qed.



(** ** Concurrent checkouts *)

(** One step of a task leaves the outcome of the handler as it was. *)
Lemma step_finish (sys : Sys) (req : CreateOrderReq.t) (t : Task) (db : Db) :
  finish sys req (fst (step sys req t db)) (snd (step sys req t db))
  = finish sys req t db.
Proof.
  destruct t as [|cart user [|item todo]|cart user n|cart order [|item todo]
                |cart order item product todo|result]; simpl.
  - unfold createOrder, advance, bind.
    now destruct (loadCart req db) as [[e|[cart user]] db1].
  - reflexivity.
  - unfold advance, bind. now destruct (checkItem item db) as [[e|[]] db1].
  - reflexivity.
  - unfold advance, bind, ret.
    now destruct (clearCart (CreateOrderReq.cartId req) cart db) as [[e|c'] db1].
  - unfold advance, decrementItem, bind, findById.
    destruct (isValid (CartItem.product item)); [|reflexivity].
    destruct (products db !! CartItem.product item) as [product|];
      [|reflexivity].
    simpl. unfold bind. now destruct (saveProduct _ _ _ db) as [[e|[]] db1].
  - unfold advance, bind. now destruct (saveProduct _ _ _ db) as [[e|[]] db1].
  - reflexivity.
Qed.

Lemma step_stepsLeft (sys : Sys) (req : CreateOrderReq.t) (t : Task) (db : Db) :
  t <> Started ->
  (stepsLeft (fst (step sys req t db)) <= pred (stepsLeft t))%nat
  /\ fst (step sys req t db) <> Started.
Proof.
  intros Hstart.
  destruct t as [|cart user [|item todo]|cart user n|cart order [|item todo]
                |cart order item product todo|result]; simpl;
    [congruence|..]; unfold advance.
  - split; [simpl; lia|discriminate].
  - destruct (checkItem item db) as [[e|[]] db1]; simpl; split;
      (lia || discriminate).
  - split; (lia || discriminate).
  - destruct (clearCart (CreateOrderReq.cartId req) cart db) as [[e|c'] db1];
      simpl; split; (lia || discriminate).
  - destruct (findById products (CartItem.product item) db)
      as [[e|[product|]] db1]; simpl; split; (lia || discriminate).
  - destruct (saveProduct _ _ _ db) as [[e|[]] db1]; simpl; split;
      (lia || discriminate).
  - split; (lia || discriminate).
Qed.

Lemma runAlone_finish (sys : Sys) (req : CreateOrderReq.t) (n : nat) (t : Task)
    (db : Db) :
  t <> Started ->
  (stepsLeft t <= n)%nat ->
  runAlone n sys req t db
  = (Finished (fst (finish sys req t db)), snd (finish sys req t db)).
Proof.
  revert t db. induction n as [|n IH]; intros t db Hstart Hle.
  - destruct t as [|cart user todo|cart user k|cart order todo
                  |cart order item product todo|result];
      simpl in Hle; try lia; [congruence|reflexivity].
  - simpl. destruct (step_stepsLeft sys req t db Hstart) as [Hdec Hns].
    rewrite IH; [|assumption|lia]. now rewrite step_finish.
Qed.

(** A request alone on the server: resumed often enough, its task finishes
    with the response or the error of [createOrder] and the database of
    [createOrder]. *)
Lemma runAlone_createOrder (sys : Sys) (req : CreateOrderReq.t) (db : Db) :
  exists n,
    runAlone n sys req Started db
    = (Finished (fst (createOrder sys req db)), snd (createOrder sys req db)).
Proof.
  exists (S (stepsLeft (fst (step sys req Started db)))).
  assert (Hns : fst (step sys req Started db) <> Started).
  { simpl. unfold advance.
    now destruct (loadCart req db) as [[e|[cart user]] db1]. }
  cbn [runAlone]. rewrite runAlone_finish by (assumption || lia).
  rewrite step_finish. reflexivity.
Qed.

Lemma inventoryValid_spec (p : Product.t) :
  inventoryValid p = true
  <-> (0 <= Product.inventory p)%Z
      /\ Forall (fun pv => (0 <= ProductVariant.inventory pv)%Z) (Product.variants p).
Proof.
  unfold inventoryValid. rewrite andb_true_iff, Z.leb_le, forallb_forall.
  rewrite List.Forall_forall. setoid_rewrite Z.leb_le. reflexivity.
Qed.

(** A save that passes the validators on the loaded product writes a stock
    that is not negative. *)
Lemma applyChange_adjust_valid (variant : VariantRef.t) (delta : Z)
    (loaded stored : Product.t) :
  inventoryValid (applyChange (adjustInventory variant delta loaded) loaded) = true ->
  inventoryValid stored = true ->
  inventoryValid (applyChange (adjustInventory variant delta loaded) stored) = true.
Proof.
  unfold adjustInventory.
  destruct (lineVariantId variant) as [vid|]; simpl.
  - destruct (findIndex _ _) as [i|]; [|trivial].
    destruct (Product.variants loaded !! i) as [pv|] eqn:Hpv; [|trivial].
    simpl. rewrite !inventoryValid_spec. simpl.
    intros [_ Hloaded] [Hinv Hstored]. split; [assumption|].
    apply Forall_alter; [assumption|]. intros pv' _ _. simpl.
    rewrite Forall_lookup in Hloaded.
    specialize (Hloaded i _ (eq_trans (list_lookup_alter_eq _ _ _) 
      (f_equal (fmap _) Hpv))). exact Hloaded.
  - rewrite !inventoryValid_spec. simpl. tauto.
Qed.

Lemma saveProduct_stockValid (id : string) (variant : VariantRef.t)
    (delta : Z) (loaded : Product.t) (db : Db) :
  stockValid db ->
  stockValid
    (snd (saveProduct id loaded (adjustInventory variant delta loaded) db)).
Proof.
  intros Hdb. unfold saveProduct.
  destruct (inventoryValid (applyChange _ loaded)) eqn:Hvalid; [|exact Hdb].
  pose proof (applyChange_adjust_valid variant delta loaded) as Hkey.
  destruct (adjustInventory variant delta loaded) as [|v|i v]; [exact Hdb|..];
    (destruct (products db !! id) as [stored|] eqn:Hstored; [|exact Hdb];
     intros id' p; simpl;
     destruct (decide (id = id')) as [<-|Hne];
     [rewrite lookup_insert_eq; intros [= <-];
      apply (Hkey stored Hvalid), (Hdb _ _ Hstored)
     |rewrite lookup_insert_ne by assumption; apply Hdb]).
Qed.

Lemma step_stockValid (sys : Sys) (req : CreateOrderReq.t) (t : Task) (db : Db) :
  stockValid db -> stockValid (snd (step sys req t db)).
Proof.
  intros Hdb.
  destruct t as [|cart user [|item todo]|cart user n|cart order [|item todo]
                |cart order item product todo|result]; simpl; unfold advance.
  - pose proof (readOnly_loadCart req db) as Hro.
    destruct (loadCart req db) as [[e|loaded] db1]; simpl in *; now subst.
  - exact Hdb.
  - pose proof (readOnly_checkItem item db) as Hro.
    destruct (checkItem item db) as [[e|[]] db1]; simpl in *; now subst.
  - exact Hdb.
  - unfold clearCart, bind, saveCart.
    destruct (ownerless _); [exact Hdb|]. destruct (cartValid _); exact Hdb.
  - pose proof (readOnly_findById products (CartItem.product item) db) as Hro.
    destruct (findById products (CartItem.product item) db) as [[e|found] db1];
      simpl in *; now subst.
  - pose proof (saveProduct_stockValid (CartItem.product item)
                  (CartItem.variant item) (- CartItem.quantity item) product db Hdb)
      as Hsave.
    now destruct (saveProduct _ _ _ db) as [[e|[]] db1].
  - exact Hdb.
Qed.

(** Under every schedule the stored stock stays non-negative: a decrement
    that would make it negative fails the validators of [product.save()]. *)
Lemma run_stockValid (schedule : list nat) (jobs : list Job) (db : Db) :
  stockValid db -> stockValid (snd (run schedule jobs db)).
Proof.
  revert jobs db. induction schedule as [|i rest IH]; intros jobs db Hdb;
    [exact Hdb|].
  simpl. apply IH. unfold resume.
  destruct (jobs !! i) as [j|]; [|exact Hdb]. simpl.
  now apply step_stockValid.
Qed.

(** Before its order is stored a checkout only reads; and [Order.create]
    refuses the order, so the task ends there. *)
Lemma step_beforeOrder (sys : Sys) (req : CreateOrderReq.t) (t : Task) (db : Db) :
  beforeOrder t = true ->
  beforeOrder (fst (step sys req t db)) = true /\ snd (step sys req t db) = db.
Proof.
  destruct t as [|cart user [|item todo]|cart user n|cart order todo
                |cart order item product todo|result]; simpl;
    try discriminate; intros _; unfold advance.
  - pose proof (readOnly_loadCart req db) as Hro.
    now destruct (loadCart req db) as [[e|loaded] db1].
  - now split.
  - pose proof (readOnly_checkItem item db) as Hro.
    now destruct (checkItem item db) as [[e|[]] db1].
  - now split.
  - now split.
Qed.

Lemma runAlone_beforeOrder (n : nat) (sys : Sys) (req : CreateOrderReq.t)
    (t : Task) (db : Db) :
  beforeOrder t = true ->
  beforeOrder (fst (runAlone n sys req t db)) = true
  /\ snd (runAlone n sys req t db) = db.
Proof.
  revert t. induction n as [|n IH]; intros t Ht; [now split|].
  simpl. destruct (step_beforeOrder sys req t db Ht) as [Ht' ->]. now apply IH.
Qed.

Lemma runAlone_Finished (n : nat) (sys : Sys) (req : CreateOrderReq.t)
    (result : Result Response) (db : Db) :
  runAlone n sys req (Finished result) db = (Finished result, db).
Proof. induction n as [|n IH]; [reflexivity|exact IH]. Qed.

Lemma runAlone_add (a b : nat) (sys : Sys) (req : CreateOrderReq.t) (t : Task)
    (db : Db) :
  runAlone (a + b) sys req t db
  = runAlone b sys req (fst (runAlone a sys req t db))
      (snd (runAlone a sys req t db)).
Proof.
  revert t db. induction a as [|a IH]; intros t db; [reflexivity|].
  simpl. apply IH.
Qed.

(** Checkouts that have not stored their order do not see each other: under
    every schedule the database stays as it is, and each job is where it
    would be had it been resumed alone. *)
Lemma run_beforeOrder (schedule : list nat) (jobs : list Job) (db : Db) :
  Forall (fun j => beforeOrder (jobTask j) = true) jobs ->
  run schedule jobs db = (imap (resumed schedule db) jobs, db).
Proof.
  revert jobs. induction schedule as [|i rest IH]; intros jobs Hjobs.
  - simpl. f_equal. apply list_eq. intros k. rewrite list_lookup_imap.
    destruct (jobs !! k) as [[s r t]|]; reflexivity.
  - simpl. unfold resume. destruct (jobs !! i) as [j|] eqn:Hj; simpl.
    + pose proof (proj1 (Forall_lookup _ _) Hjobs i j Hj) as Ht. simpl in Ht.
      destruct (step_beforeOrder (jobSys j) (jobReq j) (jobTask j) db Ht)
        as [Ht' Hdb].
      rewrite Hdb, IH.
      * f_equal. apply list_eq. intros k. rewrite !list_lookup_imap.
        destruct (decide (k = i)) as [->|Hne].
        -- rewrite list_lookup_insert_eq by (eapply lookup_lt_Some, Hj).
           rewrite Hj. simpl. unfold resumed. simpl.
           destruct (Nat.eq_dec i i) as [_|Hii]; [|congruence].
           simpl. now rewrite Hdb.
        -- rewrite list_lookup_insert_ne by congruence.
           destruct (jobs !! k) as [jk|]; [|reflexivity]. simpl.
           unfold resumed. simpl.
           destruct (Nat.eq_dec i k) as [Hik|_]; [congruence|reflexivity].
      * apply Forall_insert; [exact Hjobs|exact Ht'].
    + rewrite IH by exact Hjobs. f_equal. apply list_eq. intros k.
      rewrite !list_lookup_imap.
      destruct (jobs !! k) as [jk|] eqn:Hk; [|reflexivity]. simpl.
      unfold resumed. simpl.
      destruct (Nat.eq_dec i k) as [Hik|_]; [congruence|reflexivity].
Qed.

(** C2 on the code.  Two checkouts of three mugs each run against a stock of
    five.  Under every schedule neither of them sells anything: each passes
    the stock check and is then refused by [Order.create], whose validators
    do not accept the tax entry that [createOrder] builds from the cart.
    The database stays as it was, with five mugs in stock and no order; a
    request that has finished has finished with the ValidationError; and
    once each request has been resumed four times both have finished.  The
    claim has one of them succeed and the stock end at 2.  As no checkout
    gets past [Order.create], checkouts in flight sell nothing, whatever
    their requests and the schedule are; and under every schedule, from
    every state of the requests, the stored stock stays non-negative,
    because [product.save()] validates it.  A request that is alone on the
    server ends with the answer of [createOrder]. *)
Theorem concurrent_checkouts_sell_nothing (schedule : list nat) :
  let db := Sample.dbTotalled 3 3 in
  let out := run schedule Sample.twoCheckouts db in
  let rejected := Finished (inl (ValidationError OrderValidationFailed)) in
  stockOf db Sample.P1 = Some 5%Z
  /\ snd out = db
  /\ (forall i j,
        fst out !! i = Some j ->
        quantityTaken Sample.P1 j = 0%Z
        /\ forall result, jobTask j = Finished result -> jobTask j = rejected)
  /\ ((4 <= count_occ Nat.eq_dec schedule 0)%nat ->
      (4 <= count_occ Nat.eq_dec schedule 1)%nat ->
      map jobTask (fst out) = [rejected; rejected])
  /\ (forall requests db0,
        snd (run schedule (map (fun r => submit (fst r) (snd r)) requests) db0)
        = db0)
  /\ (forall jobs db0,
        stockValid db0 -> stockValid (snd (run schedule jobs db0)))
  /\ (forall sys req db0,
        exists n,
          runAlone n sys req Started db0
          = (Finished (fst (createOrder sys req db0)),
             snd (createOrder sys req db0))).
Proof.
  intros db out rejected. subst rejected.
  set (rejected := Finished (inl (ValidationError OrderValidationFailed))).
  assert (Hrun : out = (imap (resumed schedule db) Sample.twoCheckouts, db)).
  { apply run_beforeOrder. repeat constructor. }
  assert (Halone : forall sys req n,
            (sys = Sample.sys Sample.orderA
             /\ req = Sample.checkout Sample.alice Sample.cartA)
            \/ (sys = Sample.sys Sample.orderB
                /\ req = Sample.checkout Sample.bob Sample.cartB) ->
            let t := fst (runAlone n sys req Started db) in
            ((4 <= n)%nat -> t = rejected)
            /\ quantityTaken Sample.P1 (mkJob sys req t) = 0%Z
            /\ forall result, t = Finished result -> t = rejected).
  { intros sys req n Hwho.
    assert (Hfour : runAlone 4 sys req Started db = (rejected, db))
      by (destruct Hwho as [[-> ->]|[-> ->]]; vm_compute; reflexivity).
    destruct (le_lt_dec 4 n) as [Hle|Hlt].
    - replace n with (4 + (n - 4))%nat by lia.
      rewrite runAlone_add, Hfour. simpl. unfold rejected.
      rewrite runAlone_Finished. simpl. now repeat split.
    - split; [lia|].
      destruct n as [|[|[|[|n]]]]; [..|lia];
        destruct Hwho as [[-> ->]|[-> ->]]; vm_compute; split;
        (reflexivity || discriminate). }
  split; [reflexivity|]. rewrite Hrun. simpl.
  split; [reflexivity|]. split.
  - intros [|[|i]] j; simpl; [intros [= <-]..|discriminate].
    + apply (Halone _ _ (count_occ Nat.eq_dec schedule 0%nat)). now left.
    + apply (Halone _ _ (count_occ Nat.eq_dec schedule 1%nat)). now right.
  - split; [|split].
    + intros H0 H1. unfold resumed. simpl.
      rewrite (proj1 (Halone _ _ (count_occ Nat.eq_dec schedule 0%nat)
                        (or_introl (conj eq_refl eq_refl))) H0).
      now rewrite (proj1 (Halone _ _ (count_occ Nat.eq_dec schedule 1%nat)
                            (or_intror (conj eq_refl eq_refl))) H1).
    + intros requests db0. rewrite run_beforeOrder; [reflexivity|].
      apply Forall_forall. intros j Hj.
      apply list_elem_of_fmap in Hj as (r & -> & _). reflexivity.
    + split; [intros jobs db0; apply run_stockValid|].
      intros sys req db0. apply runAlone_createOrder.
Qed.


(** * Further properties of the code *)

(** ** What a status or payment update writes *)

Lemma present_is_Some (field : option string) (s : string) :
  present field = Some s -> field = Some s.
Proof.
  destruct field as [x|]; [|discriminate]. simpl.
  destruct (truthy x); [|discriminate]. congruence.
Qed.

(** Unfolds a handler and splits on its tests; a branch either leaves the
    database or stores the hooked edit of the order it loaded. *)
Ltac writes_cases :=
  unfold bind, throw, ret, findById, saveOrder; simpl;
  repeat
    match goal with
    | H : (if ?b then _ else _) = (_, _) |- _ =>
        destruct b eqn:?; simplify_eq; simpl
    | |- ?db = ?db \/ _ => left; reflexivity
    | sys : Sys |- putOrder ?id ?X ?db = ?db \/ _ =>
        let m := match X with withStatusHistory ?m _ => m | _ => X end in
        right; exists sys, id; eexists; exists m; split; [eassumption|];
        split;
        [|unfold hooked; simpl;
          match goal with
          | H : bool_decide _ = _ |- _ => rewrite H; reflexivity
          end]
    | |- context [match ?x with _ => _ end] => destruct x eqn:?; simpl
    | |- context [if ?b then _ else _] => destruct b eqn:?; simpl
    end.

Lemma updateOrderStatus_writes (sys : Sys) (id name : string) (db : Db) :
  snd (updateOrderStatus sys id name db) = db
  \/ exists sys' id' o m,
       orders db !! id' = Some o /\ Edited sys' o m
       /\ snd (updateOrderStatus sys id name db) = putOrder id' (hooked sys' o m) db.
Proof.
  rewrite updateOrderStatus_run.
  destruct (isValid id); [|now left].
  destruct (parseStatus name) as [status|]; [|now left].
  destruct (orders db !! id) as [o|] eqn:Ho; [|now left].
  right. exists sys, id, o, (withStatus o status).
  split; [exact Ho|]. split; [constructor|].
  simpl. unfold statusSaved, hooked. simpl.
  now destruct (bool_decide (status = Order.status o)).
Qed.

Lemma confirmPayment_writes (stripe : Stripe) (sys : Sys)
    (req : ConfirmPaymentReq.t) (db : Db) :
  snd (confirmPayment stripe sys req db) = db
  \/ exists sys' id' o m,
       orders db !! id' = Some o /\ Edited sys' o m
       /\ snd (confirmPayment stripe sys req db) = putOrder id' (hooked sys' o m) db.
Proof.
  rewrite confirmPayment_db.
  destruct (present _); [|now left]. destruct (present _); [|now left].
  unfold confirmPaymentBody. writes_cases.
  all: apply Edited_paid;
    match goal with
    | H : bool_decide (_ = PayCompleted) = false |- _ =>
        now apply bool_decide_eq_false in H
    end.
Qed.

Lemma dispatchEvent_writes (sys : Sys) (event : Event) (db : Db) :
  snd (dispatchEvent sys event db) = db
  \/ exists sys' id' o m,
       orders db !! id' = Some o /\ Edited sys' o m
       /\ snd (dispatchEvent sys event db) = putOrder id' (hooked sys' o m) db.
Proof.
  destruct event as [pi|pi|pi|charge|type]; unfold dispatchEvent, withIntentOrder.
  - writes_cases.
    all: apply Edited_paid;
      match goal with
      | H : bool_decide (_ <> PayCompleted) = true |- _ =>
          now apply bool_decide_eq_true in H
      end.
  - writes_cases; apply Edited_failed.
  - writes_cases; apply Edited_failed.
  - unfold bind.
    destruct (findOneByTransactionId _ db) as [[e|[[id o]|]] db1] eqn:Hfind;
      try (injection Hfind as _ <-; now left).
    pose proof Hfind as Hpred. unfold findOneByTransactionId in Hpred.
    injection Hpred as Hpred _. apply find_some in Hpred as [_ Hpred].
    apply bool_decide_eq_true in Hpred. simpl in Hpred.
    apply findOneByTransactionId_inr in Hfind as [-> Ho].
    writes_cases; apply Edited_refunded; rewrite Hpred; eauto.
  - now left.
Qed.

Lemma createRefund_writes (stripe : Stripe) (sys : Sys) (req : RefundReq.t)
    (db : Db) :
  snd (createRefund stripe sys req db) = db
  \/ exists sys' id' o m,
       orders db !! id' = Some o /\ Edited sys' o m
       /\ snd (createRefund stripe sys req db) = putOrder id' (hooked sys' o m) db.
Proof.
  unfold createRefund. writes_cases.
  all: apply Edited_refunded;
    match goal with
    | H : present _ = Some _ |- _ =>
        apply present_is_Some in H; rewrite H; eauto
    end.
Qed.

(** Every status or payment update either leaves the database as it is or
    stores, under its id, the hooked edit of one order it loaded. *)
Lemma applyUpdate_writes (u : Update) (db : Db) :
  snd (applyUpdate u db) = db
  \/ exists sys id o m,
       orders db !! id = Some o /\ Edited sys o m
       /\ snd (applyUpdate u db) = putOrder id (hooked sys o m) db.
Proof.
  destruct u as [sys id name|stripe sys req|stripe sys req|stripe sys req]; simpl.
  - apply updateOrderStatus_writes.
  - apply confirmPayment_writes.
  - rewrite handleWebhook_db.
    destruct (present _); [|now left].
    destruct (constructWebhookEvent _ _ _); [|now left].
    apply dispatchEvent_writes.
  - apply createRefund_writes.
Qed.

Lemma applyUpdate_order (R : Order.t -> Order.t -> Prop) (u : Update) (db : Db)
    (id : string) (o : Order.t) :
  (forall a, R a a) ->
  (forall sys a m, Edited sys a m -> R a (hooked sys a m)) ->
  orders db !! id = Some o ->
  exists o', orders (snd (applyUpdate u db)) !! id = Some o' /\ R o o'.
Proof.
  intros Hrefl Hedit Ho.
  destruct (applyUpdate_writes u db) as [->|(sys & id' & a & m & Ha & Hm & ->)];
    [eauto|].
  simpl. destruct (decide (id' = id)) as [->|Hne].
  - rewrite lookup_insert_eq. assert (a = o) as -> by congruence. eauto.
  - rewrite lookup_insert_ne by assumption. eauto.
Qed.

(** An order relation that every edit respects holds between an order and
    what any sequence of updates leaves of it. *)
Lemma applyUpdates_order (R : Order.t -> Order.t -> Prop) (updates : list Update)
    (db : Db) (id : string) (o : Order.t) :
  (forall a, R a a) ->
  (forall a b c, R a b -> R b c -> R a c) ->
  (forall sys a m, Edited sys a m -> R a (hooked sys a m)) ->
  orders db !! id = Some o ->
  exists o', orders (applyUpdates updates db) !! id = Some o' /\ R o o'.
Proof.
  intros Hrefl Htrans Hedit. revert db o.
  induction updates as [|u rest IH]; intros db o Ho; simpl; [eauto|].
  destruct (applyUpdate_order R u db id o Hrefl Hedit Ho) as (o1 & Ho1 & R1).
  destruct (IH _ _ Ho1) as (o2 & Ho2 & R2). eauto.
Qed.

Lemma applyUpdate_dom (u : Update) (db : Db) :
  dom (orders (snd (applyUpdate u db))) = dom (orders db)
  /\ products (snd (applyUpdate u db)) = products db
  /\ carts (snd (applyUpdate u db)) = carts db.
Proof.
  destruct (applyUpdate_writes u db) as [->|(sys & id & a & m & Ha & _ & ->)];
    [done|].
  simpl. split; [|done]. rewrite dom_insert_L.
  apply subseteq_union_1_L, singleton_subseteq_l, elem_of_dom_2 with a, Ha.
Qed.

Lemma applyUpdates_dom (updates : list Update) (db : Db) :
  dom (orders (applyUpdates updates db)) = dom (orders db)
  /\ products (applyUpdates updates db) = products db
  /\ carts (applyUpdates updates db) = carts db.
Proof.
  revert db. induction updates as [|u rest IH]; intros db; simpl; [done|].
  destruct (IH (snd (applyUpdate u db))) as (-> & -> & ->).
  apply applyUpdate_dom.
Qed.

Lemma hooked_frozen (sys : Sys) (o m : Order.t) :
  Edited sys o m -> frozen (hooked sys o m) = frozen o.
Proof.
  intros []; unfold hooked; destruct (bool_decide _); reflexivity.
Qed.

Lemma Edited_statusHistory (sys : Sys) (o m : Order.t) :
  Edited sys o m -> Order.statusHistory m = Order.statusHistory o.
Proof. now intros []. Qed.

Lemma hooked_statusHistory (sys : Sys) (o m : Order.t) :
  Edited sys o m ->
  Order.statusHistory (hooked sys o m)
  = Order.statusHistory o
    ++ (if bool_decide (Order.status m = Order.status o) then []
        else [StatusEntry.mk (Order.status m) (now sys) None])
  /\ Order.status (hooked sys o m) = Order.status m.
Proof.
  intros Hm. unfold hooked. rewrite <- (Edited_statusHistory sys o m Hm).
  destruct (bool_decide _); simpl; [now rewrite app_nil_r|].
  now destruct m.
Qed.

(** X1.  The status history is append-only: whatever the updates, the
    history an order had is a prefix of the history it has afterwards, and
    each update has appended at most one entry. *)
Theorem statusHistory_append_only (updates : list Update) (db : Db)
    (id : string) (o : Order.t) :
  orders db !! id = Some o ->
  exists o' added,
    orders (applyUpdates updates db) !! id = Some o'
    /\ Order.statusHistory o' = Order.statusHistory o ++ added
    /\ (length added <= length updates)%nat.
Proof.
  revert db o. induction updates as [|u rest IH]; intros db o Ho; simpl.
  - exists o, []. rewrite app_nil_r. repeat split; [assumption|simpl; lia].
  - destruct (applyUpdate_order
                (fun a b => exists added,
                     Order.statusHistory b = Order.statusHistory a ++ added
                     /\ (length added <= 1)%nat) u db id o)
      as (o1 & Ho1 & added1 & H1 & L1); [| |exact Ho|].
    + intros a. exists []. rewrite app_nil_r. split; [reflexivity|simpl; lia].
    + intros sys a m Hm. destruct (hooked_statusHistory sys a m Hm) as [-> _].
      eexists. split; [reflexivity|]. destruct (bool_decide _); simpl; lia.
    + destruct (IH _ _ Ho1) as (o2 & added2 & Ho2 & H2 & L2).
      exists o2, (added1 ++ added2). split; [exact Ho2|].
      rewrite H2, H1, <- app_assoc. split; [reflexivity|].
      rewrite length_app. lia.
Qed.

(** X2.  Status and payment updates never write a product or a cart, and
    never create or delete an order: no sequence of [updateOrderStatus],
    [confirmPayment], [handleWebhook] and [createRefund] calls changes a
    stock, a cart or the set of stored order ids, whatever they answer.  In
    particular no cancellation and no refund puts stock back. *)
Theorem updates_never_touch_products_or_carts (updates : list Update) (db : Db) :
  products (applyUpdates updates db) = products db
  /\ carts (applyUpdates updates db) = carts db
  /\ dom (orders (applyUpdates updates db)) = dom (orders db).
Proof.
  destruct (applyUpdates_dom updates db) as (Horders & Hproducts & Hcarts).
  now rewrite Horders, Hproducts, Hcarts.
Qed.

Lemma hooked_historyCurrent (sys : Sys) (o m : Order.t) :
  Edited sys o m -> historyCurrent o -> historyCurrent (hooked sys o m).
Proof.
  intros Hm Ho. unfold historyCurrent.
  destruct (hooked_statusHistory sys o m Hm) as [-> ->].
  destruct (bool_decide (Order.status m = Order.status o)) eqn:Hsame.
  - apply bool_decide_eq_true in Hsame. rewrite app_nil_r. congruence.
  - now rewrite last_snoc.
Qed.

Lemma hooked_paymentSound (sys : Sys) (o m : Order.t) :
  Edited sys o m -> paymentSound o -> paymentSound (hooked sys o m).
Proof.
  intros Hm [Hamount Hstatus].
  assert (Hp : Order.payment (hooked sys o m) = Order.payment m
               /\ Order.total (hooked sys o m) = Order.total m).
  { unfold hooked. now destruct (bool_decide _). }
  destruct Hp as [Hp Ht]. unfold paymentSound. rewrite Hp, Ht.
  destruct Hm as [status|tid Hnot| |Htid]; simpl; split; eauto; discriminate.
Qed.

(** X3.  The last entry of the status history of an order records its
    current status.  An order that [Order.create] stores is pending and has
    the single entry "pending"; and when the last entry of a stored order
    carries its status, then after any sequence of status and payment
    updates the order is still stored and its last entry carries the status
    it then has. *)
Theorem statusHistory_records_current_status :
  (forall sys doc db o db',
      createOrderDocument sys doc db = (inr o, db') ->
      Order.status o = pending
      /\ Order.statusHistory o
         = [StatusEntry.mk pending (now sys) (Some "Order created"%string)]
      /\ historyCurrent o
      /\ orders db' !! newId sys = Some o)
  /\ (forall id o db updates,
        orders db !! id = Some o ->
        historyCurrent o ->
        exists o',
          orders (applyUpdates updates db) !! id = Some o'
          /\ StatusEntry.status <$> last (Order.statusHistory o')
             = Some (Order.status o')).
Proof.
  split.
  - intros sys doc db o db' H.
    apply createOrderDocument_inr in H as (new & Hnew & -> & -> & _).
    assert (Hstatus : Order.status new = pending).
    { revert Hnew. unfold validated.
      destruct (allOf taxOf _); [|discriminate].
      destruct (match OrderInput.discount doc with Some _ => _ | None => _ end);
        [|discriminate].
      destruct (_ && _); [|discriminate]. now intros [= <-]. }
    unfold historyCurrent. simpl. rewrite Hstatus.
    repeat split. apply lookup_insert_eq.
  - intros id o db updates Hstored Hcurrent.
    destruct (applyUpdates_order (fun a b => historyCurrent a -> historyCurrent b)
                updates db _ _ (fun a H => H)
                (fun a b c Hab Hbc H => Hbc (Hab H))
                ltac:(exact hooked_historyCurrent) Hstored)
      as (o' & Ho' & Hkept).
    exists o'. split; [exact Ho'|]. now apply Hkept.
Qed.

(** X4.  The payment record of an order stays sound.  When the payment of a
    stored order is for the total of the order and, if completed, has a
    transaction id and a payment date, then the same holds of the order
    after any sequence of status and payment updates: no handler assigns the
    amount or the total, and a payment is marked completed together with
    its transaction id and payment date. *)
Theorem payment_record_sound (id : string) (o : Order.t) (db : Db)
    (updates : list Update) :
  orders db !! id = Some o ->
  paymentSound o ->
  exists o',
    orders (applyUpdates updates db) !! id = Some o'
    /\ Payment.amount (Order.payment o') = Order.total o'
    /\ (Payment.status (Order.payment o') = PayCompleted ->
        is_Some (Payment.transactionId (Order.payment o'))
        /\ is_Some (Payment.paidAt (Order.payment o'))).
Proof.
  intros Hstored Hsound.
  destruct (applyUpdates_order (fun a b => paymentSound a -> paymentSound b)
              updates db _ _ (fun a H => H)
              (fun a b c Hab Hbc H => Hbc (Hab H))
              ltac:(exact hooked_paymentSound) Hstored)
    as (o' & Ho' & Hkept).
  exists o'. split; [exact Ho'|]. exact (Hkept Hsound).
Qed.

(** ** createRefund *)

(** [createRefund] for an order it finds with a transaction id. *)
Lemma createRefund_found (stripe : Stripe) (sys : Sys) (req : RefundReq.t)
    (id tid : string) (o : Order.t) (db : Db) :
  present (RefundReq.orderId req) = Some id ->
  isValid id = true ->
  orders db !! id = Some o ->
  present (Payment.transactionId (Order.payment o)) = Some tid ->
  createRefund stripe sys req db
  = if bool_decide (Payment.status (Order.payment o) = PayRefunded)
    then (inl (BadRequestError AlreadyRefunded), db)
    else
      match stripeCreateRefund stripe tid (refundAmount req o) (refundReason req) with
      | None => (inl (BadRequestError FailedToCreateRefund), db)
      | Some refund =>
          (inr (mkResponse OK
                  (RefundBody "Refund created successfully"
                     (Refund.mk (Refund.id refund) (Refund.amount refund / 100)
                        (Refund.status refund))
                     id (refundedOrder sys o))),
           putOrder id (refundedOrder sys o) db)
      end.
Proof.
  intros Hid Hvalid Ho Htid. unfold createRefund. rewrite Hid.
  unfold bind at 1, findById. rewrite Hvalid, Ho, Htid.
  destruct (bool_decide _); [reflexivity|].
  fold (refundAmount req o). fold (refundReason req).
  destruct (stripeCreateRefund _ _ _ _); reflexivity.
Qed.

(** A [createRefund] that does not fail on the request or the lookup has
    found an order with a transaction id. *)
Lemma createRefund_cases (stripe : Stripe) (sys : Sys) (req : RefundReq.t)
    (db : Db) :
  (exists e, createRefund stripe sys req db = (inl e, db)
             /\ e <> BadRequestError AlreadyRefunded
             /\ e <> BadRequestError FailedToCreateRefund)
  \/ exists id tid o,
       present (RefundReq.orderId req) = Some id
       /\ isValid id = true
       /\ orders db !! id = Some o
       /\ present (Payment.transactionId (Order.payment o)) = Some tid.
Proof.
  unfold createRefund.
  destruct (present (RefundReq.orderId req)) as [id|] eqn:Hid;
    [|left; eexists; split; [reflexivity|split; discriminate]].
  unfold bind, findById.
  destruct (isValid id) eqn:Hvalid;
    [|left; eexists; split; [reflexivity|split; discriminate]].
  destruct (orders db !! id) as [o|] eqn:Ho;
    [|left; eexists; split; [reflexivity|split; discriminate]].
  destruct (present (Payment.transactionId (Order.payment o))) as [tid|] eqn:Htid;
    [|left; eexists; split; [reflexivity|split; discriminate]].
  right. exists id, tid, o. auto.
Qed.

(** X5.  [createRefund] writes only after the provider has accepted the
    refund: a call that throws, whatever the reason (missing order id, unknown
    order, order without transaction, order already refunded, provider
    failure), leaves the database as it was; a call that succeeds has had the
    provider accept a refund on the transaction of the order, for the
    requested amount or, when none or 0 was requested, for the total of the
    order, and has stored the order with payment and status refunded. *)
Theorem createRefund_writes_after_provider_accepts (stripe : Stripe) (sys : Sys)
    (req : RefundReq.t) (db : Db) :
  match createRefund stripe sys req db with
  | (inl e, db') => db' = db
  | (inr response, db') =>
      exists id tid o refund,
        orders db !! id = Some o
        /\ Payment.transactionId (Order.payment o) = Some tid
        /\ stripeCreateRefund stripe tid
             (match RefundReq.amount req with
              | Some a => if Qeq_bool a 0 then Order.total o else a
              | None => Order.total o
              end)
             (refundReason req)
           = Some refund
        /\ db' = putOrder id (refundedOrder sys o) db
        /\ Payment.status (Order.payment (refundedOrder sys o)) = PayRefunded
        /\ Order.status (refundedOrder sys o) = refunded
    end.
Proof.
  destruct (createRefund_cases stripe sys req db)
    as [(e & -> & _)|(id & tid & o & Hid & Hvalid & Ho & Htid)]; [reflexivity|].
  rewrite (createRefund_found stripe sys req id tid o db) by assumption.
  destruct (bool_decide _); [reflexivity|].
  destruct (stripeCreateRefund _ _ _ _) as [refund|] eqn:Hrefund; [|reflexivity].
  exists id, tid, o, refund. split; [exact Ho|].
  split; [now apply present_is_Some|]. split; [exact Hrefund|].
  split; [reflexivity|].
  unfold refundedOrder, hooked. destruct (bool_decide _); now split.
Qed.

(** X6.  A refund cannot be made twice: after a [createRefund] that
    succeeded, the order is stored with payment and status refunded, and the
    same request again, whatever the provider would answer, is refused with
    "Order is already refunded" and changes nothing. *)
Theorem createRefund_twice_is_refused (stripe : Stripe) (sys : Sys)
    (req : RefundReq.t) (db db1 : Db) (response : Response) :
  createRefund stripe sys req db = (inr response, db1) ->
  exists id o1,
    present (RefundReq.orderId req) = Some id
    /\ orders db1 !! id = Some o1
    /\ Payment.status (Order.payment o1) = PayRefunded
    /\ Order.status o1 = refunded
    /\ forall stripe' sys',
         createRefund stripe' sys' req db1
         = (inl (BadRequestError AlreadyRefunded), db1).
Proof.
  intros H.
  destruct (createRefund_cases stripe sys req db)
    as [(e & He & _)|(id & tid & o & Hid & Hvalid & Ho & Htid)]; [congruence|].
  rewrite (createRefund_found stripe sys req id tid o db) in H by assumption.
  destruct (bool_decide _); [discriminate|].
  destruct (stripeCreateRefund _ _ _ _) as [refund|]; [|discriminate].
  injection H as _ <-.
  assert (Hfacts : Payment.status (Order.payment (refundedOrder sys o)) = PayRefunded
                   /\ Order.status (refundedOrder sys o) = refunded
                   /\ Payment.transactionId (Order.payment (refundedOrder sys o))
                      = Payment.transactionId (Order.payment o)).
  { unfold refundedOrder, hooked. destruct (bool_decide _); now repeat split. }
  destruct Hfacts as (Hpay & Hstatus & Hsame).
  exists id, (refundedOrder sys o). split; [exact Hid|].
  split; [apply lookup_insert_eq|]. split; [exact Hpay|]. split; [exact Hstatus|].
  intros stripe' sys'.
  rewrite (createRefund_found stripe' sys' req id tid (refundedOrder sys o));
    [|assumption..| |].
  - now rewrite (bool_decide_eq_true_2 _ Hpay).
  - apply lookup_insert_eq.
  - now rewrite Hsame.
Qed.

(** ** The Cart model *)

Lemma saveCart_inr (_id : string) (c : Cart.t) (db db' : Db) (u : unit) :
  saveCart _id c db = (inr u, db') ->
  ownerless c = false
  /\ cartValid c = true
  /\ db' = mkDb (products db) (<[_id := c]> (carts db)) (orders db).
Proof.
  unfold saveCart. destruct (ownerless c); [discriminate|].
  destruct (cartValid c); [|discriminate]. now intros [= <-].
Qed.

Lemma saveCart_inl (_id : string) (c : Cart.t) (db db' : Db) (e : Error) :
  saveCart _id c db = (inl e, db') -> db' = db.
Proof.
  unfold saveCart. destruct (ownerless c); [now intros [= _ <-]|].
  destruct (cartValid c); [discriminate|]. now intros [= _ <-].
Qed.

Lemma saveMiscast_run {A} (c : Cart.t) (db : Db) :
  exists e, saveMiscast (A := A) c db = (inl e, db).
Proof. unfold saveMiscast. destruct (ownerless c); eauto. Qed.

(** What [calculateTotals] has done when it returns: the three fields were
    set, the amounts computed were numbers, and the cart passed validation
    and was written. *)
Lemma calculateTotals_inr (_id : string) (c c' : Cart.t) (db db' : Db) :
  calculateTotals _id c db = (inr c', db') ->
  let subtotal := sumSubtotals (Cart.items c) in
  exists amount tax total,
    discountAmount (Cart.discount c) subtotal = Some amount
    /\ taxAmount (Cart.tax c) subtotal (Some amount) = Some tax
    /\ is_Some (CartShipping.price (Cart.shippingMethod c))
    /\ add (add (sub (Some subtotal) (Some amount)) (Some tax))
         (shippingCost (Cart.shippingMethod c)) = Some total
    /\ c' = withTotals c subtotal tax total
    /\ ownerless c = false
    /\ cartValid c' = true
    /\ db' = mkDb (products db) (<[_id := c']> (carts db)) (orders db).
Proof.
  intros H subtotal. unfold calculateTotals in H. fold subtotal in H.
  destruct (discountAmount (Cart.discount c) subtotal) as [amount|] eqn:Hamount.
  2: { destruct (saveMiscast_run (A := Cart.t) c db) as [e He].
       unfold taxAmount, sub, mul, add, lift2 in H. simpl in H.
       rewrite He in H. discriminate. }
  destruct (taxAmount (Cart.tax c) subtotal (Some amount)) as [tax|] eqn:Htax.
  2: { destruct (saveMiscast_run (A := Cart.t) c db) as [e He].
       rewrite He in H. discriminate. }
  destruct (add _ (shippingCost (Cart.shippingMethod c))) as [total|] eqn:Htotal.
  2: { destruct (saveMiscast_run (A := Cart.t) c db) as [e He].
       rewrite He in H. discriminate. }
  apply bind_inr in H as ([] & db1 & Hsave & H). injection H as <- <-.
  apply saveCart_inr in Hsave as (Hown & Hvalid & ->).
  exists amount, tax, total. repeat split; try assumption.
  unfold shippingCost in Htotal.
  destruct (CartShipping.price _); [eauto|discriminate].
Qed.

Lemma calculateTotals_inl (_id : string) (c : Cart.t) (db db' : Db) (e : Error) :
  calculateTotals _id c db = (inl e, db') -> db' = db.
Proof.
  unfold calculateTotals.
  destruct (taxAmount _ _ _) as [tax|].
  2: { destruct (saveMiscast_run (A := Cart.t) c db) as [e' ->].
       now intros [= _ <-]. }
  destruct (add _ _) as [total|].
  2: { destruct (saveMiscast_run (A := Cart.t) c db) as [e' ->].
       now intros [= _ <-]. }
  intros H. apply bind_inl in H as [H|([] & db1 & _ & H)]; [|discriminate].
  eapply saveCart_inl, H.
Qed.

Lemma clearCart_inr (_id : string) (c c' : Cart.t) (db db' : Db) :
  clearCart _id c db = (inr c', db') ->
  Cart.items c' = []
  /\ Cart.subtotal c' = 0
  /\ Cart.tax c' = CartTax.mk None None
  /\ Cart.customer c' = Cart.customer c
  /\ Cart.sessionId c' = Cart.sessionId c
  /\ db' = mkDb (products db) (<[_id := c']> (carts db)) (orders db).
Proof.
  unfold clearCart. intros H.
  apply bind_inr in H as ([] & db1 & Hsave & H). injection H as <- <-.
  apply saveCart_inr in Hsave as (_ & _ & ->). now repeat split.
Qed.

Lemma clearCart_inl (_id : string) (c : Cart.t) (db db' : Db) (e : Error) :
  clearCart _id c db = (inl e, db') -> db' = db.
Proof.
  unfold clearCart. intros H.
  apply bind_inl in H as [H|([] & db1 & _ & H)]; [|discriminate].
  eapply saveCart_inl, H.
Qed.

(** Unfolds the monad in a hypothesis on the run of a cart method and splits
    on every test on the way to its [calculateTotals]. *)
Ltac cart_method H :=
  unfold bind, throw, findById in H;
  repeat
    match type of H with
    | calculateTotals _ _ _ = _ => fail 1
    | saveMiscast _ _ = _ => fail 1
    | context [match ?x with _ => _ end] => destruct x eqn:?; try discriminate H
    | context [if ?b then _ else _] => destruct b eqn:?; try discriminate H
    end.

(** The cart that a method passes to [calculateTotals], for a method that
    gets there. *)
Lemma mutate_calculates (sys : Sys) (_id : string) (c : Cart.t) (m : CartMutation)
    (db db' : Db) (r : Result Cart.t) :
  mutate sys _id c m db = (r, db') ->
  (exists e, r = inl e /\ db' = db)
  \/ (m = ClearCart /\ clearCart _id c db = (r, db'))
  \/ exists c0,
       calculateTotals _id c0 db = (r, db')
       /\ Cart.tax c0 = Cart.tax c
       /\ Cart.customer c0 = Cart.customer c
       /\ Cart.sessionId c0 = Cart.sessionId c.
Proof.
  destruct m; simpl; intros H.
  1: unfold addItem in H.
  2: unfold updateItemQuantity, removeItem in H.
  3: unfold removeItem in H.
  5: unfold applyDiscount in H.
  6: unfold setShippingMethod in H.
  4: { right. left. now split. }
  all: cart_method H.
  all: repeat
         match goal with
         | Heq : (if ?b then _ else _) = (_, _) |- _ =>
             destruct b eqn:?; simplify_eq
         end.
  all: try (left; now eauto).
  all: try (injection H as <- <-; left; now eauto).
  all: try (right; right; eexists; split; [exact H|now repeat split]).
  left.
  match type of H with
  | saveMiscast ?c0 ?d = _ =>
      destruct (saveMiscast_run (A := Cart.t) c0 d) as [e He]
  end.
  rewrite He in H. injection H as <- <-. eauto.
Qed.

(** X7.  [calculateTotals] on a cart that has a discount, a tax rate and a
    shipping method establishes the totals of the specification: the cart
    it works out has subtotal = sum of the line subtotals, tax amount
    = (subtotal - discount amount) x rate and total = subtotal - discount
    amount + tax amount + shipping price, where the discount amount is
    subtotal x value for a percentage discount and min(value, subtotal) for
    a fixed one.  It saves and returns that cart when the cart has a
    customer or a session and passes the validators of the schema, and
    leaves the database as it is otherwise. *)
Theorem calculateTotals_totals_of_complete_cart (_id : string) (c : Cart.t)
    (db : Db) (type : DiscountType) (value rate price : Q) :
  CartDiscount.type (Cart.discount c) = Some type ->
  CartDiscount.value (Cart.discount c) = Some value ->
  CartTax.rate (Cart.tax c) = Some rate ->
  CartShipping.price (Cart.shippingMethod c) = Some price ->
  let c' := totalled c type value rate price in
  Cart.items c' = Cart.items c
  /\ Cart.discount c' = Cart.discount c
  /\ CartTax.rate (Cart.tax c') = Some rate
  /\ Cart.shippingMethod c' = Cart.shippingMethod c
  /\ TotalsSpec.holds c'
  /\ calculateTotals _id c db
     = if ownerless c then (inl (PlainError CustomerOrSessionRequired), db)
       else if cartValid c'
       then (inr c',
             mkDb (products db) (<[_id := c']> (carts db)) (orders db))
       else (inl (ValidationError CartValidationFailed), db).
Proof.
  intros Htype Hvalue Hrate Hprice. unfold totalled.
  set (s := sumSubtotals (Cart.items c)).
  set (d := match type with percentage => s * value | fixed => Qmin value s end).
  repeat (split; [now simpl|]).
  assert (Hs : s == TotalsSpec.sumOfLineSubtotals (Cart.items c))
    by apply sumSubtotals_spec.
  assert (Hd : d == TotalsSpec.discountAmount c
                      (TotalsSpec.sumOfLineSubtotals (Cart.items c))).
  { unfold TotalsSpec.discountAmount, d. rewrite Htype, Hvalue.
    destruct type; now rewrite Hs. }
  split.
  - unfold TotalsSpec.holds, TotalsSpec.taxAmount, TotalsSpec.shippingCost.
    simpl. rewrite Hrate, Hprice.
    change (TotalsSpec.discountAmount (withTotals c _ _ _))
      with (TotalsSpec.discountAmount c).
    split; [exact Hs|]. split.
    + eexists. split; [reflexivity|]. now rewrite Hs, Hd.
    + now rewrite Hs, Hd.
  - unfold calculateTotals, discountAmount, taxAmount, shippingCost, saveCart,
      bind, ret.
    fold s. rewrite Htype, Hvalue, Hrate, Hprice.
    destruct type; simpl; destruct (ownerless c) eqn:Hown;
      unfold ownerless in *; simpl; rewrite ?Hown; try reflexivity;
      now destruct (cartValid _).
Qed.

(** X8.  No method of the cart sets a tax rate, and [calculateTotals] needs
    one.  On a cart without tax rate, such as [Cart.create] makes it, every
    method but [clearCart] fails and leaves the database as it is: no line
    is added, changed or removed, no discount and no shipping method is
    set.  [clearCart] leaves the cart empty and without tax rate. *)
Theorem cart_without_tax_rate_rejects_every_change (sys : Sys) (_id : string)
    (c : Cart.t) (m : CartMutation) (db : Db) :
  CartTax.rate (Cart.tax c) = None ->
  (m <> ClearCart -> exists e, mutate sys _id c m db = (inl e, db))
  /\ (forall c' db',
        mutate sys _id c m db = (inr c', db') ->
        m = ClearCart
        /\ Cart.items c' = []
        /\ CartTax.rate (Cart.tax c') = None).
Proof.
  intros Hrate.
  assert (Hcases :
            (exists e, mutate sys _id c m db = (inl e, db))
            \/ m = ClearCart /\ clearCart _id c db = mutate sys _id c m db).
  { destruct (mutate sys _id c m db) as [r db'] eqn:H.
    destruct (mutate_calculates sys _id c m db db' r H)
      as [(e & -> & ->)|[[-> Hclear]|(c0 & Hcalc & Htax & _)]]; [eauto|auto|].
    left. rewrite calculateTotals_miscast in Hcalc
      by (right; left; now rewrite Htax).
    destruct (saveMiscast_run (A := Cart.t) c0 db) as [e He].
    rewrite He in Hcalc. injection Hcalc as <- <-. eauto. }
  split.
  - intros Hm. destruct Hcases as [He|[Hclear _]]; [exact He|contradiction].
  - intros c' db' H. destruct Hcases as [[e He]|[-> Hclear]]; [congruence|].
    rewrite <- Hclear in H. apply clearCart_inr in H as (Hitems & _ & Htax & _).
    split; [reflexivity|]. split; [exact Hitems|]. now rewrite Htax.
Qed.

(** X9.  A cart method writes its own cart, and only when it succeeds: a
    method that throws leaves the database as it is, whatever it has done
    to the loaded document; a method that returns has saved the cart it
    returns, which passes the validators of the schema, under the id of
    the cart, and has written no other cart, no product and no order. *)
Theorem cart_method_failure_writes_nothing (sys : Sys) (_id : string)
    (c : Cart.t) (m : CartMutation) (db db' : Db) (r : Result Cart.t) :
  mutate sys _id c m db = (r, db') ->
  match r with
  | inl _ => db' = db
  | inr c' =>
      db' = mkDb (products db) (<[_id := c']> (carts db)) (orders db)
      /\ cartValid c' = true
      /\ Cart.customer c' = Cart.customer c
      /\ Cart.sessionId c' = Cart.sessionId c
  end.
Proof.
  intros H.
  destruct (mutate_calculates sys _id c m db db' r H)
    as [(e & -> & ->)|[[-> Hclear]|(c0 & Hcalc & _ & Hcustomer & Hsession)]];
    [reflexivity| |]; destruct r as [e|c'].
  - eapply clearCart_inl, Hclear.
  - pose proof Hclear as Hsaved.
    apply clearCart_inr in Hclear as (_ & _ & _ & Hcustomer & Hsession & Hdb).
    split; [exact Hdb|]. split; [|now split].
    unfold clearCart in Hsaved.
    apply bind_inr in Hsaved as ([] & db1 & Hsave & Hret).
    injection Hret as <- <-. now apply saveCart_inr in Hsave as (_ & Hvalid & _).
  - eapply calculateTotals_inl, Hcalc.
  - apply calculateTotals_inr in Hcalc
      as (amount & tax & total & _ & _ & _ & _ & -> & _ & Hvalid & Hdb).
    split; [exact Hdb|]. split; [exact Hvalid|]. now split.
Qed.

Lemma findIndex_Some {A} (pred : A -> bool) (xs : list A) (i : nat) :
  findIndex pred xs = Some i -> exists x, xs !! i = Some x /\ pred x = true.
Proof.
  revert i. induction xs as [|x rest IH]; intros i; simpl; [discriminate|].
  destruct (pred x) eqn:Hx.
  - intros [= <-]. now exists x.
  - destruct (findIndex pred rest) as [j|]; [|discriminate].
    intros [= <-]. exact (IH j eq_refl).
Qed.

Lemma findIndex_None {A} (pred : A -> bool) (xs : list A) :
  findIndex pred xs = None -> Forall (fun x => pred x = false) xs.
Proof.
  induction xs as [|x rest IH]; simpl; [constructor|].
  destruct (pred x) eqn:Hx; [discriminate|].
  destruct (findIndex pred rest); [discriminate|]. intros _.
  constructor; [exact Hx|now apply IH].
Qed.

(** A method that has returned has not ended in the rejected save. *)
Ltac not_miscast H :=
  match type of H with
  | saveMiscast ?c ?db = _ =>
      let e := fresh "e" in
      let He := fresh "He" in
      destruct (saveMiscast_run (A := Cart.t) c db) as [e He];
      rewrite He in H; discriminate H
  end.

(** The cart a method has saved, from the run of its [calculateTotals]. *)
Ltac totals_saved H :=
  apply calculateTotals_inr in H
    as (?amount & ?tax & ?total & _ & _ & _ & _ & -> & _ & ?Hvalid & ->).

(** X10.  [addItem] keeps a line within the stock it reads: after a
    successful call the product is stored and active, and the cart saved has
    a line for it whose quantity is at most the inventory read (of the
    product, or of the variant asked for when the product has variants),
    whose [maxQuantity] is that inventory and whose subtotal is price times
    quantity. *)
Theorem addItem_respects_stock (sys : Sys) (_id : string) (c c' : Cart.t)
    (productId : string) (quantity : Z) (variantId : option string)
    (db db' : Db) :
  addItem sys _id c productId quantity variantId db = (inr c', db') ->
  exists product inventory line,
    products db !! productId = Some product
    /\ Product.isActive product = true
    /\ (inventory = Product.inventory product
        \/ Product.hasVariants product = true
           /\ exists pv, In pv (Product.variants product)
                         /\ Some (ProductVariant._id pv) = variantId
                         /\ inventory = ProductVariant.inventory pv)
    /\ In line (Cart.items c')
    /\ CartItem.product line = productId
    /\ (CartItem.quantity line <= inventory)%Z
    /\ CartItem.maxQuantity line = Some inventory
    /\ lineConsistent line
    /\ carts db' !! _id = Some c'.
Proof.
  intros H. unfold addItem in H. cart_method H.
  all: totals_saved H.
  all: match goal with
       | Hload : (if isValid ?id then _ else _) = _ |- _ =>
           destruct (isValid id); simplify_eq
       end.
  all: match goal with
       | Hactive : negb (Product.isActive ?p) = false |- _ =>
           apply negb_false_iff in Hactive
       end.
  all: match goal with
       | Hvariant : _ = inr ?variant |- _ =>
           assert (Hinventory :
             match variant with
             | Some pv => ProductVariant.inventory pv
             | None => Product.inventory t
             end = Product.inventory t
             \/ Product.hasVariants t = true
                /\ exists pv, In pv (Product.variants t)
                              /\ Some (ProductVariant._id pv) = variantId
                              /\ match variant with
                                 | Some pv => ProductVariant.inventory pv
                                 | None => Product.inventory t
                                 end = ProductVariant.inventory pv);
           [destruct variantId as [v|]; simpl in Hvariant;
            [destruct (truthy v); simpl in Hvariant;
             [destruct (Product.hasVariants t); simpl in Hvariant;
              [destruct (find _ _) as [pv|] eqn:Hfind; simplify_eq;
               apply find_some in Hfind as [Hin Hid];
               apply String.eqb_eq in Hid; right; split; [reflexivity|];
               exists pv; rewrite Hid; auto
              |simplify_eq; now left]
             |simplify_eq; now left]
            |simplify_eq; now left]
           |clear Hvariant]
       end.
  - match goal with
    | Hfound : findIndex _ _ = Some _ |- _ =>
        apply findIndex_Some in Hfound as (item & Hitem & Hsame)
    end.
    assert (item = t0) as -> by congruence.
    assert (Hproduct : CartItem.product t0 = productId).
    { destruct (match variantId with Some v => truthy v | None => false end);
        apply andb_true_iff in Hsame as [Hsame _];
        now apply String.eqb_eq in Hsame. }
    eexists t, _, (withQuantity t0 _ _).
    split; [eassumption|]. split; [assumption|]. split; [exact Hinventory|].
    split.
    { apply list_elem_of_In, (list_elem_of_lookup_2 _ n). simpl.
      apply list_lookup_insert_eq. now apply lookup_lt_Some in Hitem. }
    split; [exact Hproduct|]. split; [simpl; lia|].
    split; [reflexivity|]. split; [reflexivity|]. apply lookup_insert_eq.
  - match goal with
    | Hfound : findIndex _ _ = Some _ |- _ =>
        apply findIndex_Some in Hfound as (item & Hitem & _)
    end.
    congruence.
  - eexists t, _, _.
    split; [eassumption|]. split; [assumption|]. split; [exact Hinventory|].
    split; [simpl; apply in_or_app; right; left; reflexivity|].
    split; [reflexivity|]. split; [simpl; lia|].
    split; [reflexivity|]. split; [reflexivity|]. apply lookup_insert_eq.
Qed.

Lemma sumOfLineSubtotals_value (items : list CartItem.t) :
  Forall lineConsistent items ->
  TotalsSpec.sumOfLineSubtotals items = linesValue items.
Proof.
  induction 1 as [|item rest Hitem _ IH]; simpl; [reflexivity|].
  now rewrite Hitem, IH.
Qed.

Lemma Forall_kept {A} (P Q : A -> Prop) `{!forall x, Decision (Q x)} (l : list A) :
  Forall P l -> Forall P (filter Q l).
Proof.
  rewrite !Forall_forall. intros HP x Hx.
  apply list_elem_of_filter in Hx as [_ Hx]. auto.
Qed.

Lemma withQuantity_consistent (item : CartItem.t) (quantity : Z)
    (maxQuantity : option Z) :
  lineConsistent (withQuantity item quantity maxQuantity).
Proof. reflexivity. Qed.

(** X11.  The cart methods keep the lines consistent: when every line of a
    cart has subtotal = price x quantity, so has every line of the cart that
    a successful method saves, and the subtotal of that cart is the sum of
    price x quantity over its lines. *)
Theorem cart_methods_keep_lines_consistent (sys : Sys) (_id : string)
    (c c' : Cart.t) (m : CartMutation) (db db' : Db) :
  Forall lineConsistent (Cart.items c) ->
  mutate sys _id c m db = (inr c', db') ->
  Forall lineConsistent (Cart.items c')
  /\ (Cart.subtotal c' == linesValue (Cart.items c'))%Q.
Proof.
  intros Hlines H.
  assert (Hsum : forall c0 c1 db0 db1,
            calculateTotals _id c0 db0 = (inr c1, db1) ->
            Forall lineConsistent (Cart.items c0) ->
            Forall lineConsistent (Cart.items c1)
            /\ (Cart.subtotal c1 == linesValue (Cart.items c1))%Q).
  { intros c0 c1 db0 db1 Hcalc Hc0. totals_saved Hcalc. simpl.
    split; [exact Hc0|].
    now rewrite sumSubtotals_spec, (sumOfLineSubtotals_value _ Hc0). }
  destruct m; simpl in H.
  - unfold addItem in H. cart_method H; apply (Hsum _ _ _ _ H); simpl.
    + apply Forall_insert; [exact Hlines|apply withQuantity_consistent].
    + exact Hlines.
    + apply Forall_app. split; [exact Hlines|]. now repeat constructor.
  - unfold updateItemQuantity, removeItem in H.
    cart_method H; apply (Hsum _ _ _ _ H); simpl.
    + now apply Forall_kept.
    + apply Forall_insert; [exact Hlines|apply withQuantity_consistent].
    + exact Hlines.
  - unfold removeItem in H. apply (Hsum _ _ _ _ H); simpl.
    now apply Forall_kept.
  - apply clearCart_inr in H as (Hitems & Hzero & _).
    rewrite Hitems, Hzero. split; [constructor|reflexivity].
  - unfold applyDiscount in H.
    cart_method H; apply (Hsum _ _ _ _ H); exact Hlines.
  - unfold setShippingMethod in H. cart_method H; [|not_miscast H].
    apply (Hsum _ _ _ _ H); exact Hlines.
Qed.

(** X12.  [addItem] without variant id never adds to a line that is there:
    the test for an existing line, [!item.variant], fails for every line, so
    every call that succeeds appends a line for the product, with the
    quantity asked for, checked against the stock on its own.  A product of
    which the cart already holds lines gets one more. *)
Theorem addItem_never_merges_plain_lines (sys : Sys) (_id : string)
    (c c' : Cart.t) (productId : string) (quantity : Z) (db db' : Db) :
  addItem sys _id c productId quantity None db = (inr c', db') ->
  exists product line,
    products db !! productId = Some product
    /\ Cart.items c' = Cart.items c ++ [line]
    /\ CartItem._id line = newId sys
    /\ CartItem.product line = productId
    /\ CartItem.quantity line = quantity
    /\ CartItem.variant line = noVariant
    /\ (quantity <= Product.inventory product)%Z.
Proof.
  intros H. unfold addItem in H. unfold bind, findById in H.
  destruct (isValid productId); [|discriminate].
  destruct (products db !! productId) as [product|] eqn:Hproduct;
    [|discriminate].
  simpl in H.
  destruct (negb (Product.isActive product)); [discriminate|].
  destruct (Z.ltb_spec (Product.inventory product) quantity); [discriminate|].
  destruct (findIndex _ _) as [i|] eqn:Hfound.
  - apply findIndex_Some in Hfound as (item & _ & Hsame).
    now rewrite andb_false_r in Hsame.
  - totals_saved H. simpl.
    eexists product, _. split; [reflexivity|]. split; [reflexivity|].
    now repeat split.
Qed.

Lemma filter_again {A} (P : A -> Prop) `{!forall x, Decision (P x)} (l : list A) :
  filter P (filter P l) = filter P l.
Proof. now apply list_filter_filter_r. Qed.

Lemma filter_all {A} (P : A -> Prop) `{!forall x, Decision (P x)} (l : list A) :
  Forall P l -> filter P l = l.
Proof.
  induction 1 as [|x rest Hx _ IH]; [reflexivity|].
  now rewrite filter_cons_True, IH.
Qed.

(** [calculateTotals] on the cart it has just saved changes nothing. *)
Lemma calculateTotals_again (_id : string) (c c' : Cart.t) (db db' : Db) :
  calculateTotals _id c db = (inr c', db') ->
  calculateTotals _id c' db' = (inr c', db').
Proof.
  intros H.
  apply calculateTotals_inr in H
    as (amount & tax & total & Hamount & Htax & _ & Htotal & -> & Hown & Hvalid
        & ->).
  set (s := sumSubtotals (Cart.items c)) in *.
  set (c1 := withTotals c s tax total) in *.
  unfold calculateTotals.
  change (sumSubtotals (Cart.items c1)) with s.
  change (discountAmount (Cart.discount c1) s)
    with (discountAmount (Cart.discount c) s).
  rewrite Hamount.
  change (taxAmount (Cart.tax c1) s (Some amount))
    with (taxAmount (Cart.tax c) s (Some amount)).
  rewrite Htax.
  change (shippingCost (Cart.shippingMethod c1))
    with (shippingCost (Cart.shippingMethod c)).
  rewrite Htotal.
  change (withTotals c1 s tax total) with c1.
  unfold bind, saveCart, ret.
  change (ownerless c1) with (ownerless c). rewrite Hown, Hvalid. simpl.
  now rewrite insert_insert_eq.
Qed.

(** X13.  [removeItem] removes exactly the lines with the given id and is
    idempotent: the cart it saves has the lines of the cart without those
    whose id is the given one, in their order; for an id that no line has it
    keeps every line; and removing the same id again from the saved cart
    changes neither the cart nor the database. *)
Theorem removeItem_idempotent (_id : string) (c c1 : Cart.t) (itemId : string)
    (db db1 : Db) :
  removeItem _id c itemId db = (inr c1, db1) ->
  (forall item, In item (Cart.items c1)
                <-> In item (Cart.items c) /\ CartItem._id item <> itemId)
  /\ Cart.items c1 `sublist_of` Cart.items c
  /\ (Forall (fun item => CartItem._id item <> itemId) (Cart.items c) ->
      Cart.items c1 = Cart.items c)
  /\ removeItem _id c1 itemId db1 = (inr c1, db1).
Proof.
  unfold removeItem. intros H.
  assert (Hitems : Cart.items c1
                   = filter (fun item => negb (String.eqb (CartItem._id item) itemId))
                       (Cart.items c)).
  { pose proof H as H1. now totals_saved H1. }
  split; [|split; [|split]].
  - intros item. rewrite Hitems, <- !list_elem_of_In, list_elem_of_filter.
    rewrite negb_True, Is_true_true, String.eqb_eq. tauto.
  - rewrite Hitems. apply sublist_filter.
  - intros Hnone. rewrite Hitems. apply filter_all.
    eapply Forall_impl; [exact Hnone|]. intros item Hitem. simpl.
    rewrite negb_True, Is_true_true, String.eqb_eq. exact Hitem.
  - apply calculateTotals_again in H.
    assert (Hkept : filter (fun item => negb (String.eqb (CartItem._id item) itemId))
                      (Cart.items c1) = Cart.items c1)
      by (rewrite Hitems; apply filter_again).
    rewrite Hkept. now destruct c1.
Qed.

(** X14.  [updateItemQuantity] on a cart that has a line with the given id:
    a quantity of 0 or less removes the lines with this id; a positive
    quantity is written to the first such line, with subtotal price x
    quantity, only when it does not exceed the [maxQuantity] recorded in the
    line when it was added, and no line is added or removed.  The products
    are not written (nor read: the stock is not looked up again). *)
Theorem updateItemQuantity_within_recorded_stock (_id : string) (c c' : Cart.t)
    (itemId : string) (quantity : Z) (db db' : Db) :
  updateItemQuantity _id c itemId quantity db = (inr c', db') ->
  products db' = products db
  /\ (exists old, In old (Cart.items c) /\ CartItem._id old = itemId)
  /\ ((quantity <= 0)%Z ->
      Forall (fun item => CartItem._id item <> itemId) (Cart.items c'))
  /\ ((0 < quantity)%Z ->
      exists i old line,
        Cart.items c !! i = Some old
        /\ Cart.items c' = <[i := line]> (Cart.items c)
        /\ CartItem._id line = itemId
        /\ CartItem.product line = CartItem.product old
        /\ CartItem.price line = CartItem.price old
        /\ CartItem.quantity line = quantity
        /\ CartItem.maxQuantity line = CartItem.maxQuantity old
        /\ lineConsistent line
        /\ withinMax line).
Proof.
  intros H. unfold updateItemQuantity in H.
  destruct (findIndex _ _) as [i|] eqn:Hfound; [|discriminate].
  apply findIndex_Some in Hfound as (old & Hold & Hid).
  apply String.eqb_eq in Hid.
  assert (Hin : exists old, In old (Cart.items c) /\ CartItem._id old = itemId).
  { exists old. split; [|exact Hid].
    eapply list_elem_of_In, list_elem_of_lookup_2, Hold. }
  destruct (Z.leb_spec quantity 0) as [Hle|Hpos].
  - unfold removeItem in H. totals_saved H. simpl.
    split; [reflexivity|]. split; [exact Hin|].
    split; [|lia]. intros _. apply Forall_forall. intros item Hitem.
    apply list_elem_of_filter in Hitem as [Hitem _].
    rewrite negb_True, Is_true_true, String.eqb_eq in Hitem. exact Hitem.
  - rewrite Hold in H.
    destruct (match CartItem.maxQuantity old with
              | Some maxQuantity => (quantity >? maxQuantity)%Z
              | None => false
              end) eqn:Hmax; [discriminate|].
    totals_saved H. simpl.
    split; [reflexivity|]. split; [exact Hin|]. split; [lia|]. intros _.
    exists i, old, (withQuantity old quantity (CartItem.maxQuantity old)).
    split; [exact Hold|]. split; [reflexivity|]. split; [exact Hid|].
    repeat (split; [reflexivity|]).
    unfold withinMax. simpl. destruct (CartItem.maxQuantity old); [lia|exact I].
Qed.

(** X15.  A code of the discount table never takes more than the subtotal:
    after a successful [applyDiscount] the code is one of the table, the
    cart carries its discount, the discount amount lies between 0 and the
    subtotal, and the total is not negative. *)
Theorem applyDiscount_at_most_subtotal (_id : string) (c c' : Cart.t)
    (code : string) (db db' : Db) :
  applyDiscount _id c code db = (inr c', db') ->
  exists type value description,
    validCodes code = Entry (type, value, description)
    /\ Cart.discountCode c' = Some code
    /\ Cart.discount c'
       = CartDiscount.mk (Some code) (Some type) (Some value) (Some description)
    /\ (0 <= TotalsSpec.discountAmount c' (Cart.subtotal c') <= Cart.subtotal c')%Q
    /\ (0 <= Cart.total c')%Q.
Proof.
  intros H. unfold applyDiscount in H.
  destruct (validCodes code) as [[[type value] description]| |] eqn:Hcode;
    [| |discriminate].
  2: { rewrite calculateTotals_miscast in H by now left. not_miscast H. }
  totals_saved H. exists type, value, description.
  split; [reflexivity|]. split; [reflexivity|]. split; [reflexivity|].
  unfold cartValid in Hvalid. simpl in Hvalid.
  repeat (apply andb_true_iff in Hvalid as [Hvalid ?]).
  match goal with Hs : Qle_bool 0 (sumSubtotals _) = true |- _ =>
    apply Qle_bool_iff in Hs; rename Hs into Hsub end.
  match goal with Ht : Qle_bool 0 total = true |- _ =>
    apply Qle_bool_iff in Ht; rename Ht into Htot end.
  split; [|exact Htot].
  unfold TotalsSpec.discountAmount. simpl.
  set (s := sumSubtotals (Cart.items c)) in *. clearbody s.
  assert (Hvalue : type = percentage /\ (value = 1 # 10 \/ value = 2 # 10)
                   \/ type = fixed /\ value = 5%Q).
  { revert Hcode. unfold validCodes.
    repeat (destruct (String.eqb code _); [intros [= <- <- <-]; auto|]).
    now destruct (inherited code). }
  destruct Hvalue as [(-> & [-> | ->])|(-> & ->)]; [lra|lra|].
  split; [now apply Q.min_glb|apply Q.le_min_r].
Qed.

(** ** Order numbers *)

Lemma parseDigits_pos (d : Decimal.uint) (acc : positive) :
  parseDigits (Some (N.pos acc)) (NilEmpty.string_of_uint d)
  = Some (N.pos (Pos.of_uint_acc d acc)).
Proof.
  revert acc. induction d; intros acc; [reflexivity|..];
    cbn [NilEmpty.string_of_uint parseDigits Pos.of_uint_acc];
    change (digitValue _) with (Some 0%N) || change (digitValue _) with (Some 1%N)
    || change (digitValue _) with (Some 2%N) || change (digitValue _) with (Some 3%N)
    || change (digitValue _) with (Some 4%N) || change (digitValue _) with (Some 5%N)
    || change (digitValue _) with (Some 6%N) || change (digitValue _) with (Some 7%N)
    || change (digitValue _) with (Some 8%N) || change (digitValue _) with (Some 9%N);
    cbv iota beta; rewrite <- IHd; do 2 f_equal; lia.
Qed.

Lemma parseDigits_zero (d : Decimal.uint) :
  parseDigits (Some 0%N) (NilEmpty.string_of_uint d) = Some (Pos.of_uint d).
Proof.
  induction d; [reflexivity|exact IHd|..];
    cbn [NilEmpty.string_of_uint parseDigits Pos.of_uint];
    rewrite <- parseDigits_pos; reflexivity.
Qed.

Lemma parseDigits_decimal (n : N) : parseDigits (Some 0%N) (decimal n) = Some n.
Proof.
  unfold decimal, NilZero.string_of_uint.
  rewrite <- (DecimalN.Unsigned.of_to n) at 2. unfold N.of_uint.
  destruct (N.to_uint n) eqn:Hn; try apply parseDigits_zero.
  reflexivity.
Qed.

Lemma allDigits_uint (d : Decimal.uint) :
  allDigits (NilEmpty.string_of_uint d) = true.
Proof. induction d; simpl; auto. Qed.

Lemma allDigits_decimal (n : N) : allDigits (decimal n) = true.
Proof.
  unfold decimal, NilZero.string_of_uint.
  destruct (N.to_uint n) eqn:Hn; rewrite <- ?Hn; auto using allDigits_uint.
Qed.

Lemma allDigits_app (s t : string) :
  allDigits (s +:+ t) = allDigits s && allDigits t.
Proof.
  induction s as [|a s IH]; simpl; [reflexivity|].
  now destruct (digitValue a).
Qed.

Lemma allDigits_zeros (k : nat) : allDigits (repeatString k "0") = true.
Proof. induction k; simpl; auto. Qed.

Lemma allDigits_padStart (width : nat) (s : string) :
  allDigits s = true -> allDigits (padStart width s) = true.
Proof.
  intros Hs. unfold padStart. now rewrite allDigits_app, allDigits_zeros, Hs.
Qed.

Lemma parseDigits_zeros (k : nat) (s : string) :
  parseDigits (Some 0%N) (repeatString k "0" +:+ s) = parseDigits (Some 0%N) s.
Proof. induction k; simpl; auto. Qed.

Lemma parseDigits_None (s : string) :
  s <> EmptyString -> allDigits s = true ->
  parseDigits None s = parseDigits (Some 0%N) s.
Proof.
  destruct s as [|a rest]; [congruence|]. simpl. intros _.
  now destruct (digitValue a).
Qed.

Lemma decimal_not_empty (n : N) : decimal n <> EmptyString.
Proof.
  unfold decimal. intros H.
  pose proof (parseDigits_decimal n) as Hparse. unfold decimal in Hparse.
  rewrite H in Hparse. simpl in Hparse. injection Hparse as <-. discriminate H.
Qed.

Lemma append_not_empty (s t : string) : t <> EmptyString -> s +:+ t <> EmptyString.
Proof. destruct s; simpl; [auto|discriminate]. Qed.

(** [parseInt] reads back the sequence number that [padStart] and [String]
    have printed. *)
Lemma parseInt_padStart (width : nat) (n : N) :
  parseInt (Some (padStart width (decimal n))) = Some n.
Proof.
  unfold parseInt. rewrite parseDigits_None.
  - unfold padStart. now rewrite parseDigits_zeros, parseDigits_decimal.
  - apply append_not_empty, decimal_not_empty.
  - apply allDigits_padStart, allDigits_decimal.
Qed.

Lemma split_digits (s t : string) :
  allDigits s = true ->
  split "-" (s +:+ String "-" t) = s :: split "-" t.
Proof.
  induction s as [|a s IH]; [reflexivity|]. simpl.
  destruct (digitValue a) eqn:Ha; [|discriminate]. intros Hs.
  rewrite (IH Hs).
  destruct (Ascii.eqb_spec a "-") as [->|_]; [discriminate Ha|reflexivity].
Qed.

Lemma split_digits_only (s : string) :
  allDigits s = true -> split "-" s = [s].
Proof.
  induction s as [|a s IH]; [reflexivity|]. simpl.
  destruct (digitValue a) eqn:Ha; [|discriminate]. intros Hs.
  rewrite (IH Hs).
  destruct (Ascii.eqb_spec a "-") as [->|_]; [discriminate Ha|reflexivity].
Qed.

(** The third segment of an order number is its printed sequence number. *)
Lemma split_orderNumber (sys : Sys) (tail : string) :
  allDigits tail = true ->
  nth_error (split "-" (monthPrefix sys +:+ "-" +:+ tail)) 2 = Some tail.
Proof.
  intros Htail. unfold monthPrefix.
  set (ym := decimal (fullYear sys) +:+ padStart 2 (decimal (month sys + 1))).
  assert (Hym : allDigits ym = true).
  { unfold ym. now rewrite allDigits_app, allDigits_decimal,
      allDigits_padStart by apply allDigits_decimal. }
  assert (Hsplit : split "-" (ym +:+ "-" +:+ tail) = [ym; tail]).
  { change (ym +:+ "-" +:+ tail) with (ym +:+ String "-" tail).
    now rewrite split_digits, split_digits_only. }
  clearbody ym. simpl. change (String.append EmptyString ym) with ym. now rewrite Hsplit.
Qed.

Lemma prefix_app (p x : string) : String.prefix p (p +:+ x) = true.
Proof.
  induction p as [|a p IH]; simpl; [now destruct x|].
  now destruct (ascii_dec a a).
Qed.

Lemma compare_app (p x y : string) :
  String.compare (p +:+ x) (p +:+ y) = String.compare x y.
Proof.
  induction p as [|a p IH]; simpl; [reflexivity|].
  replace (Ascii.compare a a) with Eq; [exact IH|].
  symmetry. unfold Ascii.compare. apply N.compare_refl.
Qed.

Lemma ltb_false_eq (a b : string) :
  String.ltb a b = false -> String.ltb b a = false -> a = b.
Proof.
  unfold String.ltb. rewrite (String.compare_antisym b a).
  destruct (String.compare a b) eqn:Hab; simpl; intros H1 H2;
    try discriminate.
  now apply String.compare_eq_iff.
Qed.

Lemma maxString_from (best : string) (xs : list string) (m : string) :
  String.ltb m best = false ->
  best = m \/ In m xs ->
  (forall x, In x xs -> String.ltb m x = false) ->
  fold_left
    (fun best x =>
       match best with
       | Some b => if String.ltb b x then Some x else Some b
       | None => Some x
       end)
    xs (Some best) = Some m.
Proof.
  revert best. induction xs as [|x rest IH]; intros best Hbest Hm Hmax; simpl.
  - destruct Hm as [->|[]]. reflexivity.
  - destruct (String.ltb best x) eqn:Hlt.
    + apply IH.
      * apply Hmax. now left.
      * destruct Hm as [->|[->|Hin]]; [|now left|now right].
        rewrite (Hmax x) in Hlt by now left. discriminate.
      * intros y Hy. apply Hmax. now right.
    + apply IH; [exact Hbest| |intros y Hy; apply Hmax; now right].
      destruct Hm as [->|[->|Hin]]; [now left| |now right].
      left. now apply ltb_false_eq.
Qed.

(** [maxString] finds the greatest string of a list. *)
Lemma maxString_greatest (xs : list string) (m : string) :
  In m xs ->
  (forall x, In x xs -> String.ltb m x = false) ->
  maxString xs = Some m.
Proof.
  unfold maxString. destruct xs as [|x rest]; [intros []|].
  intros Hm Hmax. simpl. apply maxString_from.
  - apply Hmax. now left.
  - destruct Hm as [->|Hin]; [now left|now right].
  - intros y Hy. apply Hmax. now right.
Qed.

Lemma filter_none {A} (P : A -> Prop) `{!forall x, Decision (P x)} (l : list A) :
  Forall (fun x => ~ P x) l -> filter P l = [].
Proof.
  induction 1 as [|x rest Hx _ IH]; [reflexivity|].
  now rewrite filter_cons_False.
Qed.

(** The order number that follows the greatest one of the month. *)
Lemma orderNumberFor_after (sys : Sys) (existing : list string) (tail : string)
    (n : N) :
  allDigits tail = true ->
  parseInt (Some tail) = Some n ->
  In (monthPrefix sys +:+ "-" +:+ tail) existing ->
  (forall x, In x existing -> String.prefix (monthPrefix sys) x = true ->
             String.ltb (monthPrefix sys +:+ "-" +:+ tail) x = false) ->
  orderNumberFor sys existing = orderNumberOf sys (n + 1).
Proof.
  intros Htail Hparse Hin Hmax. unfold orderNumberFor, orderNumberOf.
  fold (monthPrefix sys).
  rewrite (maxString_greatest _ (monthPrefix sys +:+ "-" +:+ tail)).
  - now rewrite split_orderNumber, Hparse.
  - apply list_elem_of_In, list_elem_of_filter. split.
    + apply Is_true_true, prefix_app.
    + now apply list_elem_of_In.
  - intros x Hx. apply list_elem_of_In, list_elem_of_filter in Hx as [Hp Hx].
    apply Hmax; [now apply list_elem_of_In|now apply Is_true_true].
Qed.

(** X16.  Order numbers count up within a month: when no stored order
    number has the prefix of the month the number generated is "...-00001",
    and when the greatest stored number of the month, in string order, is the
    one with sequence number [n], below 2^53, the number generated is the
    one with sequence number [n + 1]: the sequence number printed with
    [padStart] is read back by [split] and [parseInt]. *)
Theorem orderNumberFor_counts_up (sys : Sys) (existing : list string) :
  (Forall (fun x => String.prefix (monthPrefix sys) x = false) existing ->
   orderNumberFor sys existing = monthPrefix sys +:+ "-00001")
  /\ (forall n,
        (n < 2 ^ 53)%N ->
        In (orderNumberOf sys n) existing ->
        (forall x, In x existing -> String.prefix (monthPrefix sys) x = true ->
                   String.ltb (orderNumberOf sys n) x = false) ->
        orderNumberFor sys existing = orderNumberOf sys (n + 1)).
Proof.
  split.
  - intros Hnone. unfold orderNumberFor. fold (monthPrefix sys).
    rewrite filter_none; [reflexivity|].
    eapply Forall_impl; [exact Hnone|]. intros x Hx. simpl.
    rewrite Hx. exact id.
  - intros n _ Hin Hmax.
    apply (orderNumberFor_after sys existing (padStart 5 (decimal n)) n);
      [|apply parseInt_padStart|exact Hin|exact Hmax].
    apply allDigits_padStart, allDigits_decimal.
Qed.

Lemma digitValue_le (a : ascii) (d : N) :
  digitValue a = Some d -> Ascii.compare "9" a <> Lt.
Proof.
  unfold digitValue. intros H Hlt. unfold Ascii.compare in Hlt.
  change (N_of_ascii "9") with 57%N in Hlt. rewrite N.compare_lt_iff in Hlt.
  destruct (N.leb_spec 48 (N_of_ascii a)); [|discriminate H].
  destruct (N.leb_spec (N_of_ascii a) 57); [lia|discriminate H].
Qed.

(** No string of [n] digits is above the string of [n] nines. *)
Lemma nines_greatest (s : string) :
  allDigits s = true -> String.compare (nines (String.length s)) s <> Lt.
Proof.
  induction s as [|a s IH]; simpl; [discriminate|].
  destruct (digitValue a) as [d|] eqn:Ha; [|discriminate]. intros Hs.
  pose proof (digitValue_le a d Ha) as Hle.
  destruct (Ascii.compare "9" a); [exact (IH Hs)|congruence|discriminate].
Qed.

Lemma existsb_eqb_In (x : string) (xs : list string) :
  In x xs -> existsb (String.eqb x) xs = true.
Proof.
  intros Hin. apply existsb_exists. exists x. split; [exact Hin|].
  apply String.eqb_refl.
Qed.

(** X17.  The order numbers of a month run out after 99999.  Once the
    numbers "...-99999" and "...-100000" are stored, the greatest number of
    the month in string order is still "...-99999", and
    [generateOrderNumber] returns "...-100000" again, a number that is
    stored: [Order.create] stores no object that carries it. *)
Theorem generateOrderNumber_repeats_after_99999 (sys : Sys) (db : Db) :
  In (monthPrefix sys +:+ "-99999") (orderNumbers db) ->
  In (monthPrefix sys +:+ "-100000") (orderNumbers db) ->
  (forall x, In x (orderNumbers db) ->
             String.prefix (monthPrefix sys) x = true ->
             exists s, x = monthPrefix sys +:+ "-" +:+ s
                       /\ allDigits s = true
                       /\ (String.length s = 5%nat \/ s = "100000"%string)) ->
  generateOrderNumber sys db = (inr (monthPrefix sys +:+ "-100000"), db)
  /\ forall doc,
       OrderInput.orderNumber doc = monthPrefix sys +:+ "-100000" ->
       exists e, createOrderDocument sys doc db = (inl e, db).
Proof.
  intros Hlast Hnext Hform.
  assert (Hnumber :
    orderNumberFor sys (orderNumbers db) = monthPrefix sys +:+ "-100000").
  { apply (orderNumberFor_after sys (orderNumbers db) "99999" 99999);
      [reflexivity|reflexivity|exact Hlast|].
    intros x Hx Hprefix. destruct (Hform x Hx Hprefix) as (s & -> & Hs & Hlen).
    unfold String.ltb.
    change (monthPrefix sys +:+ "-" +:+ "99999")
      with (monthPrefix sys +:+ String "-" "99999").
    change (monthPrefix sys +:+ "-" +:+ s)
      with (monthPrefix sys +:+ String "-" s).
    rewrite compare_app.
    change (String.compare (String "-" "99999") (String "-" s))
      with (String.compare "99999" s).
    destruct Hlen as [Hlen| ->]; [|reflexivity].
    pose proof (nines_greatest s Hs) as Hle. rewrite Hlen in Hle.
    change (nines 5) with "99999"%string in Hle.
    now destruct (String.compare "99999" s). }
  split; [unfold generateOrderNumber; now rewrite Hnumber|].
  intros doc Hdoc. unfold createOrderDocument.
  destruct (validated doc) as [new|] eqn:Hnew; [|eauto].
  assert (Hsame : Order.orderNumber new = OrderInput.orderNumber doc).
  { revert Hnew. unfold validated.
    destruct (allOf taxOf _); [|discriminate].
    destruct (match OrderInput.discount doc with Some _ => _ | None => _ end);
      [|discriminate].
    destruct (_ && _); [|discriminate]. now intros [= <-]. }
  rewrite Hsame, Hdoc, (existsb_eqb_In _ _ Hnext), orb_true_r. eauto.
Qed.

(** ** getOrderById *)

(** X18.  [getOrderById] shows an order only to its customer or to an admin,
    and writes nothing: a response carries the stored order of the given id,
    and the requester is authenticated and is the customer of the order or
    has the role admin; a requester who is neither is refused with "Not
    authorized to access this order", so an id that names an order is told
    apart from one that names none, which is answered with "No order found"
    (for an id spelt as the store spells it, without upper-case digits). *)
Theorem getOrderById_only_owner_or_admin (user : option User.t) (id : string)
    (db : Db) :
  snd (getOrderById user id db) = db
  /\ (forall response,
        fst (getOrderById user id db) = inr response ->
        exists u o,
          user = Some u
          /\ orders db !! id = Some o
          /\ response = mkResponse OK (OrderBody id o)
          /\ (Order.customer o = User.userId u \/ User.role u = "admin"%string))
  /\ (forall u o,
        user = Some u ->
        isValid id = true ->
        orders db !! id = Some o ->
        Order.customer o <> User.userId u ->
        User.role u <> "admin"%string ->
        fst (getOrderById user id db) = inl (BadRequestError NotAuthorizedOrder))
  /\ (isValid id = true ->
      canonical id = true ->
      orders db !! id = None ->
      fst (getOrderById user id db) = inl (NotFoundError (NoOrderFound id))).
Proof.
  unfold getOrderById, bind, findById, throw, ret.
  destruct (isValid id) eqn:Hvalid; simpl.
  2: { repeat split; try discriminate. }
  destruct (orders db !! id) as [o|] eqn:Ho; simpl.
  2: { repeat split; try discriminate. }
  destruct user as [u|]; simpl.
  2: { repeat split; try discriminate. }
  destruct (String.eqb_spec (Order.customer o) (User.userId u)) as [Hown|Hown];
    destruct (String.eqb_spec (User.role u) "admin") as [Hadmin|Hadmin]; simpl.
  all: split; [reflexivity|]; split; [|split; [|discriminate]].
  all: try (intros response [= <-]; exists u, o; auto).
  all: try discriminate.
  all: intros u' o' [= <-] _ [= <-] Hnot Hrole; congruence.
Qed.

(** ** Checkouts and updates in sequence *)

(** A checkout leaves the store as it is, whatever it answers. *)
Lemma act_Checkout (sys : Sys) (req : CreateOrderReq.t) (db : Db) :
  act (Checkout sys req) db = db.
Proof. simpl. now destruct (createOrder_fails sys req db) as [e ->]. Qed.

Lemma orderNumbers_stored (db : Db) (id : string) (o : Order.t) :
  orders db !! id = Some o -> In (Order.orderNumber o) (orderNumbers db).
Proof.
  intros Ho. unfold orderNumbers. apply in_map_iff. exists (id, o).
  split; [reflexivity|]. now apply list_elem_of_In, elem_of_map_to_list.
Qed.

Lemma act_orders (a : Action) (db : Db) (id : string) (o : Order.t) :
  orders db !! id = Some o ->
  exists o', orders (act a db) !! id = Some o' /\ frozen o' = frozen o.
Proof.
  intros Ho. destruct a as [sys req|u]; [rewrite act_Checkout; eauto|simpl].
  - apply (applyUpdate_order (fun a b => frozen b = frozen a));
      [reflexivity|exact hooked_frozen|exact Ho].
Qed.

Lemma act_uniqueNumbers (a : Action) (db : Db) :
  uniqueNumbers db -> uniqueNumbers (act a db).
Proof.
  intros Hdb. destruct a as [sys req|u]; [now rewrite act_Checkout|simpl].
  - destruct (applyUpdate_writes u db) as [->|(sys & id & o & m & Ho & Hm & ->)];
      [exact Hdb|].
    assert (Hnumber : Order.orderNumber (hooked sys o m) = Order.orderNumber o).
    { apply hooked_frozen in Hm. unfold frozen in Hm. congruence. }
    intros id1 id2 o1 o2. simpl.
    destruct (decide (id = id1)) as [<-|H1];
      destruct (decide (id = id2)) as [<-|H2];
      rewrite ?lookup_insert_eq, ?lookup_insert_ne by assumption;
      [reflexivity| | |apply Hdb].
    + intros [= <-] Ho2 Heq. rewrite Hnumber in Heq. exact (Hdb _ _ _ _ Ho Ho2 Heq).
    + intros Ho1 [= <-] Heq. rewrite Hnumber in Heq. exact (Hdb _ _ _ _ Ho1 Ho Heq).
Qed.

Lemma act_stockValid (a : Action) (db : Db) :
  stockValid db -> stockValid (act a db).
Proof.
  intros Hdb. destruct a as [sys req|u]; [now rewrite act_Checkout|simpl].
  destruct (applyUpdate_dom u db) as (_ & Hproducts & _).
  unfold stockValid. rewrite Hproducts. exact Hdb.
Qed.

(** X19.  Invariants of the store under checkouts and status or payment
    updates, in any sequence and whatever each one answers: a checkout
    leaves the store as it is; the stored stock of every product and variant
    stays non-negative; no two orders get the same order number; no order is
    deleted, and the order number, customer, lines, addresses, shipping
    method, payment method and payment amount of a stored order never
    change. *)
Theorem store_invariants (actions : list Action) (db : Db) :
  (forall sys req, act (Checkout sys req) db = db)
  /\ (stockValid db -> stockValid (acts actions db))
  /\ (uniqueNumbers db -> uniqueNumbers (acts actions db))
  /\ (forall id o,
        orders db !! id = Some o ->
        exists o', orders (acts actions db) !! id = Some o'
                   /\ frozen o' = frozen o).
Proof.
  split; [intros; apply act_Checkout|].
  revert db. induction actions as [|a rest IH]; intros db; simpl.
  - repeat split; eauto.
  - destruct (IH (act a db)) as (Hstock & Hunique & Hkept).
    split; [|split].
    + intros Hdb. now apply Hstock, act_stockValid.
    + intros Hdb. now apply Hunique, act_uniqueNumbers.
    + intros id o Ho. destruct (act_orders a db id o Ho) as (o1 & Ho1 & H1).
      destruct (Hkept id o1 Ho1) as (o2 & Ho2 & H2).
      exists o2. split; [exact Ho2|congruence].
Qed.

(** ** confirmPayment *)

(** X20.  [confirmPayment] does not match the payment intent to the order:
    it marks paid any order of the requester that is not paid yet, with any
    payment intent the provider reports as succeeded, whatever order id the
    metadata of the intent carries; the order is stored as processing, with
    the payment completed under the id of the intent.  Conversely it marks
    nothing paid unless the intent has succeeded and the requester is the
    customer of the order. *)
Theorem confirmPayment_does_not_match_intent_to_order (stripe : Stripe)
    (sys : Sys) (req : ConfirmPaymentReq.t) (pid id : string)
    (pi : PaymentIntent.t) (o : Order.t) (u : User.t) (db : Db) :
  present (ConfirmPaymentReq.paymentIntentId req) = Some pid ->
  present (ConfirmPaymentReq.orderId req) = Some id ->
  ConfirmPaymentReq.user req = Some u ->
  isValid id = true ->
  orders db !! id = Some o ->
  getPaymentIntent stripe pid = Some pi ->
  (PaymentIntent.status pi = "succeeded"%string ->
   Order.customer o = User.userId u ->
   Payment.status (Order.payment o) <> PayCompleted ->
   exists response o',
     confirmPayment stripe sys req db = (inr response, putOrder id o' db)
     /\ Payment.status (Order.payment o') = PayCompleted
     /\ Payment.transactionId (Order.payment o') = Some pid
     /\ Order.status o' = processing)
  /\ (PaymentIntent.status pi <> "succeeded"%string
      \/ Order.customer o <> User.userId u ->
      exists e, confirmPayment stripe sys req db = (inl e, db)).
Proof.
  intros Hpid Hid Hu Hvalid Ho Hpi. split.
  - intros Hstatus Hcustomer Hunpaid.
    rewrite (confirmPayment_checked stripe sys req pid id pi o u db)
      by assumption.
    rewrite bool_decide_eq_false_2 by exact Hunpaid.
    eexists _, _. split; [reflexivity|].
    unfold paidSaved. now destruct (bool_decide _).
  - intros Hnot.
    destruct (confirmPayment stripe sys req db) as [[e|response] db'] eqn:H.
    + exists e. f_equal. pose proof (confirmPayment_db stripe sys req db) as Hdb.
      rewrite H in Hdb. simpl in Hdb. revert Hdb.
      unfold confirmPaymentBody. rewrite Hpid, Hid, Hpi, Hu. simpl.
      destruct (String.eqb_spec (PaymentIntent.status pi) "succeeded");
        simpl; [|now intros ->].
      unfold bind, findById. rewrite Hvalid, Ho.
      destruct (String.eqb_spec (Order.customer o) (User.userId u));
        simpl; [|now intros ->].
      tauto.
    + apply confirmPayment_inr in H
        as (pid' & id' & pi' & o'' & u' & Hpid' & Hid' & Hpi' & Hs & _ & Ho'
            & Hu' & Hc).
      assert (pid' = pid) as -> by congruence.
      assert (id' = id) as -> by congruence.
      assert (pi' = pi) as -> by congruence.
      assert (o'' = o) as -> by congruence.
      assert (u' = u) as -> by congruence.
      tauto.
Qed.

(** * createPaymentIntent *)

Lemma checkOrderToPay_run (user : option User.t) (id : string) (db : Db) :
  snd (checkOrderToPay user id db) = db
  /\ (fst (checkOrderToPay user id db) = inr tt
      <-> exists o u,
            isValid id = true
            /\ orders db !! id = Some o
            /\ user = Some u
            /\ Order.customer o = User.userId u
            /\ Payment.status (Order.payment o) <> PayCompleted).
Proof.
  unfold checkOrderToPay, bindH, call, findById, throwH, retH.
  destruct (isValid id); simpl.
  2: { split; [reflexivity|]. split; [discriminate|].
       intros (o & u & Hvalid & _). discriminate Hvalid. }
  destruct (orders db !! id) as [o|]; simpl.
  2: { split; [reflexivity|]. split; [discriminate|].
       intros (o & u & _ & Ho & _). discriminate Ho. }
  destruct user as [u|]; simpl.
  2: { split; [reflexivity|]. split; [discriminate|].
       intros (o' & u & _ & _ & Hu & _). discriminate Hu. }
  destruct (String.eqb_spec (Order.customer o) (User.userId u)) as [Hown|Hown];
    simpl.
  2: { split; [reflexivity|]. split; [discriminate|].
       intros (o' & u' & _ & [= <-] & [= <-] & Hc & _). congruence. }
  destruct (bool_decide (Payment.status (Order.payment o) = PayCompleted))
    eqn:Hpaid; simpl.
  - apply bool_decide_eq_true in Hpaid.
    split; [reflexivity|]. split; [discriminate|].
    intros (o' & u' & _ & [= <-] & _ & _ & Hnot). congruence.
  - apply bool_decide_eq_false in Hpaid.
    split; [reflexivity|]. split; [|reflexivity].
    intros _. exists o, u. auto.
Qed.

(** A [createPaymentIntent] that succeeds has called the provider. *)
Lemma createPaymentIntent_run (service : IntentService) (user : option User.t)
    (amount : option Q) (orderId currency : option string) (db : Db) :
  (exists response,
     fst (createPaymentIntent service user amount orderId currency db)
     = inr response) ->
  exists a,
    amount = Some a
    /\ exists paymentIntent,
         service a (default "usd"%string currency) (intentMetadata user orderId)
         = Some paymentIntent.
Proof.
  unfold createPaymentIntent. intros [response H].
  destruct amount as [a|]; [|discriminate H].
  destruct (Qle_bool a 0); [discriminate H|].
  exists a. split; [reflexivity|]. unfold bindH in H.
  destruct (match present orderId with
            | Some id => checkOrderToPay user id
            | None => retH tt
            end db) as [[t|[]] db1]; [discriminate H|].
  destruct (service a _ _) as [pi|]; [eauto|discriminate H].
Qed.

(** X21.  [createPaymentIntent] writes nothing and does not compare the
    amount with the order.  A request that succeeds had a positive amount,
    and the provider has created an intent for exactly this amount, with the
    metadata [orderId] set to the order id of the request, or to 'pending'
    when it has none; when the request names an order, the order is stored,
    belongs to the requester and is not paid yet.  Conversely, for an unpaid
    order of the requester every positive amount that the provider accepts
    succeeds, whatever the total of the order is. *)
Theorem createPaymentIntent_does_not_check_amount (service : IntentService)
    (user : option User.t) (amount : option Q) (orderId currency : option string)
    (db : Db) :
  snd (createPaymentIntent service user amount orderId currency db) = db
  /\ (forall response,
        fst (createPaymentIntent service user amount orderId currency db)
        = inr response ->
        exists a paymentIntent,
          amount = Some a
          /\ (0 < a)%Q
          /\ service a (default "usd"%string currency)
               (intentMetadata user orderId) = Some paymentIntent
          /\ IntentMetadata.orderId (intentMetadata user orderId)
             = orElse orderId "pending"
          /\ response
             = mkIntentResponse OK (CreatedIntent.client_secret paymentIntent)
                 (CreatedIntent.id paymentIntent)
          /\ forall id,
               present orderId = Some id ->
               exists o u,
                 orders db !! id = Some o
                 /\ user = Some u
                 /\ Order.customer o = User.userId u
                 /\ Payment.status (Order.payment o) <> PayCompleted)
  /\ (forall a id o u paymentIntent,
        amount = Some a ->
        (0 < a)%Q ->
        present orderId = Some id ->
        isValid id = true ->
        orders db !! id = Some o ->
        user = Some u ->
        Order.customer o = User.userId u ->
        Payment.status (Order.payment o) <> PayCompleted ->
        service a (default "usd"%string currency) (intentMetadata user orderId)
        = Some paymentIntent ->
        fst (createPaymentIntent service user amount orderId currency db)
        = inr (mkIntentResponse OK (CreatedIntent.client_secret paymentIntent)
                 (CreatedIntent.id paymentIntent))).
Proof.
  unfold createPaymentIntent.
  destruct amount as [a|]; [|repeat split; discriminate].
  destruct (Qle_bool a 0) eqn:Hle.
  { split; [reflexivity|]. split; [discriminate|].
    intros a' id o u pi [= <-] Hpos. apply Qle_bool_iff in Hle.
    now apply Qlt_not_le in Hpos. }
  assert (Hpos : (0 < a)%Q).
  { apply Qnot_le_lt. intros H. apply Qle_bool_iff in H. congruence. }
  unfold bindH.
  destruct (present orderId) as [id|] eqn:Hid.
  - destruct (checkOrderToPay_run user id db) as [Hdb Hok].
    destruct (checkOrderToPay user id db) as [[t|[]] db1]; simpl in *; subst db1.
    + split; [reflexivity|]. split; [discriminate|].
      intros a' id' o u pi _ _ [= <-] Hvalid Ho Hu Hc Hunpaid _.
      assert (Hno : @inl Thrown unit t = inr tt) by (apply Hok; eauto 10).
      discriminate Hno.
    + destruct (proj1 Hok eq_refl) as (o & u & Hvalid & Ho & Hu & Hc & Hunpaid).
      destruct (service a _ _) as [pi|] eqn:Hservice; simpl.
      * split; [reflexivity|]. split.
        -- intros response [= <-]. exists a, pi.
           repeat (split; [reflexivity || assumption|]).
           intros id' [= <-]. eauto 10.
        -- intros a' id' o' u' pi' [= <-] _ _ _ _ _ _ _ Hs.
           rewrite Hservice in Hs. now injection Hs as <-.
      * split; [reflexivity|]. split; [discriminate|].
        intros a' id' o' u' pi' [= <-] _ _ _ _ _ _ _ Hs.
        rewrite Hservice in Hs. discriminate Hs.
  - simpl. destruct (service a _ _) as [pi|] eqn:Hservice; simpl.
    + split; [reflexivity|]. split.
      * intros response [= <-]. exists a, pi.
        repeat (split; [reflexivity || assumption|]).
        intros id' Hid'. discriminate Hid'.
      * intros a' id' o' u' pi' _ _ Hid'. discriminate Hid'.
    + split; [reflexivity|]. split; [discriminate|].
      intros a' id' o' u' pi' _ _ Hid'. discriminate Hid'.
Qed.

(** X22.  A payment intent that [createPaymentIntent] creates for a request
    without order id cannot be settled through the webhook: its metadata
    carries the order id 'pending', and a verified [payment_intent.succeeded],
    [payment_intent.payment_failed] or [payment_intent.canceled] event for an
    intent with this metadata makes [Order.findById] throw, so that
    [handleWebhook] answers 400 and changes nothing, in every database. *)
Theorem intent_without_order_is_refused_by_webhook (service : IntentService)
    (user : option User.t) (amount : option Q) (currency : option string)
    (db db' : Db) (response : IntentResponse) :
  createPaymentIntent service user amount None currency db = (inr response, db') ->
  exists a metadata paymentIntent,
    amount = Some a
    /\ service a (default "usd"%string currency) metadata = Some paymentIntent
    /\ IntentMetadata.orderId metadata = "pending"%string
    /\ forall stripe sys req signature event pi db2,
         present (WebhookReq.signature req) = Some signature ->
         constructWebhookEvent stripe (WebhookReq.body req) signature
         = Some event ->
         event = payment_intent_succeeded pi
         \/ event = payment_intent_payment_failed pi
         \/ event = payment_intent_canceled pi ->
         PaymentIntent.orderId pi = Some (IntentMetadata.orderId metadata) ->
         handleWebhook stripe sys req db2
         = (inr (mkResponse BAD_REQUEST WebhookFailedBody), db2).
Proof.
  intros H.
  destruct (createPaymentIntent_run service user amount None currency db)
    as (a & Ha & Hservice).
  { exists response. now rewrite H. }
  exists a, (intentMetadata user None). destruct Hservice as [pi0 Hservice].
  exists pi0. split; [exact Ha|]. split; [exact Hservice|].
  split; [reflexivity|].
  intros stripe sys req signature event pi db2 Hsig Hevent Htype Hpending.
  rewrite (handleWebhook_run stripe sys req signature event db2 Hsig Hevent).
  pose proof (dispatchEvent_throws sys event db2) as Hthrows.
  assert (Hp : processingThrows event = true).
  { unfold processingThrows, eventOrderId.
    destruct Htype as [->|[->| ->]]; now rewrite Hpending. }
  rewrite Hp in Hthrows. destruct Hthrows as [e ->]. reflexivity.
Qed.
(** ** The theorems at the sample data *)

(** The totals scenario.  For the cart with one line of two mugs at 10.00, a
    tax rate of 10%, shipping at 5.00 and no discount the specification has
    the totals 20.00 + 2.00 + 5.00 = 27.00; [calculateTotals] rejects the
    cart with a ValidationError and leaves the stored cart as it was. *)
Lemma calculateTotals_rejects_unset_discount_tax_or_shipping_witness :
  let c := Sample.taxedCart in
  let db := Sample.dbTaxed in
  (CartDiscount.value (Cart.discount c) = None
   \/ CartTax.rate (Cart.tax c) = None
   \/ CartShipping.price (Cart.shippingMethod c) = None)
  /\ (let '(subtotal, tax, shipping, total) := TotalsSpec.totals c in
      subtotal == 20 /\ tax == 2 /\ shipping == 5 /\ total == 27)
  /\ calculateTotals Sample.cartA c db
     = (inl (ValidationError CartValidationFailed), db).
Proof.
  intros c db.
  assert (H : CartDiscount.value (Cart.discount c) = None
              \/ CartTax.rate (Cart.tax c) = None
              \/ CartShipping.price (Cart.shippingMethod c) = None)
    by (left; reflexivity).
  split; [exact H|]. split; [repeat split|].
  exact (calculateTotals_rejects_unset_discount_tax_or_shipping Sample.cartA c db H).
Defined.

(** A checkout of seven mugs against a stock of five is refused for
    insufficient stock and leaves the database as it was. *)
Lemma createOrder_validation_failure_mutates_nothing_witness :
  let sys := Sample.sys Sample.orderA in
  let req := Sample.checkout Sample.alice Sample.cartA in
  let db := Sample.db 7 3 in
  let e := BadRequestError (NotEnoughInventoryFor "Mug" 5) in
  createOrder sys req db = (inl e, db)
  /\ isValidationFailure e = true
  /\ (db = db
      /\ orders db = orders db
      /\ products db = products db
      /\ carts db !! CreateOrderReq.cartId req = carts db !! CreateOrderReq.cartId req).
Proof.
  intros sys req db e.
  assert (H1 : createOrder sys req db = (inl e, db)) by (vm_compute; reflexivity).
  assert (H2 : isValidationFailure e = true) by reflexivity.
  split; [exact H1|]. split; [exact H2|].
  exact (createOrder_validation_failure_mutates_nothing sys req db db e H1 H2).
Defined.

(** The two checkouts resumed in turn, two steps at a time: both are
    refused, and the five mugs are still in stock. *)
Lemma concurrent_checkouts_sell_nothing_witness :
  let db := Sample.dbTotalled 3 3 in
  let out := run [0; 0; 1; 1; 0; 0; 1; 1]%nat Sample.twoCheckouts db in
  map jobTask (fst out)
  = [Finished (inl (ValidationError OrderValidationFailed));
     Finished (inl (ValidationError OrderValidationFailed))]
  /\ stockOf (snd out) Sample.P1 = Some 5%Z
  /\ orders (snd out) = ∅.
Proof.
  intros db out. subst out db.
  pose proof (concurrent_checkouts_sell_nothing [0; 0; 1; 1; 0; 0; 1; 1]%nat) as H.
  cbv zeta in H. destruct H as (Hstock & Hdb & _ & Hdone & _).
  split; [apply Hdone; simpl; lia|].
  rewrite Hdb. split; [exact Hstock|reflexivity].
Defined.

(** Alice's pending order is set to shipped. *)
Lemma updateOrderStatus_accepts_every_transition_witness :
  let o := Sample.order pending PayPending None in
  let db := Sample.dbWithOrder o in
  isValid Sample.orderA = true
  /\ orders db !! Sample.orderA = Some o
  /\ exists saved,
       updateOrderStatus (Sample.sys "") Sample.orderA "shipped" db
       = (inr (mkResponse OK (OrderBody Sample.orderA saved)),
          putOrder Sample.orderA saved db)
       /\ Order.status saved = shipped.
Proof.
  intros o db.
  assert (H1 : isValid Sample.orderA = true) by reflexivity.
  assert (H2 : orders db !! Sample.orderA = Some o) by reflexivity.
  split; [exact H1|]. split; [exact H2|].
  pose proof (updateOrderStatus_accepts_every_transition (Sample.sys "")
                Sample.orderA "shipped" db o H1 H2) as H.
  change (parseStatus "shipped") with (Some shipped) in H.
  destruct H as (saved & Hrun & Hstatus & _). eauto.
Defined.

(** Alice's paid order: a repeated [confirmPayment] and a repeated succeeded
    webhook are answered with success and change nothing. *)
Lemma payment_confirmation_idempotent_witness :
  let o := Sample.order processing PayCompleted (Some "pi_1"%string) in
  let db := Sample.dbWithOrder o in
  let event :=
    payment_intent_succeeded
      (PaymentIntent.mk "pi_1" "succeeded" (Some Sample.orderA)) in
  let req :=
    ConfirmPaymentReq.mk (Some Sample.alice) (Some "pi_1"%string)
      (Some Sample.orderA) in
  isValid Sample.orderA = true
  /\ orders db !! Sample.orderA = Some o
  /\ Payment.status (Order.payment o) = PayCompleted
  /\ confirmPayment (Sample.stripe event) (Sample.sys "") req db
     = (inr (mkResponse OK (MessageOrderBody "Order is already paid" Sample.orderA o)),
        db)
  /\ handleWebhook (Sample.stripe event) (Sample.sys "") Sample.webhook db
     = (inr (mkResponse OK ReceivedBody), db).
Proof.
  intros o db event req.
  assert (H1 : isValid Sample.orderA = true) by reflexivity.
  assert (H2 : orders db !! Sample.orderA = Some o) by reflexivity.
  assert (H3 : Payment.status (Order.payment o) = PayCompleted) by reflexivity.
  split; [exact H1|]. split; [exact H2|]. split; [exact H3|].
  destruct (payment_confirmation_idempotent (Sample.stripe event) (Sample.sys "")
              Sample.orderA o db H1 H2 H3) as (Hconfirm & Hwebhook & _).
  split.
  - destruct (Hconfirm req eq_refl) as [_ Hc].
    apply (Hc "pi_1"%string
             (PaymentIntent.mk "pi_1" "succeeded" (Some Sample.orderA))
             Sample.alice); reflexivity.
  - apply (Hwebhook Sample.webhook "t=1,v1=ok"%string
             (PaymentIntent.mk "pi_1" "succeeded" (Some Sample.orderA)));
      reflexivity.
Defined.


(** ** The further theorems at the sample data *)

(** Alice's pending order is set to shipped twice: one entry is added to its
    history. *)
Lemma statusHistory_append_only_witness :
  let o := Sample.order pending PayPending None in
  let db := Sample.dbWithOrder o in
  let updates :=
    [UpdateOrderStatus (Sample.sys "") Sample.orderA "shipped";
     UpdateOrderStatus (Sample.sys "") Sample.orderA "shipped"] in
  orders db !! Sample.orderA = Some o
  /\ exists o' added,
       orders (applyUpdates updates db) !! Sample.orderA = Some o'
       /\ Order.statusHistory o' = Order.statusHistory o ++ added
       /\ (length added <= 2)%nat.
Proof.
  intros o db updates.
  assert (H : orders db !! Sample.orderA = Some o) by reflexivity.
  split; [exact H|].
  exact (statusHistory_append_only updates db Sample.orderA o H).
Defined.

(** [Order.create] stores Alice's order with the single history entry
    "pending"; her stored order, set to shipped, has "shipped" as its last
    entry. *)
Lemma statusHistory_records_current_status_witness :
  let sys := Sample.sys Sample.orderA in
  let o := Sample.order pending PayPending None in
  let db := Sample.dbWithOrder o in
  let updates := [UpdateOrderStatus (Sample.sys "") Sample.orderA "shipped"] in
  (exists created db',
      createOrderDocument sys Scenario.namedTaxDocument Scenario.shop
      = (inr created, db')
      /\ Order.statusHistory created
         = [StatusEntry.mk pending (now sys) (Some "Order created"%string)])
  /\ exists o',
       orders (applyUpdates updates db) !! Sample.orderA = Some o'
       /\ Order.status o' = shipped
       /\ StatusEntry.status <$> last (Order.statusHistory o') = Some shipped.
Proof.
  intros sys o db updates.
  destruct statusHistory_records_current_status as [Hcreate Hkept].
  split.
  - assert (H : { out | createOrderDocument sys Scenario.namedTaxDocument
                          Scenario.shop = (inr (fst out), snd out) }).
    { eexists (_, _). vm_compute. reflexivity. }
    destruct H as [[created db'] H]. exists created, db'.
    split; [exact H|]. exact (proj1 (proj2 (Hcreate _ _ _ _ _ H))).
  - assert (H1 : orders db !! Sample.orderA = Some o) by reflexivity.
    assert (H2 : historyCurrent o) by reflexivity.
    destruct (Hkept Sample.orderA o db updates H1 H2) as (o' & Ho' & Hlast).
    exists o'. split; [exact Ho'|].
    assert (Hstatus : Order.status o' = shipped).
    { assert (Hrun : orders (applyUpdates updates db) !! Sample.orderA
                     = Some (statusSaved (Sample.sys "") o shipped))
        by (vm_compute; reflexivity).
      rewrite Hrun in Ho'. now injection Ho' as <-. }
    split; [exact Hstatus|]. now rewrite Hlast, Hstatus.
Defined.

(** Alice's pending order is paid and then refunded: the payment is still
    for the total of the order. *)
Lemma payment_record_sound_witness :
  let o := Sample.order pending PayPending None in
  let db := Sample.dbWithOrder o in
  let updates :=
    [ConfirmPayment Scenario.provider (Sample.sys "")
       (ConfirmPaymentReq.mk (Some Sample.alice) (Some "pi_1"%string)
          (Some Sample.orderA));
     CreateRefund Scenario.provider (Sample.sys "")
       (RefundReq.mk (Some Sample.orderA) None None)] in
  orders db !! Sample.orderA = Some o
  /\ paymentSound o
  /\ exists o',
       orders (applyUpdates updates db) !! Sample.orderA = Some o'
       /\ Payment.amount (Order.payment o') = Order.total o'.
Proof.
  intros o db updates.
  assert (H1 : orders db !! Sample.orderA = Some o) by reflexivity.
  assert (H2 : paymentSound o) by (split; [reflexivity|discriminate]).
  split; [exact H1|]. split; [exact H2|].
  destruct (payment_record_sound Sample.orderA o db updates H1 H2)
    as (o' & Ho' & Hamount & _).
  exists o'. split; [exact Ho'|exact Hamount].
Defined.

(** Alice's paid order is refunded; the same request again is refused. *)
Lemma createRefund_twice_is_refused_witness :
  let sys := Sample.sys "" in
  let req := RefundReq.mk (Some Sample.orderA) None None in
  let db := Sample.dbWithOrder Scenario.paid in
  let out := createRefund Scenario.provider sys req db in
  let response :=
    mkResponse OK
      (RefundBody "Refund created successfully"
         (Refund.mk "re_1" (2500 # 100) "succeeded")
         Sample.orderA (refundedOrder sys Scenario.paid)) in
  out = (inr response, snd out)
  /\ createRefund Scenario.provider sys req (snd out)
     = (inl (BadRequestError AlreadyRefunded), snd out).
Proof.
  intros sys req db out response.
  assert (H : out = (inr response, snd out)) by (vm_compute; reflexivity).
  split; [exact H|].
  destruct (createRefund_twice_is_refused Scenario.provider sys req db (snd out)
              response H) as (id & o1 & _ & _ & _ & _ & Hagain).
  apply Hagain.
Defined.

(** The cart of the totals scenario with the discount of the code FLAT5:
    subtotal 20.00, discount 5.00, tax 1.50, shipping 5.00, total 21.50. *)
Lemma calculateTotals_totals_of_complete_cart_witness :
  let c := Sample.completeCart [Sample.line 2] in
  let db := Scenario.dbComplete c in
  let c' := totalled c fixed 5 (1 # 10) 5 in
  CartDiscount.type (Cart.discount c) = Some fixed
  /\ CartDiscount.value (Cart.discount c) = Some 5%Q
  /\ CartTax.rate (Cart.tax c) = Some (1 # 10)%Q
  /\ CartShipping.price (Cart.shippingMethod c) = Some 5%Q
  /\ TotalsSpec.holds c'
  /\ calculateTotals Sample.cartA c db = (inr c', Scenario.dbComplete c')
  /\ (Cart.subtotal c' == 20)%Q
  /\ CartTax.amount (Cart.tax c') = Some (15 # 10)%Q
  /\ (Cart.total c' == 215 # 10)%Q.
Proof.
  intros c db c'.
  destruct (calculateTotals_totals_of_complete_cart Sample.cartA c db fixed 5
              (1 # 10) 5 eq_refl eq_refl eq_refl eq_refl)
    as (_ & _ & _ & _ & Hholds & Hrun).
  repeat (split; [reflexivity|]). split; [exact Hholds|].
  split; [rewrite Hrun; vm_compute; reflexivity|].
  split; [vm_compute; reflexivity|]. split; vm_compute; reflexivity.
Defined.

(** Two mugs are added to the cart that [Cart.create] has made for Alice:
    the cart has no tax rate, [addItem] fails with a ValidationError and the
    cart stays empty. *)
Lemma cart_without_tax_rate_rejects_every_change_witness :
  let sys := Sample.sys "64d000000000000000000001" in
  let c := Sample.emptyCart Sample.alice in
  let m := AddItem Sample.P1 2 None in
  let db := Scenario.dbComplete c in
  CartTax.rate (Cart.tax c) = None
  /\ mutate sys Sample.cartA c m db
     = (inl (ValidationError CartValidationFailed), db)
  /\ exists e, mutate sys Sample.cartA c m db = (inl e, db).
Proof.
  intros sys c m db.
  assert (H : CartTax.rate (Cart.tax c) = None) by reflexivity.
  split; [exact H|]. split; [vm_compute; reflexivity|].
  apply (proj1 (cart_without_tax_rate_rejects_every_change sys Sample.cartA c m
                  db H)).
  discriminate.
Defined.

(** Seven mugs are added to Alice's cart against a stock of five: [addItem]
    throws and the database is as before. *)
Lemma cart_method_failure_writes_nothing_witness :
  let sys := Sample.sys "64d000000000000000000001" in
  let c := Scenario.complete [] 0 0 5 in
  let m := AddItem Sample.P1 7 None in
  let db := Scenario.dbComplete c in
  mutate sys Sample.cartA c m db = (inl (PlainError NotEnoughInventory), db)
  /\ db = db.
Proof.
  intros sys c m db.
  assert (H : mutate sys Sample.cartA c m db
              = (inl (PlainError NotEnoughInventory), db))
    by (vm_compute; reflexivity).
  split; [exact H|].
  exact (cart_method_failure_writes_nothing sys Sample.cartA c m db db _ H).
Defined.

(** Two mugs are added to Alice's cart, which has a discount, a tax rate
    and a shipping method: the line is within the stock of five. *)
Lemma addItem_respects_stock_witness :
  let sys := Sample.sys "64d000000000000000000001" in
  let c := Scenario.complete [] 0 0 5 in
  let db := Scenario.dbComplete c in
  let out := addItem sys Sample.cartA c Sample.P1 2 None db in
  exists c',
    out = (inr c', snd out)
    /\ Cart.items c' = [Sample.line 2]
    /\ exists product inventory line,
         products db !! Sample.P1 = Some product
         /\ In line (Cart.items c')
         /\ (CartItem.quantity line <= inventory)%Z
         /\ CartItem.maxQuantity line = Some inventory.
Proof.
  intros sys c db out.
  assert (H : { c' | out = (inr c', snd out) /\ Cart.items c' = [Sample.line 2] }).
  { eexists. split; vm_compute; reflexivity. }
  destruct H as [c' [H Hitems]]. exists c'.
  split; [exact H|]. split; [exact Hitems|].
  destruct (addItem_respects_stock sys Sample.cartA c c' Sample.P1 2 None db
              (snd out) H)
    as (product & inventory & line & Hp & _ & _ & Hin & _ & Hle & Hmax & _).
  exists product, inventory, line. auto.
Defined.

(** Two mugs are added to Alice's cart: the subtotal of the cart is the
    value of its line. *)
Lemma cart_methods_keep_lines_consistent_witness :
  let sys := Sample.sys "64d000000000000000000001" in
  let c := Scenario.complete [] 0 0 5 in
  let m := AddItem Sample.P1 2 None in
  let db := Scenario.dbComplete c in
  let out := mutate sys Sample.cartA c m db in
  Forall lineConsistent (Cart.items c)
  /\ exists c',
       out = (inr c', snd out)
       /\ Forall lineConsistent (Cart.items c')
       /\ (Cart.subtotal c' == linesValue (Cart.items c'))%Q.
Proof.
  intros sys c m db out.
  assert (H1 : Forall lineConsistent (Cart.items c)) by constructor.
  assert (H2 : { c' | out = (inr c', snd out) })
    by (eexists; vm_compute; reflexivity).
  destruct H2 as [c' H2].
  split; [exact H1|]. exists c'. split; [exact H2|].
  exact (cart_methods_keep_lines_consistent sys Sample.cartA c c' m db (snd out)
           H1 H2).
Defined.

(** Three mugs are added to Alice's cart, which already holds a line of
    three mugs: a second line is appended, and the cart holds six mugs
    against a stock of five. *)
Lemma addItem_never_merges_plain_lines_witness :
  let sys := Sample.sys "64d000000000000000000002" in
  let c := Scenario.complete [Sample.line 3] 30 (25 # 10) (325 # 10) in
  let db := Scenario.dbComplete c in
  let out := addItem sys Sample.cartA c Sample.P1 3 None db in
  stockOf db Sample.P1 = Some 5%Z
  /\ exists c' line,
       out = (inr c', snd out)
       /\ Cart.items c' = [Sample.line 3; line]
       /\ CartItem.product line = Sample.P1
       /\ CartItem.quantity line = 3%Z.
Proof.
  intros sys c db out. split; [reflexivity|].
  assert (H : { c' | out = (inr c', snd out) })
    by (eexists; vm_compute; reflexivity).
  destruct H as [c' H].
  destruct (addItem_never_merges_plain_lines sys Sample.cartA c c' Sample.P1 3 db
              (snd out) H)
    as (product & line & _ & Hitems & _ & Hproduct & Hquantity & _).
  exists c', line. split; [exact H|]. split; [exact Hitems|].
  split; [exact Hproduct|exact Hquantity].
Defined.

(** The line of Alice's cart is removed; removing it again changes
    nothing. *)
Lemma removeItem_idempotent_witness :
  let c := Scenario.complete [Sample.line 2] 20 (15 # 10) (215 # 10) in
  let db := Scenario.dbComplete c in
  let out := removeItem Sample.cartA c "64d000000000000000000001" db in
  exists c1,
    out = (inr c1, snd out)
    /\ Cart.items c1 = []
    /\ removeItem Sample.cartA c1 "64d000000000000000000001" (snd out)
       = (inr c1, snd out).
Proof.
  intros c db out.
  assert (H : { c1 | out = (inr c1, snd out) /\ Cart.items c1 = [] }).
  { eexists. split; vm_compute; reflexivity. }
  destruct H as [c1 [H Hitems]]. exists c1.
  split; [exact H|]. split; [exact Hitems|].
  exact (proj2 (proj2 (proj2
           (removeItem_idempotent Sample.cartA c c1 _ db (snd out) H)))).
Defined.

(** The line of two mugs in Alice's cart is set to four mugs, within the
    recorded stock of five. *)
Lemma updateItemQuantity_within_recorded_stock_witness :
  let c := Scenario.complete [Sample.line 2] 20 (15 # 10) (215 # 10) in
  let db := Scenario.dbComplete c in
  let out := updateItemQuantity Sample.cartA c "64d000000000000000000001" 4 db in
  exists c',
    out = (inr c', snd out)
    /\ products (snd out) = products db
    /\ exists i old line,
         Cart.items c !! i = Some old
         /\ Cart.items c' = <[i := line]> (Cart.items c)
         /\ CartItem.quantity line = 4%Z
         /\ withinMax line.
Proof.
  intros c db out.
  assert (H : { c' | out = (inr c', snd out) })
    by (eexists; vm_compute; reflexivity).
  destruct H as [c' H]. exists c'. split; [exact H|].
  destruct (updateItemQuantity_within_recorded_stock Sample.cartA c c' _ 4 db
              (snd out) H) as (Hproducts & _ & _ & Hset).
  split; [exact Hproducts|].
  destruct (Hset ltac:(lia))
    as (i & old & line & Hold & Hitems & _ & _ & _ & Hquantity & _ & _ & Hmax).
  exists i, old, line. auto.
Defined.

(** The code SAVE20 on Alice's cart of two mugs: the discount amount is
    within the subtotal. *)
Lemma applyDiscount_at_most_subtotal_witness :
  let c := Scenario.complete [Sample.line 2] 20 (15 # 10) (215 # 10) in
  let db := Scenario.dbComplete c in
  let out := applyDiscount Sample.cartA c "SAVE20" db in
  exists c',
    out = (inr c', snd out)
    /\ Cart.discountCode c' = Some "SAVE20"%string
    /\ (0 <= TotalsSpec.discountAmount c' (Cart.subtotal c') <= Cart.subtotal c')%Q
    /\ (0 <= Cart.total c')%Q.
Proof.
  intros c db out.
  assert (H : { c' | out = (inr c', snd out) })
    by (eexists; vm_compute; reflexivity).
  destruct H as [c' H]. exists c'. split; [exact H|].
  destruct (applyDiscount_at_most_subtotal Sample.cartA c c' "SAVE20" db (snd out)
              H) as (type & value & description & _ & Hcode & _ & Hamount & Htotal).
  split; [exact Hcode|]. split; [exact Hamount|exact Htotal].
Defined.

(** In a month whose numbers 99999 and 100000 are taken the generator
    returns 100000 again. *)
Lemma generateOrderNumber_repeats_after_99999_witness :
  let sys := Sample.sys "64e00000000000000000000c" in
  let db := Scenario.dbFullMonth in
  In (monthPrefix sys +:+ "-99999") (orderNumbers db)
  /\ In (monthPrefix sys +:+ "-100000") (orderNumbers db)
  /\ generateOrderNumber sys db = (inr "ORD-202611-100000"%string, db)
  /\ exists e, createOrderDocument sys Scenario.namedTaxDocument100000 db = (inl e, db).
Proof.
  intros sys db.
  assert (H1 : In (monthPrefix sys +:+ "-99999") (orderNumbers db))
    by (vm_compute; auto).
  assert (H2 : In (monthPrefix sys +:+ "-100000") (orderNumbers db))
    by (vm_compute; auto).
  assert (H3 : forall x, In x (orderNumbers db) ->
                 String.prefix (monthPrefix sys) x = true ->
                 exists s, x = monthPrefix sys +:+ "-" +:+ s
                           /\ allDigits s = true
                           /\ (String.length s = 5%nat \/ s = "100000"%string)).
  { assert (Hnumbers : orderNumbers db
                       = ["ORD-202611-99999"; "ORD-202611-100000"]%string)
      by (vm_compute; reflexivity).
    rewrite Hnumbers. intros x [<-|[<-|[]]] _;
      [exists "99999"%string|exists "100000"%string];
      (split; [vm_compute; reflexivity|]); (split; [reflexivity|]);
      [now left|now right]. }
  split; [exact H1|]. split; [exact H2|].
  destruct (generateOrderNumber_repeats_after_99999 sys db H1 H2 H3)
    as (Hnumber & Hrefused).
  split; [exact Hnumber|]. apply Hrefused. reflexivity.
Defined.

(** Alice's unpaid order, stored under the second order id, is marked paid
    with a succeeded payment intent whose metadata names the first order
    id. *)
Lemma confirmPayment_does_not_match_intent_to_order_witness :
  let sys := Sample.sys "" in
  let req :=
    ConfirmPaymentReq.mk (Some Sample.alice) (Some "pi_9"%string)
      (Some Sample.orderB) in
  let pi := PaymentIntent.mk "pi_9" "succeeded" (Some Sample.orderA) in
  let o := Sample.order pending PayPending None in
  let db := Scenario.dbSecondOrder in
  getPaymentIntent Scenario.provider "pi_9" = Some pi
  /\ orders db !! Sample.orderB = Some o
  /\ PaymentIntent.orderId pi <> Some Sample.orderB
  /\ exists response o',
       confirmPayment Scenario.provider sys req db
       = (inr response, putOrder Sample.orderB o' db)
       /\ Payment.status (Order.payment o') = PayCompleted
       /\ Payment.transactionId (Order.payment o') = Some "pi_9"%string
       /\ Order.status o' = processing.
Proof.
  intros sys req pi o db.
  assert (H1 : getPaymentIntent Scenario.provider "pi_9" = Some pi) by reflexivity.
  assert (H2 : orders db !! Sample.orderB = Some o) by reflexivity.
  split; [exact H1|]. split; [exact H2|]. split; [discriminate|].
  destruct (confirmPayment_does_not_match_intent_to_order Scenario.provider sys
              req "pi_9" Sample.orderB pi o Sample.alice db
              eq_refl eq_refl eq_refl eq_refl H2 H1) as [Hpaid _].
  apply Hpaid; [reflexivity|reflexivity|discriminate].
Defined.

(** Alice asks for a payment intent of 25.00 without naming an order; the
    succeeded event of that intent is answered 400. *)
Lemma intent_without_order_is_refused_by_webhook_witness :
  let event :=
    payment_intent_succeeded
      (PaymentIntent.mk "pi_7" "succeeded" (Some "pending"%string)) in
  let db := Sample.dbWithOrder (Sample.order pending PayPending None) in
  createPaymentIntent Scenario.intentService (Some Sample.alice) (Some 25%Q) None
    None db
  = (inr (mkIntentResponse OK "pi_7_secret" "pi_7"), db)
  /\ handleWebhook (Sample.stripe event) (Sample.sys "") Sample.webhook db
     = (inr (mkResponse BAD_REQUEST WebhookFailedBody), db).
Proof.
  intros event db.
  assert (H : createPaymentIntent Scenario.intentService (Some Sample.alice)
                (Some 25%Q) None None db
              = (inr (mkIntentResponse OK "pi_7_secret" "pi_7"), db))
    by reflexivity.
  split; [exact H|].
  destruct (intent_without_order_is_refused_by_webhook Scenario.intentService
              (Some Sample.alice) (Some 25%Q) None db db _ H)
    as (a & metadata & pi & _ & _ & Hpending & Hwebhook).
  apply (Hwebhook (Sample.stripe event) (Sample.sys "") Sample.webhook
           "t=1,v1=ok"%string event
           (PaymentIntent.mk "pi_7" "succeeded" (Some "pending"%string)));
    [reflexivity|reflexivity|now left|now rewrite Hpending].
Defined.

